(** * KMRL document analysis and routing pipeline

    A shallow embedding of the decision logic of the repository:

    - [backend/modules/routing/document_routing.py]   (Module [Routing])
    - [backend/modules/classification/document_classification.py]
      and [gemini_classification.py]                  (Modules [Classification], [Gemini])
    - [backend/modules/summarization/text_summarization.py] (Module [Summarization])
    - [app.py], [process_document_pipeline]            (Module [Pipeline])
    - [backend/utils/helpers.py], the upload helpers   (Module [Helpers])
    - [backend/config/config.py] and [DocumentIngestionService.allowed_file]
                                                       (Modules [Config], [Ingestion])

    Conventions.
    - A Python [str] is a [string]; every character is a code point below
      256, on which [str.lower], [str.isspace] and the regular expression
      class [\s] are the functions of Module [Py].
    - A Python [float] that the code only compares, stores and forwards is a
      rational [Q]: a decimal literal stands for its decimal value, 0.7 for
      7/10, and [<] on floats is [<] on these values.
    - Where the code computes with floats and the result decides what it
      returns (the sentence scores, the cut point of a preview), a float is
      the rational value of a binary64 number: [/] and [*] round the exact
      result to the nearest such number, ties to even ([round64]), and a
      float literal is the rounding of its decimal value. The built-in
      [sum], whose rounding differs between interpreter versions, is a
      field of the environment.
    - A call that may raise is a value of [exn + A], the left injection
      carrying [str(e)]; [try ... except Exception as e] is a [match] on it.
    - Library code that is not part of the repository (NLTK, gensim, the
      trained model, SMTP, HTTP, the extraction back ends) is a field of an
      environment record and is never given a body in the embedding. *)

From Stdlib Require Import Ascii QArith Qround Qabs Qpower.
From stdpp Require Import gmap strings list.


(** Exceptions are identified with their message, [str(e)]. *)
Definition exn : Type := string.

Definition raise {A} (e : exn) : exn + A := inl e.
Definition ret {A} (a : A) : exn + A := inr a.
Definition bind {A B} (m : exn + A) (k : A → exn + B) : exn + B :=
  match m with inl e => inl e | inr a => k a end.

Notation "x ←? m ; k" := (bind m (fun x => k))
  (at level 100, m at next level, right associativity, only parsing).

(** [try: body except e: handler]. *)
Definition try_except {A} (body : exn + A) (handler : exn → A) : A :=
  match body with inl e => handler e | inr a => a end.

(** ** Python string primitives *)
Module Py.

Definition ord (c : ascii) : N := N_of_ascii c.

(** [str.isspace] on one character, which is also the class [\s] of [re]
    on [str] patterns: TAB..CR, FS..US, SPACE, NEL and NBSP. *)
Definition isspace (c : ascii) : bool :=
  let n := ord c in
  ((9 <=? n) && (n <=? 13) || (28 <=? n) && (n <=? 32) ||
   (n =? 133) || (n =? 160))%N.

(** Characters with a lowercase mapping: A-Z and the Latin-1 capitals
    U+00C0..U+00DE without the multiplication sign U+00D7. *)
Definition isupper (c : ascii) : bool :=
  let n := ord c in
  ((65 <=? n) && (n <=? 90) ||
   (192 <=? n) && (n <=? 222) && negb (n =? 215))%N.

Definition lower_char (c : ascii) : ascii :=
  if isupper c then ascii_of_N (ord c + 32) else c.

(** [s.lower()] *)
Fixpoint lower (s : string) : string :=
  match s with
  | "" => ""
  | String c r => String (lower_char c) (lower r)
  end.

(** The class [a-z] (after lowering, [a-zA-Z] reduces to it). *)
Definition is_az (c : ascii) : bool :=
  let n := ord c in ((97 <=? n) && (n <=? 122))%N.

Definition is_AZ (c : ascii) : bool :=
  let n := ord c in ((65 <=? n) && (n <=? 90))%N.

Definition len (s : string) : nat := String.length s.

(** [s.startswith(p)] *)
Fixpoint startswith (p s : string) : bool :=
  match p, s with
  | "", _ => true
  | String _ _, "" => false
  | String a p', String b s' => if decide (a = b) then startswith p' s' else false
  end.

(** [needle in hay] on strings: substring search. *)
Fixpoint contains (needle hay : string) : bool :=
  startswith needle hay ||
  match hay with
  | "" => false
  | String _ hay' => contains needle hay'
  end.

(** [any(f(x) for x in l)] *)
Definition any {A} (f : A → bool) (l : list A) : bool := existsb f l.

(** [x in l] on a list of strings. *)
Definition elem (x : string) (l : list string) : bool :=
  existsb (String.eqb x) l.

Fixpoint lstrip (s : string) : string :=
  match s with
  | "" => ""
  | String c r => if isspace c then lstrip r else s
  end.

Definition rstrip (s : string) : string := String.rev (lstrip (String.rev s)).

(** [s.strip()] *)
Definition strip (s : string) : string := rstrip (lstrip s).

(** [sep.join(l)] *)
Fixpoint join (sep : string) (l : list string) : string :=
  match l with
  | [] => ""
  | [x] => x
  | x :: rest => x +:+ sep +:+ join sep rest
  end.

(** [s[:n]] *)
Fixpoint take (n : nat) (s : string) : string :=
  match n, s with
  | 0, _ => ""
  | _, "" => ""
  | S n', String c r => String c (take n' r)
  end.

Fixpoint filter (f : ascii → bool) (s : string) : string :=
  match s with
  | "" => ""
  | String c r => if f c then String c (filter f r) else filter f r
  end.

Fixpoint forall_chars (f : ascii → bool) (s : string) : bool :=
  match s with
  | "" => true
  | String c r => f c && forall_chars f r
  end.

(** [re.sub(r'\s+', ' ', s)]: every maximal run of whitespace becomes
    one space. [in_run] tells that the previous character was whitespace. *)
Fixpoint collapse_go (in_run : bool) (s : string) : string :=
  match s with
  | "" => ""
  | String c r =>
      if isspace c
      then (if in_run then collapse_go true r else String " " (collapse_go true r))
      else String c (collapse_go false r)
  end.
Definition collapse_ws (s : string) : string := collapse_go false s.

(** [s.split()]: the maximal runs of non-whitespace characters. [cur] is
    the word being read, reversed. *)
Fixpoint split_go (cur : string) (s : string) : list string :=
  match s with
  | "" => match cur with "" => [] | _ => [String.rev cur] end
  | String c r =>
      if isspace c
      then match cur with
           | "" => split_go "" r
           | _ => String.rev cur :: split_go "" r
           end
      else split_go (String c cur) r
  end.
Definition split (s : string) : list string := split_go "" s.

(** Truthiness of an optional string: [None] and [''] are falsy. *)
Definition truthy (o : option string) : bool :=
  match o with
  | Some (String _ _) => true
  | _ => false
  end.

End Py.

(** ** Dictionary entries

    The value stored under a key of a [dict] built from a [Document] row:
    the key may be missing, hold [None], or hold a value of the column's
    type. *)
Inductive field (A : Type) : Type :=
| Absent
| PyNone
| Val (a : A).
Arguments Absent {A}.
Arguments PyNone {A}.
Arguments Val {A} a.

(** [d.get(key, default)]; the result [None] is Python's [None]. *)
Definition get_default {A} (f : field A) (default : A) : option A :=
  match f with
  | Absent => Some default
  | PyNone => None
  | Val a => Some a
  end.

(** [str(x)] for a value that is a string or [None]. *)
Definition str_of (o : option string) : string :=
  match o with
  | Some s => s
  | None => "None"
  end.

(** [a < b] on floats. *)
Definition Qltb (a b : Q) : bool := negb (Qle_bool b a).

(** Rounding to the nearest integer, ties to even. *)
Definition half_even (q : Q) : Z :=
  let f := Qfloor q in
  match (q - inject_Z f ?= 1 # 2)%Q with
  | Lt => f
  | Gt => (f + 1)%Z
  | Eq => if Z.even f then f else (f + 1)%Z
  end.

(** The binary64 number nearest to [q], ties to even: the significand has
    53 bits. Overflow and subnormal numbers are out of reach of the
    lengths, counts and scores that the code computes with. *)
Definition round64 (q : Q) : Q :=
  if Qeq_bool q 0 then 0%Q
  else
    let a := Qabs q in
    let e0 := (Z.log2 (Qnum a) - Z.log2 (Zpos (Qden a)))%Z in
    let e := if Qle_bool (2 ^ e0) a then (e0 - 52)%Z else (e0 - 53)%Z in
    let r := Qred (inject_Z (half_even (a / 2 ^ e)) * 2 ^ e) in
    if Qle_bool 0 q then r else (- r)%Q.

(** [x / y] and [x * y] on floats, or on integers for [/]. *)
Definition fdiv (x y : Q) : Q := round64 (x / y).
Definition fmul (x y : Q) : Q := round64 (x * y).

(** [d.get(key)] on a dict given as an association list in insertion order. *)
Fixpoint assoc_get {V} (d : list (string * V)) (key : string) : option V :=
  match d with
  | [] => None
  | (k, v) :: rest => if String.eqb k key then Some v else assoc_get rest key
  end.

(** [d[key] = value] on a dict given as an association list: the value of
    an existing key is replaced in place, a new key is appended. *)
Fixpoint assoc_set {V} (d : list (string * V)) (key : string) (value : V)
    : list (string * V) :=
  match d with
  | [] => [(key, value)]
  | (k, v) :: rest =>
      if String.eqb k key then (k, value) :: rest else (k, v) :: assoc_set rest key value
  end.

(** ** Routing engine: [document_routing.py] *)
Module Routing.

Record Department := {
  name : string;
  email : string;
  responsible_person : string;
  categories : list string
}.

Record RoutingRules := {
  confidence_threshold : Q;
  fallback_department : string;
  priority_mapping : list (string * string);
  urgent_keywords : list string;
  sensitive_keywords : list string
}.

(** [_load_departments]: a dict, iterated in insertion order. *)
Definition _load_departments : list (string * Department) :=
  [ ("finance",
      {| name := "Finance Department"; email := "finance@company.com";
         responsible_person := "Finance Manager";
         categories := ["invoice"; "financial_statement"; "receipt"; "expense_report"] |});
    ("hr",
      {| name := "Human Resources"; email := "hr@company.com";
         responsible_person := "HR Manager";
         categories := ["resume"; "employment_contract"; "employee_handbook"; "policy_document"] |});
    ("legal",
      {| name := "Legal Department"; email := "legal@company.com";
         responsible_person := "Legal Counsel";
         categories := ["contract"; "legal_document"; "agreement"; "compliance_document"] |});
    ("operations",
      {| name := "Operations Department"; email := "operations@company.com";
         responsible_person := "Operations Manager";
         categories := ["report"; "technical_manual"; "procedure_document"] |});
    ("management",
      {| name := "Management"; email := "management@company.com";
         responsible_person := "Executive Team";
         categories := ["executive_summary"; "strategic_plan"; "board_document"] |});
    ("archive",
      {| name := "Document Archive"; email := "archive@company.com";
         responsible_person := "Document Controller";
         categories := ["other"; "unknown"] |}) ].

(** [_load_routing_rules] *)
Definition _load_routing_rules : RoutingRules :=
  {| confidence_threshold := 7 # 10;
     fallback_department := "archive";
     priority_mapping :=
       [ ("invoice", "high"); ("contract", "high"); ("legal_document", "high");
         ("financial_statement", "medium"); ("resume", "medium");
         ("report", "low"); ("other", "low") ];
     urgent_keywords := ["urgent"; "asap"; "immediate"; "priority"; "deadline"];
     sensitive_keywords := ["confidential"; "private"; "restricted"; "classified"] |}.

(** The attributes of a [DocumentRoutingService] that the decision and the
    dispatch read. *)
Record DocumentRoutingService := {
  departments : list (string * Department);
  routing_rules : RoutingRules;
  email_user : option string;
  email_password : option string;
  webhook_url : option string;
  notification_methods : list string
}.

(** [DocumentRoutingService.__init__(config)], the configuration keys read
    with [config.get] given as arguments ([None] when the key is missing,
    except [NOTIFICATION_METHODS], whose default is [['email']]). *)
Definition init (EMAIL_USER EMAIL_PASSWORD WEBHOOK_URL : option string)
    (NOTIFICATION_METHODS : option (list string)) : DocumentRoutingService :=
  {| departments := _load_departments;
     routing_rules := _load_routing_rules;
     email_user := EMAIL_USER;
     email_password := EMAIL_PASSWORD;
     webhook_url := WEBHOOK_URL;
     notification_methods := default ["email"] NOTIFICATION_METHODS |}.

(** The [document_info] dict. *)
Record DocumentInfo := {
  di_id : field Z;
  di_classification : field string;
  di_confidence : field Q;
  di_extracted_text : field string;
  di_original_filename : field string;
  di_file_type : field string;
  di_file_size : field Z;
  di_upload_date : field string;
  di_summary : field string
}.

Record RoutingResult := {
  department_id : string;
  department_name : string;
  department_email : option string;
  rr_responsible_person : option string;
  reason : string;
  confidence : Q;
  priority : string;
  is_sensitive : bool;
  needs_review : bool;
  routing_timestamp : string
}.

(** [_create_routing_result]; the keyword arguments with defaults
    ([priority='medium'], [is_sensitive=False], [needs_review=False]) are
    passed explicitly by the callers below. [now] is the reading of
    [datetime.now().isoformat()]. *)
Definition _create_routing_result (self : DocumentRoutingService) (now : string)
    (department : string) (reason : string) (confidence : Q)
    (priority : string) (is_sensitive needs_review : bool) : RoutingResult :=
  let dept_info := assoc_get (departments self) department in
  {| department_id := department;
     department_name := from_option name department dept_info;
     department_email := email <$> dept_info;
     rr_responsible_person := responsible_person <$> dept_info;
     reason := reason;
     confidence := confidence;
     priority := priority;
     is_sensitive := is_sensitive;
     needs_review := needs_review;
     routing_timestamp := now |}.

(** [text.lower()] where [text] may be [None]. *)
Definition lower_of (text : option string) : exn + string :=
  match text with
  | Some s => ret (Py.lower s)
  | None => raise "'NoneType' object has no attribute 'lower'"
  end.

(** [_determine_priority] *)
Definition _determine_priority (self : DocumentRoutingService)
    (text : option string) (category : option string) : exn + string :=
  text_lower ←? lower_of text;
  if Py.any (fun keyword => Py.contains keyword text_lower)
            (urgent_keywords (routing_rules self))
  then ret "urgent"
  else ret (default "low"
              (c ← category; assoc_get (priority_mapping (routing_rules self)) c)).

(** [_check_sensitive_content] *)
Definition _check_sensitive_content (self : DocumentRoutingService)
    (text : option string) : exn + bool :=
  text_lower ←? lower_of text;
  ret (Py.any (fun keyword => Py.contains keyword text_lower)
              (sensitive_keywords (routing_rules self))).

(** The loop of [determine_department]: the first department, in dict
    order, whose category list contains [category]. *)
Fixpoint find_department (category : option string)
    (depts : list (string * Department)) : option string :=
  match depts with
  | [] => None
  | (dept_id, dept_info) :: rest =>
      if match category with
         | Some c => Py.elem c (categories dept_info)
         | None => false
         end
      then Some dept_id
      else find_department category rest
  end.

(** The [try] block of [determine_department]. *)
Definition determine_department_body (self : DocumentRoutingService) (now : string)
    (document_info : DocumentInfo) : exn + RoutingResult :=
  let category := get_default (di_classification document_info) "other" in
  let confidence := get_default (di_confidence document_info) 0%Q in
  let text := get_default (di_extracted_text document_info) "" in
  match confidence with
  | None => raise "'<' not supported between instances of 'NoneType' and 'float'"
  | Some confidence =>
      if Qltb confidence (confidence_threshold (routing_rules self))
      then ret (_create_routing_result self now "archive"
                  "Low confidence classification" confidence "medium" false true)
      else
        let target_department := find_department category (departments self) in
        let target_department :=
          if Py.truthy target_department then default "" target_department
          else fallback_department (routing_rules self) in
        priority ←? _determine_priority self text category;
        is_sensitive ←? _check_sensitive_content self text;
        ret (_create_routing_result self now target_department
               ("Classified as " +:+ str_of category) confidence
               priority is_sensitive false)
  end.

(** [determine_department] *)
Definition determine_department (self : DocumentRoutingService) (now : string)
    (document_info : DocumentInfo) : RoutingResult :=
  try_except (determine_department_body self now document_info)
    (fun e => _create_routing_result self now "archive"
                ("Error in routing: " +:+ e) 0%Q "medium" false true).

Record NotificationData := {
  nd_document : DocumentInfo;
  nd_routing : RoutingResult;
  nd_timestamp : string
}.

(** One entry of [notifications_sent]. *)
Record Outcome := {
  method : string;
  success : bool;
  error : option string;
  recipient : option (option string);
  status_code : option Z
}.

(** The transports, which are not repository code: the SMTP session of
    [_send_email_notification] from [smtplib.SMTP(...)] to [server.quit()],
    and [requests.post] followed by [raise_for_status]. *)
Record Transport := {
  smtp_session : NotificationData → exn + unit;
  requests_post : string → NotificationData → exn + Z
}.

(** [_create_email_body] evaluates
    [document.get('summary', 'No summary available')[:500]], which raises
    when the summary is [None]; nothing else in it can fail, and the HTML
    text itself is not modelled. *)
Definition _create_email_body (notification_data : NotificationData) : exn + unit :=
  match get_default (di_summary (nd_document notification_data)) "No summary available" with
  | None => raise "'NoneType' object is not subscriptable"
  | Some _ => ret tt
  end.

(** [_send_email_notification] *)
Definition _send_email_notification (self : DocumentRoutingService) (tr : Transport)
    (notification_data : NotificationData) : Outcome :=
  try_except
    (if negb (Py.truthy (email_user self)) || negb (Py.truthy (email_password self))
     then ret {| method := "email"; success := false;
                 error := Some "Email credentials not configured";
                 recipient := None; status_code := None |}
     else
       _ ←? _create_email_body notification_data;
       _ ←? smtp_session tr notification_data;
       ret {| method := "email"; success := true; error := None;
              recipient := Some (department_email (nd_routing notification_data));
              status_code := None |})
    (fun e => {| method := "email"; success := false; error := Some e;
                 recipient := None; status_code := None |}).

(** [_send_webhook_notification]; it is only called with a truthy
    [webhook_url]. *)
Definition _send_webhook_notification (self : DocumentRoutingService) (tr : Transport)
    (notification_data : NotificationData) : Outcome :=
  try_except
    (code ←? requests_post tr (default "" (webhook_url self)) notification_data;
     ret {| method := "webhook"; success := true; error := None;
            recipient := None; status_code := Some code |})
    (fun e => {| method := "webhook"; success := false; error := Some e;
                 recipient := None; status_code := None |}).

(** The dict returned by [route_document]. *)
Record RouteResponse := {
  resp_success : bool;
  resp_routing_result : option RoutingResult;
  resp_notifications_sent : option (list Outcome);
  resp_message : option string;
  resp_error : option string
}.

(** The [try] block of [route_document]. [_log_routing_action] only writes
    to the process log and catches its own exceptions. *)
Definition route_document_body (self : DocumentRoutingService) (tr : Transport)
    (now : string) (document_info : DocumentInfo)
    (routing_result : option RoutingResult) : exn + RouteResponse :=
  let routing_result :=
    match routing_result with
    | Some r => r
    | None => determine_department self now document_info
    end in
  let notification_data :=
    {| nd_document := document_info; nd_routing := routing_result;
       nd_timestamp := now |} in
  let notification_results := [] in
  let notification_results :=
    if Py.elem "email" (notification_methods self)
    then notification_results ++ [_send_email_notification self tr notification_data]
    else notification_results in
  let notification_results :=
    if Py.elem "webhook" (notification_methods self) && Py.truthy (webhook_url self)
    then notification_results ++ [_send_webhook_notification self tr notification_data]
    else notification_results in
  ret {| resp_success := true;
         resp_routing_result := Some routing_result;
         resp_notifications_sent := Some notification_results;
         resp_message := Some ("Document routed to " +:+ department_name routing_result);
         resp_error := None |}.

(** [route_document] *)
Definition route_document (self : DocumentRoutingService) (tr : Transport)
    (now : string) (document_info : DocumentInfo)
    (routing_result : option RoutingResult) : RouteResponse :=
  try_except (route_document_body self tr now document_info routing_result)
    (fun e => {| resp_success := false;
                 resp_routing_result := routing_result;
                 resp_notifications_sent := None;
                 resp_message := None;
                 resp_error := Some e |}).

(** [add_department]: [self.departments[department_id] = department_info].
    The returned dict is the constant success answer; the service after the
    call is what matters. *)
Definition add_department (self : DocumentRoutingService) (department_id : string)
    (department_info : Department) : DocumentRoutingService :=
  {| departments := assoc_set (departments self) department_id department_info;
     routing_rules := routing_rules self;
     email_user := email_user self;
     email_password := email_password self;
     webhook_url := webhook_url self;
     notification_methods := notification_methods self |}.

(** The [new_rules] dict of [update_routing_rules]: a key that is not
    passed is [None]. *)
Record RulesUpdate := {
  new_confidence_threshold : option Q;
  new_fallback_department : option string;
  new_priority_mapping : option (list (string * string));
  new_urgent_keywords : option (list string);
  new_sensitive_keywords : option (list string)
}.

(** [update_routing_rules]: [self.routing_rules.update(new_rules)]. *)
Definition update_routing_rules (self : DocumentRoutingService) (new_rules : RulesUpdate)
    : DocumentRoutingService :=
  let old := routing_rules self in
  {| departments := departments self;
     routing_rules :=
       {| confidence_threshold :=
            default (confidence_threshold old) (new_confidence_threshold new_rules);
          fallback_department :=
            default (fallback_department old) (new_fallback_department new_rules);
          priority_mapping := default (priority_mapping old) (new_priority_mapping new_rules);
          urgent_keywords := default (urgent_keywords old) (new_urgent_keywords new_rules);
          sensitive_keywords :=
            default (sensitive_keywords old) (new_sensitive_keywords new_rules) |};
     email_user := email_user self;
     email_password := email_password self;
     webhook_url := webhook_url self;
     notification_methods := notification_methods self |}.

End Routing.

(** ** The NLTK collaborators

    [nltk.tokenize.word_tokenize], [nltk.tokenize.sent_tokenize] (both raise
    [LookupError] when the punkt data is missing), [PorterStemmer().stem] and
    the stop word set chosen in [__init__]. *)
Record NLP := {
  word_tokenize : string → exn + list string;
  sent_tokenize : string → exn + list string;
  stem : string → string;
  stop_words : list string
}.

(** The stop words used when [stopwords.words('english')] is unavailable. *)
Definition fallback_stop_words : list string :=
  ["the"; "a"; "an"; "and"; "or"; "but"; "in"; "on"; "at"; "to"; "for"; "of"; "with"; "by"].

(** [max(l)] on a non-empty list of floats; [max([])] raises. *)
Definition Qmax_list (l : list Q) : exn + Q :=
  match l with
  | [] => raise "max() arg is an empty sequence"
  | x :: rest => ret (fold_left (fun m y => if Qltb m y then y else m) rest x)
  end.

(** ** Classification engine: [document_classification.py] *)
Module Classification.

(** What the trained pair does with a processed text:
    [vectorizer.transform], [model.predict], [model.predict_proba] and
    [model.classes_]. *)
Record MLOutput := {
  prediction : string;
  classes_ : list string;
  probabilities : list Q
}.

Record DocumentClassificationService := {
  nlp : NLP;
  (** [self.model and self.vectorizer]: [None] when no model was loaded. *)
  model : option (string → exn + MLOutput)
}.

(** [preprocess_text] *)
Definition preprocess_text (self : DocumentClassificationService) (text : string)
    : exn + string :=
  let text := Py.lower text in
  let text := Py.filter (fun c => Py.is_az c || Py.is_AZ c || Py.isspace c) text in
  let text := Py.collapse_ws text in
  tokens ←? word_tokenize (nlp self) text;
  let tokens :=
    map (stem (nlp self))
        (filter (fun token => negb (Py.elem token (stop_words (nlp self)))
                              && (2 <? Py.len token) = true) tokens) in
  ret (Py.join " " tokens).

(** [rule_based_classification]. A nested [if a: if b: return r] is written
    [if a && b]. *)
Definition rule_based_classification (text : string) : string * Q :=
  let text_lower := Py.lower text in
  let any_in := Py.any (fun word => Py.contains word text_lower) in
  if any_in ["invoice"; "bill"; "payment"; "amount due"; "total"]
     && any_in ["$"; "usd"; "total"; "subtotal"]
  then ("invoice", 8 # 10)
  else if any_in ["agreement"; "contract"; "terms and conditions"; "whereas"]
  then ("contract", 7 # 10)
  else if any_in ["experience"; "education"; "skills"; "employment history"]
          && any_in ["university"; "degree"; "work experience"]
  then ("resume", 75 # 100)
  else if any_in ["court"; "legal"; "attorney"; "law"; "plaintiff"; "defendant"]
  then ("legal_document", 7 # 10)
  else if any_in ["executive summary"; "conclusion"; "analysis"; "findings"]
  then ("report", 6 # 10)
  else ("other", 5 # 10).

Record ClassificationResult := {
  success : bool;
  error : option string;
  category : string;
  confidence : Q;
  all_probabilities : option (list (string * Q));
  method : option string
}.

(** The classification strategies, for the record of which ones a call ran. *)
Inductive strategy := MachineLearning | RuleBased.

(** The test [not text or len(text.strip()) < 10]. *)
Definition too_short (text : option string) : bool :=
  match text with
  | None => true
  | Some "" => true
  | Some s => Py.len (Py.strip s) <? 10
  end.

(** The machine learning branch of [classify_document]. *)
Definition ml_branch (self : DocumentClassificationService)
    (predict : string → exn + MLOutput) (text : string) : exn + ClassificationResult :=
  processed_text ←? preprocess_text self text;
  out ←? predict processed_text;
  confidence ←? Qmax_list (probabilities out);
  ret {| success := true; error := None;
         category := prediction out;
         confidence := confidence;
         all_probabilities := Some (zip (classes_ out) (probabilities out));
         method := Some "machine_learning" |}.

(** [classify_document], together with the strategies it ran, in order. *)
Definition classify_document_run (self : DocumentClassificationService)
    (text : option string) : ClassificationResult * list strategy :=
  if too_short text
  then ({| success := false; error := Some "Text too short for classification";
           category := "other"; confidence := 0;
           all_probabilities := None; method := None |}, [])
  else
    let text := default "" text in
    match model self with
    | Some predict =>
        match ml_branch self predict text with
        | inr r => (r, [MachineLearning])
        | inl e =>
            let '(category, confidence) := rule_based_classification text in
            ({| success := false; error := Some e;
                category := category; confidence := confidence;
                all_probabilities := None;
                method := Some "rule_based_fallback" |},
             [MachineLearning; RuleBased])
        end
    | None =>
        let '(category, confidence) := rule_based_classification text in
        ({| success := true; error := None;
            category := category; confidence := confidence;
            all_probabilities := None; method := Some "rule_based" |},
         [RuleBased])
    end.

(** [classify_document] *)
Definition classify_document (self : DocumentClassificationService)
    (text : option string) : ClassificationResult :=
  fst (classify_document_run self text).

End Classification.

(** ** The demo classifier: [gemini_classification.py] *)
Module Gemini.

Record GeminiResult := {
  success : bool;
  error : option string;
  document_name : string;
  predicted_type : string;
  confidence : Q;
  reasoning : option string;
  method : option string
}.

Record GeminiDocumentClassifier := {
  is_available : bool;
  (** [_classify_with_gemini]: the API call and the parsing of its JSON
      answer, which raises on any transport or format error. *)
  _classify_with_gemini : string → string → exn + GeminiResult
}.

(** [self.mock_classifications] *)
Definition mock_classifications : list (string * (string * Q)) :=
  [ ("invoice", ("Invoice", 92 # 100));
    ("purchase_order", ("Purchase Order", 90 # 100));
    ("report", ("Report", 85 # 100));
    ("policy_circular", ("Policy / Circular", 88 # 100));
    ("regulatory_compliance", ("Regulatory / Compliance", 87 # 100));
    ("other", ("Other", 75 # 100)) ].

(** [sum(1 for keyword in keywords if keyword in text_lower)] *)
Definition keyword_score (keywords : list string) (text_lower : string) : nat :=
  length (filter (fun keyword => Py.contains keyword text_lower = true) keywords).

(** The keyword table of [_classify_with_mock], in the order of [scores]. *)
Definition mock_keywords : list (string * list string) :=
  [ ("invoice", ["invoice"; "bill"; "payment"; "amount due"; "total"; "$";
                 "billing"; "tax"; "subtotal"; "payable"]);
    ("purchase_order", ["purchase order"; "purchase request"; "procurement";
                        "vendor"; "order"; "material requisition"; "supplier"; "quote"]);
    ("report", ["report"; "analysis"; "summary"; "finding"; "conclusion";
                "engineering report"; "incident report"; "investigation";
                "performance"; "monthly"; "quarterly"]);
    ("policy_circular", ["policy"; "procedure"; "guideline"; "circular"; "sop";
                         "standard operating"; "handbook"; "manual"; "rule"]);
    ("regulatory_compliance", ["regulatory"; "compliance"; "legal"; "directive";
                               "audit"; "regulation"; "statutory"; "mandatory"]) ].

(** [max(scores, key=scores.get)]: the first key, in dict order, with the
    largest score; [best] is the best entry so far. *)
Fixpoint argmax_first (best : string * nat) (scores : list (string * nat)) : string * nat :=
  match scores with
  | [] => best
  | (k, v) :: rest => argmax_first (if snd best <? v then (k, v) else best) rest
  end.

(** The text of the [reasoning] field of a mock answer, without its leading
    warning sign, which lies outside the modelled character range. *)
Definition demo_reasoning : string :=
  "DEMO MODE: This is NOT real Gemini AI classification. Set GEMINI_API_KEY for actual AI-powered classification.".

(** [_classify_with_mock] *)
Definition _classify_with_mock (text : string) (document_name : string) : GeminiResult :=
  let text_lower := Py.lower text in
  let scores := map (fun '(k, kws) => (k, keyword_score kws text_lower)) mock_keywords in
  let max_score := foldr Nat.max 0 (map snd scores) in
  let key :=
    if 0 <? max_score
    then match scores with
         | [] => "other"
         | first :: rest => fst (argmax_first first rest)
         end
    else "other" in
  let result := default ("Other", 75 # 100) (assoc_get mock_classifications key) in
  {| success := true; error := None; document_name := document_name;
     predicted_type := fst result; confidence := snd result;
     reasoning := Some demo_reasoning; method := Some "mock_demo" |}.

(** [classify_document] *)
Definition classify_document (self : GeminiDocumentClassifier) (text : option string)
    (document_name : string) : GeminiResult :=
  if Classification.too_short text
  then {| success := false; error := Some "Text too short for classification";
          document_name := document_name; predicted_type := "Other";
          confidence := 0; reasoning := None; method := None |}
  else
    let text := default "" text in
    if is_available self
    then try_except (_classify_with_gemini self text document_name)
           (fun e => _classify_with_mock text document_name)
    else _classify_with_mock text document_name.

(** [self.document_categories], returned by [get_classification_categories]. *)
Definition document_categories : list string :=
  ["Invoice"; "Purchase Order"; "Report"; "Policy / Circular";
   "Regulatory / Compliance"; "Other"].

End Gemini.

(** ** Summarization engine: [text_summarization.py]

    Scores are Python floats, computed with the rounding of [fdiv] and
    [fmul]; they decide which sentences are selected. *)
Module Summarization.

Record SummarizationService := {
  nlp : NLP;
  (** [self.transformer_summarizer(text, max_length, min_length)] followed
      by [summary[0]['summary_text']]; [None] when the model did not load. *)
  transformer_summarizer : option (string → nat → nat → exn + string);
  (** [gensim.summarization.summarize(text, ratio=ratio)] *)
  gensim_summarize : string → Q → exn + string;
  (** [math.log] *)
  math_log : Q → Q;
  (** The built-in [sum] on the scores of the words of a sentence, floats
      or the integer 0. *)
  float_sum : list Q → Q
}.

(** The class [\w] of [re] and [str.isalpha] on one character. *)
Definition isalpha_char (c : ascii) : bool :=
  let n := Py.ord c in
  ((65 <=? n) && (n <=? 90) || (97 <=? n) && (n <=? 122) ||
   (n =? 170) || (n =? 181) || (n =? 186) ||
   (192 <=? n) && (n <=? 214) || (216 <=? n) && (n <=? 246) || (248 <=? n))%N.

Definition is_word (c : ascii) : bool :=
  let n := Py.ord c in
  (isalpha_char c || (48 <=? n) && (n <=? 57) || (n =? 95) ||
   (n =? 178) || (n =? 179) || (n =? 185) || (188 <=? n) && (n <=? 190))%N.

(** [word.isalpha()] *)
Definition isalpha (word : string) : bool :=
  match word with
  | "" => false
  | _ => Py.forall_chars isalpha_char word
  end.

(** [preprocess_text] *)
Definition preprocess_text (text : string) : string :=
  let text := Py.collapse_ws text in
  let text :=
    Py.filter (fun c => is_word c || Py.isspace c ||
                        bool_decide (c = "."%char) || bool_decide (c = "!"%char) ||
                        bool_decide (c = "?"%char)) text in
  Py.strip text.

(** [d[key] = value] on a dict in insertion order. *)
Fixpoint dict_set {V} (d : list (string * V)) (key : string) (value : V)
    : list (string * V) :=
  match d with
  | [] => [(key, value)]
  | (k, v) :: rest =>
      if String.eqb k key then (k, value) :: rest else (k, v) :: dict_set rest key value
  end.

(** [Counter(words)] *)
Definition Counter (words : list string) : list (string * nat) :=
  fold_left (fun c w => dict_set c w (S (default 0 (assoc_get c w)))) words [].

Definition Qnat (n : nat) : Q := inject_Z (Z.of_nat n).

(** The content words of a sentence, as both scoring loops compute them. *)
Definition content_words (self : SummarizationService) (s : string) : exn + list string :=
  words ←? word_tokenize (nlp self) (Py.lower s);
  ret (filter (fun word => negb (Py.elem word (stop_words (nlp self))) && isalpha word = true)
              words).

(** [calculate_sentence_scores] *)
Fixpoint calculate_sentence_scores_go (self : SummarizationService)
    (word_freq : list (string * Q)) (sentences : list string)
    (sentence_scores : list (string * Q)) : exn + list (string * Q) :=
  match sentences with
  | [] => ret sentence_scores
  | sentence :: rest =>
      words ←? content_words self sentence;
      let sentence_scores :=
        if 0 <? length words
        then dict_set sentence_scores sentence
               (fdiv (float_sum self
                        (map (fun word => default 0%Q (assoc_get word_freq word)) words))
                     (Qnat (length words)))
        else sentence_scores in
      calculate_sentence_scores_go self word_freq rest sentence_scores
  end.

Definition calculate_sentence_scores (self : SummarizationService)
    (sentences : list string) (word_freq : list (string * Q)) : exn + list (string * Q) :=
  calculate_sentence_scores_go self word_freq sentences [].

(** [sorted(items, key=lambda x: x[1], reverse=True)]: a stable sort by
    decreasing score. *)
Fixpoint insert_desc (x : string * Q) (l : list (string * Q)) : list (string * Q) :=
  match l with
  | [] => [x]
  | y :: rest => if Qltb (snd x) (snd y) then y :: insert_desc x rest else x :: l
  end.

Definition sorted_desc (items : list (string * Q)) : list (string * Q) :=
  foldr insert_desc [] items.

(** The loop that puts the selected sentences back in document order. *)
Fixpoint in_original_order (num_sentences : nat) (top_sentences : list (string * Q))
    (sentences : list string) (summary_sentences : list string) : list string :=
  match sentences with
  | [] => summary_sentences
  | sentence :: rest =>
      let summary_sentences :=
        if Py.any (fun top_sent => String.eqb sentence (fst top_sent)) top_sentences
        then summary_sentences ++ [sentence]
        else summary_sentences in
      if length summary_sentences =? num_sentences
      then summary_sentences
      else in_original_order num_sentences top_sentences rest summary_sentences
  end.

(** The handler of [extractive_summarization]:
    [text[:500] + "..." if len(text) > 500 else text]. *)
Definition truncate_500 (text : string) : string :=
  if 500 <? Py.len text then Py.take 500 text +:+ "..." else text.

(** The [try] block of [extractive_summarization], after [preprocess_text]. *)
Definition extractive_body (self : SummarizationService) (text : string)
    (num_sentences : nat) : exn + string :=
  sentences ←? sent_tokenize (nlp self) text;
  if length sentences <=? num_sentences
  then ret (Py.join " " sentences)
  else
    words ←? word_tokenize (nlp self) (Py.lower text);
    let words :=
      map (stem (nlp self))
          (filter (fun word => negb (Py.elem word (stop_words (nlp self)))
                               && isalpha word = true) words) in
    let word_freq := Counter words in
    let max_freq :=
      match word_freq with
      | [] => 1
      | _ => foldr Nat.max 0 (map snd word_freq)
      end in
    let word_freq := map (fun '(w, n) => (w, fdiv (Qnat n) (Qnat max_freq))) word_freq in
    sentence_scores ←? calculate_sentence_scores self sentences word_freq;
    let top_sentences := take num_sentences (sorted_desc sentence_scores) in
    ret (Py.join " " (in_original_order num_sentences top_sentences sentences [])).

(** [extractive_summarization] *)
Definition extractive_summarization (self : SummarizationService) (text : string)
    (num_sentences : nat) : string :=
  let text := preprocess_text text in
  try_except (extractive_body self text num_sentences) (fun e => truncate_500 text).

(** [abstractive_summarization] *)
Definition abstractive_summarization (self : SummarizationService) (text : string)
    (max_length min_length : nat) : string :=
  match transformer_summarizer self with
  | None => extractive_summarization self text 3
  | Some summarizer =>
      let text := preprocess_text text in
      let text := if 1024 <? Py.len text then Py.take 1024 text else text in
      try_except (summarizer text max_length min_length)
        (fun e => extractive_summarization self text 3)
  end.

(** [gensim_summarization] *)
Definition gensim_summarization (self : SummarizationService) (text : string)
    (ratio : Q) : string :=
  let text := preprocess_text text in
  try_except
    (if length (Py.split text) <? 20
     then ret text
     else
       summary ←? gensim_summarize self text ratio;
       if negb (Py.truthy (Some (Py.strip summary)))
       then ret (extractive_summarization self text 3)
       else ret summary)
    (fun e => extractive_summarization self text 3).

(** The [try] block of [keyword_based_summarization], after
    [preprocess_text]. *)
Definition keyword_body (self : SummarizationService) (text : string)
    (num_sentences : nat) : exn + string :=
  sentences ←? sent_tokenize (nlp self) text;
  if length sentences <=? num_sentences
  then ret (Py.join " " sentences)
  else
    words ←? content_words self text;
    let word_freq := Counter words in
    let total_words := length words in
    let word_importance :=
      map (fun '(word, freq) =>
             let tf := fdiv (Qnat freq) (Qnat total_words) in
             let idf := math_log self (fdiv (Qnat total_words) (Qnat freq)) in
             (word, fmul tf idf)) word_freq in
    sentence_scores ←? calculate_sentence_scores self sentences word_importance;
    let top_sentences := take num_sentences (sorted_desc sentence_scores) in
    ret (Py.join " " (in_original_order num_sentences top_sentences sentences [])).

(** [keyword_based_summarization] *)
Definition keyword_based_summarization (self : SummarizationService) (text : string)
    (num_sentences : nat) : string :=
  let text := preprocess_text text in
  try_except (keyword_body self text num_sentences)
    (fun e => extractive_summarization self text 3).

(** The keyword arguments of [generate_summary]; [None] when not passed. *)
Record Kwargs := {
  kw_num_sentences : option nat;
  kw_max_length : option nat;
  kw_min_length : option nat;
  kw_ratio : option Q
}.

Definition no_kwargs : Kwargs :=
  {| kw_num_sentences := None; kw_max_length := None;
     kw_min_length := None; kw_ratio := None |}.

Record SummaryResult := {
  success : bool;
  error : option string;
  summary : string;
  method_used : string;
  original_length : nat;
  summary_length : nat;
  compression_ratio : option Q
}.

(** [len(summary) / len(text) if text else 0] *)
Definition ratio_of (summary text : string) : Q :=
  match Py.len text with
  | 0 => 0%Q
  | S n => Z.of_nat (Py.len summary) # Pos.of_succ_nat n
  end.

(** The selection made when [method == 'auto']. *)
Definition auto_method (self : SummarizationService) (text : string) : string :=
  if (500 <? length (Py.split text)) && bool_decide (is_Some (transformer_summarizer self))
  then "abstractive"
  else if 100 <? length (Py.split text) then "gensim"
  else "extractive".

(** [generate_summary] on a string. The strategies return strings and catch
    their own exceptions, so the [try] block has no raising step. *)
Definition generate_summary_str (self : SummarizationService) (text : string)
    (method : string) (kwargs : Kwargs) : SummaryResult :=
  if Classification.too_short (Some text)
  then {| success := false; error := Some "Text too short to summarize";
          summary := text; method_used := method;
          original_length := Py.len text; summary_length := Py.len text;
          compression_ratio := None |}
  else
    let method := if String.eqb method "auto" then auto_method self text else method in
    let summary :=
      if String.eqb method "extractive"
      then extractive_summarization self text (default 3 (kw_num_sentences kwargs))
      else if String.eqb method "abstractive"
      then abstractive_summarization self text
             (default 150 (kw_max_length kwargs)) (default 50 (kw_min_length kwargs))
      else if String.eqb method "gensim"
      then gensim_summarization self text (default (3 # 10) (kw_ratio kwargs))
      else if String.eqb method "keyword"
      then keyword_based_summarization self text (default 3 (kw_num_sentences kwargs))
      else extractive_summarization self text 3 in
    {| success := true; error := None;
       summary := summary; method_used := method;
       original_length := Py.len text; summary_length := Py.len summary;
       compression_ratio := Some (ratio_of summary text) |}.

(** [generate_summary]. With [text = None] the guard [not text] holds, the
    result dict evaluates [len(text)], and the handler evaluates it again:
    the [TypeError] leaves the function. *)
Definition generate_summary (self : SummarizationService) (text : option string)
    (method : string) (kwargs : Kwargs) : exn + SummaryResult :=
  match text with
  | None => raise "object of type 'NoneType' has no len()"
  | Some text => ret (generate_summary_str self text method kwargs)
  end.

End Summarization.

(** ** Pipeline orchestrator: [process_document_pipeline] of [app.py] *)
Module Pipeline.

(** [ProcessingStatus] of [backend/utils/helpers.py] *)
Definition PENDING : string := "pending".
Definition PROCESSING : string := "processing".
Definition COMPLETED : string := "completed".
Definition FAILED : string := "failed".

(** A row of the [Document] table. *)
Record Document := {
  id : Z;
  original_filename : string;
  file_path : string;
  file_size : option Z;
  file_type : option string;
  upload_date : option string;
  status : string;
  extracted_text : option string;
  summary : option string;
  classification : option string;
  confidence_score : option Q;
  department : option string
}.

Definition set_status (v : string) (d : Document) : Document :=
  {| id := id d; original_filename := original_filename d; file_path := file_path d;
     file_size := file_size d; file_type := file_type d; upload_date := upload_date d;
     status := v; extracted_text := extracted_text d; summary := summary d;
     classification := classification d; confidence_score := confidence_score d;
     department := department d |}.

Definition set_extracted_text (v : option string) (d : Document) : Document :=
  {| id := id d; original_filename := original_filename d; file_path := file_path d;
     file_size := file_size d; file_type := file_type d; upload_date := upload_date d;
     status := status d; extracted_text := v; summary := summary d;
     classification := classification d; confidence_score := confidence_score d;
     department := department d |}.

Definition set_summary (v : option string) (d : Document) : Document :=
  {| id := id d; original_filename := original_filename d; file_path := file_path d;
     file_size := file_size d; file_type := file_type d; upload_date := upload_date d;
     status := status d; extracted_text := extracted_text d; summary := v;
     classification := classification d; confidence_score := confidence_score d;
     department := department d |}.

Definition set_classification (c : option string) (q : option Q) (d : Document) : Document :=
  {| id := id d; original_filename := original_filename d; file_path := file_path d;
     file_size := file_size d; file_type := file_type d; upload_date := upload_date d;
     status := status d; extracted_text := extracted_text d; summary := summary d;
     classification := c; confidence_score := q;
     department := department d |}.

Definition set_department (v : option string) (d : Document) : Document :=
  {| id := id d; original_filename := original_filename d; file_path := file_path d;
     file_size := file_size d; file_type := file_type d; upload_date := upload_date d;
     status := status d; extracted_text := extracted_text d; summary := summary d;
     classification := classification d; confidence_score := confidence_score d;
     department := v |}.

(** A row of the [ProcessingLog] table. *)
Record ProcessingLog := {
  document_id : Z;
  log_module : string;
  log_status : string;
  message : string
}.

(** The two tables. [db.session.add] appends to [logs]; the in-memory
    [document] is written back at each [db.session.commit()] that ends a
    run. The persistence layer itself is assumed not to fail. *)
Record DB := {
  documents : gmap Z Document;
  logs : list ProcessingLog
}.

(** The dict returned by [extraction_service.process_document]. *)
Record ExtractionResult := {
  ex_success : bool;
  ex_text : option string;
  ex_error : field string
}.

(** The services held by the Flask [app]. *)
Record App := {
  (** [app.extraction_service.process_document] *)
  process_document : string → exn + ExtractionResult;
  (** [app.mongodb_manager.store_extracted_data] *)
  store_extracted_data : Z → ExtractionResult → exn + unit;
  classification_service : Classification.DocumentClassificationService;
  summarization_service : Summarization.SummarizationService;
  routing_service : Routing.DocumentRoutingService;
  transport : Routing.Transport;
  (** [datetime.now().isoformat()] *)
  now : string;
  (** [f"{x:.2f}"] *)
  format_2f : Q → string
}.

(** What a run called, in order, with what it passed and received. *)
Inductive call :=
| CallExtraction (file_path : string)
| CallClassification (text : option string) (r : Classification.ClassificationResult)
| CallSummarization (text : option string) (r : exn + Summarization.SummaryResult)
| CallRouting (document_info : Routing.DocumentInfo) (r : Routing.RouteResponse).

Definition log_entry (document_id : Z) (module status message : string) : ProcessingLog :=
  {| document_id := document_id; log_module := module; log_status := status;
     message := message |}.

(** A pipeline stage: it may update the document, and either completes with
    its log entry or raises. *)
Definition stage : Type := Document * (exn + ProcessingLog) * list call.

(** Step 1, the [try] block. *)
Definition extraction_step (app : App) (document_id : Z) (document : Document) : stage :=
  match process_document app (file_path document) with
  | inl e => (document, inl e, [CallExtraction (file_path document)])
  | inr extraction_result =>
      if ex_success extraction_result
      then
        let document := set_extracted_text (ex_text extraction_result) document in
        match store_extracted_data app document_id extraction_result with
        | inl e => (document, inl e, [CallExtraction (file_path document)])
        | inr _ =>
            (document,
             inr (log_entry document_id "extraction" "completed"
                    "Text extraction completed successfully"),
             [CallExtraction (file_path document)])
        end
      else
        (document,
         inl (str_of (get_default (ex_error extraction_result) "Text extraction failed")),
         [CallExtraction (file_path document)])
  end.

(** Step 2, the [try] block. *)
Definition classification_step (app : App) (document_id : Z) (document : Document) : stage :=
  let classification_result :=
    Classification.classify_document (classification_service app) (extracted_text document) in
  let calls := [CallClassification (extracted_text document) classification_result] in
  if Classification.success classification_result
  then
    (set_classification (Some (Classification.category classification_result))
                        (Some (Classification.confidence classification_result)) document,
     inr (log_entry document_id "classification" "completed"
            ("Classified as " +:+ Classification.category classification_result +:+
             " (confidence: " +:+
             format_2f app (Classification.confidence classification_result) +:+ ")")),
     calls)
  else (document, inl "Classification failed", calls).

(** Step 3, the [try] block. *)
Definition summarization_step (app : App) (document_id : Z) (document : Document) : stage :=
  let summary_result :=
    Summarization.generate_summary (summarization_service app) (extracted_text document)
      "auto" Summarization.no_kwargs in
  let calls := [CallSummarization (extracted_text document) summary_result] in
  match summary_result with
  | inl e => (document, inl e, calls)
  | inr summary_result =>
      if Summarization.success summary_result
      then
        (set_summary (Some (Summarization.summary summary_result)) document,
         inr (log_entry document_id "summarization" "completed"
                ("Summary generated using " +:+ Summarization.method_used summary_result
                 +:+ " method")),
         calls)
      else
        (document,
         inl (default "Summarization failed" (Summarization.error summary_result)),
         calls)
  end.

(** A column value as a dict entry: the key is always present. *)
Definition entry {A} (o : option A) : field A :=
  match o with
  | Some a => Val a
  | None => PyNone
  end.

(** The [document_info] dict of step 4. *)
Definition document_info_of (document : Document) : Routing.DocumentInfo :=
  {| Routing.di_id := Val (id document);
     Routing.di_classification := entry (classification document);
     Routing.di_confidence := entry (confidence_score document);
     Routing.di_extracted_text := entry (extracted_text document);
     Routing.di_original_filename := Val (original_filename document);
     Routing.di_file_type := entry (file_type document);
     Routing.di_file_size := entry (file_size document);
     Routing.di_upload_date := entry (upload_date document);
     Routing.di_summary := entry (summary document) |}.

(** Step 4, the [try] block. *)
Definition routing_step (app : App) (document_id : Z) (document : Document) : stage :=
  let document_info := document_info_of document in
  let routing_result :=
    Routing.route_document (routing_service app) (transport app) (now app)
      document_info None in
  let calls := [CallRouting document_info routing_result] in
  if Routing.resp_success routing_result
  then
    match Routing.resp_routing_result routing_result with
    | Some r =>
        (set_department (Some (Routing.department_id r)) document,
         inr (log_entry document_id "routing" "completed"
                ("Routed to " +:+ Routing.department_name r)),
         calls)
    | None => (document, inl "'NoneType' object is not subscriptable", calls)
    end
  else
    (document, inl (default "Routing failed" (Routing.resp_error routing_result)), calls).

(** A non fatal stage with its handler: the failure is logged and the run
    goes on. *)
Definition run_stage (name : string) (step : Z → Document → stage)
    (document_id : Z) (st : Document * list ProcessingLog * list call)
    : Document * list ProcessingLog * list call :=
  let '(document, logs, calls) := st in
  let '(document, outcome, new_calls) := step document_id document in
  let entry :=
    match outcome with
    | inr entry => entry
    | inl e => log_entry document_id name "failed" e
    end in
  (document, logs ++ [entry], calls ++ new_calls).

(** The dict returned by the pipeline. *)
Inductive Response :=
| RespError (error : string)
| RespSuccess (message : string) (document : Document).

Record Run := {
  run_db : DB;
  run_response : Response;
  run_calls : list call
}.

(** [process_document_pipeline]. Every stage has its own handler, so the
    outer [except] is reached only when the persistence layer itself
    raises, which is outside this model. *)
Definition process_document_pipeline (app : App) (db : DB) (document_id : Z) : Run :=
  match documents db !! document_id with
  | None =>
      {| run_db := db; run_response := RespError "Document not found"; run_calls := [] |}
  | Some document =>
      let document := set_status PROCESSING document in
      let logs :=
        logs db ++ [log_entry document_id "pipeline" "started" "Document processing started"] in
      match extraction_step app document_id document with
      | (document, inl e, calls) =>
          let logs := logs ++ [log_entry document_id "extraction" "failed" e] in
          let document := set_status FAILED document in
          {| run_db := {| documents := <[document_id := document]> (documents db);
                          logs := logs |};
             run_response := RespError ("Text extraction failed: " +:+ e);
             run_calls := calls |}
      | (document, inr entry, calls) =>
          let st := (document, logs ++ [entry], calls) in
          let st := run_stage "classification" (classification_step app) document_id st in
          let st := run_stage "summarization" (summarization_step app) document_id st in
          let st := run_stage "routing" (routing_step app) document_id st in
          let '(document, logs, calls) := st in
          let document := set_status COMPLETED document in
          let logs :=
            logs ++ [log_entry document_id "pipeline" "completed"
                       "Document processing completed successfully"] in
          {| run_db := {| documents := <[document_id := document]> (documents db);
                          logs := logs |};
             run_response := RespSuccess "Document processed successfully" document;
             run_calls := calls |}
      end
  end.

End Pipeline.

(** ** Upload validation: [backend/utils/helpers.py] and
    [DocumentIngestionService.allowed_file] *)
Module Helpers.

(** [s.rfind(c)] for a one character [c]: the last index of [c], or -1.
    [i] is the index of the first character of [s], [last] the last index
    found so far. *)
Fixpoint rfind_go (c : ascii) (s : string) (i last : Z) : Z :=
  match s with
  | "" => last
  | String a r => rfind_go c r (i + 1) (if decide (a = c) then i else last)
  end.
Definition rfind (c : ascii) (s : string) : Z := rfind_go c s 0 (-1).

(** [s[n:]] *)
Fixpoint drop (n : nat) (s : string) : string :=
  match n, s with
  | 0, _ => s
  | S n', String _ r => drop n' r
  | S _, "" => ""
  end.

(** [s[i:i+1]] *)
Definition char_at (s : string) (i : nat) : string := Py.take 1 (drop i s).

(** The loop of [genericpath._splitext] that skips the leading dots of the
    file name; [fuel] bounds the number of its rounds by the distance
    between the two indices. *)
Fixpoint splitext_scan (p : string) (dotIndex filenameIndex : Z) (fuel : nat) : string * string :=
  match fuel with
  | 0 => (p, "")
  | S fuel' =>
      if (filenameIndex <? dotIndex)%Z
      then
        if negb (String.eqb (char_at p (Z.to_nat filenameIndex)) ".")
        then (Py.take (Z.to_nat dotIndex) p, drop (Z.to_nat dotIndex) p)
        else splitext_scan p dotIndex (filenameIndex + 1) fuel'
      else (p, "")
  end.

(** [os.path.splitext] of [posixpath]: the separator is [/], there is no
    alternative separator, and the extension separator is the dot. *)
Definition splitext (p : string) : string * string :=
  let sepIndex := rfind "/" p in
  let dotIndex := rfind "." p in
  if (sepIndex <? dotIndex)%Z
  then splitext_scan p dotIndex (sepIndex + 1) (Z.to_nat (dotIndex - sepIndex))
  else (p, "").

(** The renderings of numbers inside the messages: [f"{x:.1f}"] on a float
    and [str] on an integer. *)
Record Formats := {
  format_1f : Q → string;
  str_int : Z → string
}.

Definition size_names : list string := ["B"; "KB"; "MB"; "GB"; "TB"].

(** The [while] loop of [format_file_size]; it runs at most four times
    since [i] stops at [len(size_names) - 1]. A size below 2^53 is a
    float without rounding, and dividing a float by 1024.0 is exact. *)
Fixpoint scale (size_bytes : Q) (i : nat) (fuel : nat) : Q * nat :=
  match fuel with
  | 0 => (size_bytes, i)
  | S fuel' =>
      if Qle_bool 1024 size_bytes && (i <? length size_names - 1)
      then scale (size_bytes / 1024)%Q (i + 1) fuel'
      else (size_bytes, i)
  end.

(** [format_file_size] *)
Definition format_file_size (fmt : Formats) (size_bytes : Z) : string :=
  if (size_bytes =? 0)%Z then "0B"
  else
    let '(size, i) := scale (inject_Z size_bytes) 0 4 in
    format_1f fmt size +:+ default "" (size_names !! i).

(** An uploaded file as [validate_file_upload] reads it: its name and the
    position that [file.tell()] reports at the end of the stream. *)
Record FileStorage := {
  filename : option string;
  file_size : Z
}.

(** [bool(file)]: werkzeug's [FileStorage.__bool__] is [bool(self.filename)]. *)
Definition bool_file (file : FileStorage) : bool := Py.truthy (filename file).

(** [validate_file_upload]; [allowed_extensions] is given in its iteration
    order. *)
Definition validate_file_upload (fmt : Formats) (file : option FileStorage)
    (allowed_extensions : list string) (max_size_mb : Z) : list string :=
  match file with
  | None => ["No file provided"]
  | Some file =>
      if negb (bool_file file) then ["No file provided"]
      else if negb (Py.truthy (filename file)) then ["No filename provided"]
      else
        let name := default "" (filename file) in
        let errors := [] in
        let file_ext := Py.lower (snd (splitext name)) in
        let errors :=
          if negb (Py.elem file_ext allowed_extensions)
          then errors ++ ["File type " +:+ file_ext +:+ " not allowed. Allowed types: " +:+
                          Py.join ", " allowed_extensions]
          else errors in
        let max_size_bytes := (max_size_mb * 1024 * 1024)%Z in
        let errors :=
          if (max_size_bytes <? file_size file)%Z
          then errors ++ ["File size (" +:+ format_file_size fmt (file_size file) +:+
                          ") exceeds maximum allowed size (" +:+ str_int fmt max_size_mb +:+
                          "MB)"]
          else errors in
        let errors :=
          if (file_size file =? 0)%Z then errors ++ ["File is empty"] else errors in
        errors
  end.

(** [extract_text_preview]; [max_length] is a length, hence not negative. *)
Definition extract_text_preview (text : string) (max_length : nat) : string :=
  if String.eqb text "" then ""
  else
    let text := Py.strip text in
    if Py.len text <=? max_length then text
    else
      let preview := Py.take max_length text in
      let last_sentence_end :=
        Z.max (Z.max (rfind "." preview) (rfind "!" preview)) (rfind "?" preview) in
      if Qltb (fmul (inject_Z (Z.of_nat max_length)) (round64 (7 # 10)))
              (inject_Z last_sentence_end)
      then Py.take (Z.to_nat (last_sentence_end + 1)) preview +:+ "..."
      else
        let last_space := rfind " " preview in
        if Qltb (fmul (inject_Z (Z.of_nat max_length)) (round64 (7 # 10)))
                (inject_Z last_space)
        then Py.take (Z.to_nat last_space) preview +:+ "..."
        else preview +:+ "...".

End Helpers.

(** ** Configuration ([backend/config/config.py]) *)
Module Config.

(** [ALLOWED_EXTENSIONS] when the environment does not set it:
    ['pdf,doc,docx,txt,png,jpg,jpeg'.split(',')], in the order of the
    literal. *)
Definition ALLOWED_EXTENSIONS : list string :=
  ["pdf"; "doc"; "docx"; "txt"; "png"; "jpg"; "jpeg"].

End Config.

(** ** Ingestion ([backend/modules/ingestion/document_ingestion.py]) *)
Module Ingestion.

(** [filename.rsplit('.', 1)[1]] for a [filename] that contains a dot: what
    follows its last dot. *)
Definition rsplit_dot_1 (filename : string) : string :=
  Helpers.drop (Z.to_nat (Helpers.rfind "." filename + 1)) filename.

(** [allowed_file] *)
Definition allowed_file (allowed_extensions : list string) (filename : string) : bool :=
  Py.contains "." filename &&
  Py.elem (Py.lower (rsplit_dot_1 filename)) allowed_extensions.

End Ingestion.

(** ** Concrete collaborators

    Simple stand-ins for the external libraries, used to run the embedding
    on concrete inputs. *)
Module Models.

Definition is_sentence_end (c : ascii) : bool :=
  bool_decide (c = "."%char) || bool_decide (c = "!"%char) || bool_decide (c = "?"%char).

(** Sentences end at [.], [!] or [?] followed by whitespace or by the end
    of the text; [cur] is the sentence being read, reversed. *)
Fixpoint sentences_go (cur : string) (s : string) : list string :=
  match s with
  | "" => match cur with "" => [] | _ => [String.rev cur] end
  | String c r =>
      if Py.isspace c && bool_decide (cur = "")
      then sentences_go "" r
      else if is_sentence_end c &&
              match r with "" => true | String d _ => Py.isspace d end
      then String.rev (String c cur) :: sentences_go "" r
      else sentences_go (String c cur) r
  end.

(** Step 1a of the Porter algorithm as NLTK applies it to a word of more
    than two characters, on the reversed word: [sses -> ss],
    [ies -> ie] for a four letter word and [ies -> i] otherwise,
    [ss -> ss], [s -> ]. *)
Definition step1a_rev (w : string) : string :=
  match w with
  | String "s" (String "e" (String "s" (String "s" r))) => String "s" (String "s" r)
  | String "s" (String "e" (String "i" r)) =>
      if String.length r =? 1 then String "e" (String "i" r) else String "i" r
  | String "s" (String "s" r) => w
  | String "s" r => r
  | _ => w
  end.

Definition porter_step1a (word : string) : string :=
  if String.length word <=? 2 then word
  else String.rev (step1a_rev (String.rev word)).

Definition nltk : NLP :=
  {| word_tokenize := fun text => ret (Py.split text);
     sent_tokenize := fun text => ret (sentences_go "" text);
     stem := porter_step1a;
     stop_words := fallback_stop_words |}.

(** A service without trained model. *)
Definition classifier : Classification.DocumentClassificationService :=
  {| Classification.nlp := nltk; Classification.model := None |}.

(** A service whose trained model fails on every input. *)
Definition broken_classifier : Classification.DocumentClassificationService :=
  {| Classification.nlp := nltk;
     Classification.model := Some (fun _ => raise "X has 12 features, but MultinomialNB is expecting 40 features as input.") |}.

(** A service whose trained model answers: on a text that mentions an
    invoice it predicts 'invoice', and 'contract' otherwise. *)
Definition trained_classifier : Classification.DocumentClassificationService :=
  {| Classification.nlp := nltk;
     Classification.model :=
       Some (fun processed_text =>
               if Py.contains "invoic" processed_text
               then ret {| Classification.prediction := "invoice";
                           Classification.classes_ := ["contract"; "invoice"; "resume"];
                           Classification.probabilities := [1 # 10; 8 # 10; 1 # 10] |}
               else ret {| Classification.prediction := "contract";
                           Classification.classes_ := ["contract"; "invoice"; "resume"];
                           Classification.probabilities := [6 # 10; 3 # 10; 1 # 10] |}) |}.

(** [sum] as the interpreters before version 3.12 compute it: the floats
    are added from left to right, each sum rounded. *)
Definition sequential_sum (l : list Q) : Q :=
  fold_left (fun acc x => round64 (acc + x)) l 0%Q.

(** A summarizer without transformer model; [math.log] is not exercised by
    the inputs used and is the zero function here. *)
Definition summarizer : Summarization.SummarizationService :=
  {| Summarization.nlp := nltk;
     Summarization.transformer_summarizer := None;
     Summarization.gensim_summarize := fun text _ => ret text;
     Summarization.math_log := fun _ => 0%Q;
     Summarization.float_sum := sequential_sum |}.

(** A summarizer whose punkt data is missing. *)
Definition summarizer_without_punkt : Summarization.SummarizationService :=
  {| Summarization.nlp :=
       {| word_tokenize := fun _ => raise "Resource punkt not found.";
          sent_tokenize := fun _ => raise "Resource punkt not found.";
          stem := porter_step1a;
          stop_words := fallback_stop_words |};
     Summarization.transformer_summarizer := None;
     Summarization.gensim_summarize := fun text _ => ret text;
     Summarization.math_log := fun _ => 0%Q;
     Summarization.float_sum := sequential_sum |}.

(** Transports that always deliver. *)
Definition transport : Routing.Transport :=
  {| Routing.smtp_session := fun _ => ret tt;
     Routing.requests_post := fun _ _ => ret 200%Z |}.

(** The service as [create_app] builds it from a configuration without
    notification settings. *)
Definition router : Routing.DocumentRoutingService := Routing.init None None None None.

Definition doc_info (category : field string) (confidence : field Q) (text : field string)
    : Routing.DocumentInfo :=
  {| Routing.di_id := Val 1%Z;
     Routing.di_classification := category;
     Routing.di_confidence := confidence;
     Routing.di_extracted_text := text;
     Routing.di_original_filename := Val "scan.pdf";
     Routing.di_file_type := Val "application/pdf";
     Routing.di_file_size := Val 1024%Z;
     Routing.di_upload_date := PyNone;
     Routing.di_summary := Val "A short summary." |}.

(** A freshly uploaded document, as [upload_file] creates it. *)
Definition fresh_document : Pipeline.Document :=
  {| Pipeline.id := 1; Pipeline.original_filename := "scan.pdf";
     Pipeline.file_path := "uploads/scan.pdf"; Pipeline.file_size := Some 1024%Z;
     Pipeline.file_type := Some "application/pdf"; Pipeline.upload_date := None;
     Pipeline.status := Pipeline.PENDING; Pipeline.extracted_text := None;
     Pipeline.summary := None; Pipeline.classification := None;
     Pipeline.confidence_score := None; Pipeline.department := None |}.

Definition fresh_db : Pipeline.DB :=
  {| Pipeline.documents := {[ 1%Z := fresh_document ]}; Pipeline.logs := [] |}.

(** An application whose extraction returns [extraction]. *)
Definition app (extraction : exn + Pipeline.ExtractionResult)
    (classification_service : Classification.DocumentClassificationService) : Pipeline.App :=
  {| Pipeline.process_document := fun _ => extraction;
     Pipeline.store_extracted_data := fun _ _ => ret tt;
     Pipeline.classification_service := classification_service;
     Pipeline.summarization_service := summarizer;
     Pipeline.routing_service := router;
     Pipeline.transport := transport;
     Pipeline.now := "2024-01-15T10:00:00";
     Pipeline.format_2f := fun _ => "0.00" |}.

Definition extracted (text : string) : exn + Pipeline.ExtractionResult :=
  ret {| Pipeline.ex_success := true; Pipeline.ex_text := Some text;
         Pipeline.ex_error := Absent |}.

(** [c * n] *)
(** Decimal digits of a natural number, most significant first. *)
Fixpoint digits (fuel : nat) (n : N) (acc : string) : string :=
  match fuel with
  | 0 => acc
  | S fuel' =>
      let acc' := String (ascii_of_N (48 + n mod 10)) acc in
      if (n <? 10)%N then acc' else digits fuel' (n / 10) acc'
  end.

(** [str(z)] *)
Definition decimal (z : Z) : string :=
  let n := Z.to_N (Z.abs z) in
  (if (z <? 0)%Z then "-" else "") +:+ digits (S (N.to_nat (N.log2 n))) n "".

(** [f"{q:.1f}"] for a non-negative [q]. *)
Definition one_decimal (q : Q) : string :=
  let n := half_even (q * 10) in
  decimal (n / 10) +:+ "." +:+ decimal (n mod 10).

Definition formats : Helpers.Formats :=
  {| Helpers.format_1f := one_decimal; Helpers.str_int := decimal |}.

Fixpoint replicate_char (n : nat) (c : ascii) : string :=
  match n with
  | 0 => ""
  | S n' => String c (replicate_char n' c)
  end.

End Models.

(** ** Vocabulary of the statements *)

(** [keyword] occurs in [text] up to letter case. *)
Definition occurs_ignoring_case (keyword text : string) : Prop :=
  ∃ pre mid post, text = pre +:+ mid +:+ post ∧ Py.lower mid = Py.lower keyword.

(** Some urgent keyword of the rules occurs in the text, up to case. *)
Definition mentions_urgency (rules : Routing.RoutingRules) (text : string) : Prop :=
  ∃ keyword, keyword ∈ Routing.urgent_keywords rules ∧ occurs_ignoring_case keyword text.

(** The static mapping from category to priority, with its default. *)
Definition mapped_priority (rules : Routing.RoutingRules) (category : option string) : string :=
  default "low" (c ← category; assoc_get (Routing.priority_mapping rules) c).

(** The priority rule as the specification words it, for a decision taken
    on [info]. *)
Definition priority_rule (rules : Routing.RoutingRules) (info : Routing.DocumentInfo)
    (decision : Routing.RoutingResult) : Prop :=
  ∀ text, get_default (Routing.di_extracted_text info) "" = Some text →
    (mentions_urgency rules text → Routing.priority decision = "urgent") ∧
    (¬ mentions_urgency rules text →
     Routing.priority decision =
     mapped_priority rules (get_default (Routing.di_classification info) "other")).


(** The number of outcome records of a channel. *)
Definition channel_count (outcomes : list Routing.Outcome) (channel : string) : nat :=
  length (filter (fun o => Routing.method o = channel) outcomes).

(** One outcome record for each configured channel and none for the others,
    for a given reading of "configured". *)
Definition one_outcome_per_channel (configured : string → bool)
    (outcomes : list Routing.Outcome) : Prop :=
  ∀ channel, channel_count outcomes channel = if configured channel then 1 else 0.

(** A channel counts as configured when it is listed in
    [NOTIFICATION_METHODS]. *)
Definition listed (self : Routing.DocumentRoutingService) (channel : string) : bool :=
  Py.elem channel ["email"; "webhook"] && Py.elem channel (Routing.notification_methods self).

(** A channel counts as configured when it is listed and its own settings
    are present: the credentials for email, the URL for the webhook. *)
Definition fully_configured (self : Routing.DocumentRoutingService) (channel : string) : bool :=
  listed self channel &&
  if String.eqb channel "email"
  then Py.truthy (Routing.email_user self) && Py.truthy (Routing.email_password self)
  else Py.truthy (Routing.webhook_url self).

(** The channels on which [route_document] attempts a delivery: email when
    listed, the webhook when listed and given a URL. *)
Definition dispatched (self : Routing.DocumentRoutingService) (channel : string) : bool :=
  listed self channel &&
  (String.eqb channel "email" || Py.truthy (Routing.webhook_url self)).

(** The notification built by [route_document]. *)
Definition notification_of (self : Routing.DocumentRoutingService) (now : string)
    (info : Routing.DocumentInfo) (routing_result : option Routing.RoutingResult)
    : Routing.NotificationData :=
  {| Routing.nd_document := info;
     Routing.nd_routing :=
       default (Routing.determine_department self now info) routing_result;
     Routing.nd_timestamp := now |}.

(** The rule-based strategy as the specification words it: every category
    is scored by the number of its keywords found in the lowered text, the
    first category with the largest score wins, and 'other' is returned
    when every score is zero. The table lists, in the order of the source,
    the keywords that [rule_based_classification] tests for each category
    and the confidence it returns for it. *)
Definition keyword_table : list (string * list string * Q) :=
  [ ("invoice", ["invoice"; "bill"; "payment"; "amount due"; "total"; "$"; "usd"; "subtotal"],
     8 # 10);
    ("contract", ["agreement"; "contract"; "terms and conditions"; "whereas"], 7 # 10);
    ("resume", ["experience"; "education"; "skills"; "employment history";
                "university"; "degree"; "work experience"], 75 # 100);
    ("legal_document", ["court"; "legal"; "attorney"; "law"; "plaintiff"; "defendant"], 7 # 10);
    ("report", ["executive summary"; "conclusion"; "analysis"; "findings"], 6 # 10) ].

Definition category_scores (text : string) : list (string * nat) :=
  map (fun '(category, keywords, _) =>
         (category, Gemini.keyword_score keywords (Py.lower text))) keyword_table.

(** The fixed confidence of a category. *)
Definition heuristic_confidence (category : string) : Q :=
  default (5 # 10)
    (assoc_get (map (fun '(category, _, confidence) => (category, confidence)) keyword_table)
       category).

Definition argmax_classification (text : string) : string * Q :=
  match category_scores text with
  | [] => ("other", 5 # 10)
  | first :: rest =>
      let best := Gemini.argmax_first first rest in
      if 0 <? snd best then (fst best, heuristic_confidence (fst best)) else ("other", 5 # 10)
  end.

(** What the source does instead: the categories are tried in order and the
    first one whose test holds is returned. A test asks for one keyword of
    each of its lists. *)
Definition cascade : list (string * list (list string)) :=
  [ ("invoice", [["invoice"; "bill"; "payment"; "amount due"; "total"];
                 ["$"; "usd"; "total"; "subtotal"]]);
    ("contract", [["agreement"; "contract"; "terms and conditions"; "whereas"]]);
    ("resume", [["experience"; "education"; "skills"; "employment history"];
                ["university"; "degree"; "work experience"]]);
    ("legal_document", [["court"; "legal"; "attorney"; "law"; "plaintiff"; "defendant"]]);
    ("report", [["executive summary"; "conclusion"; "analysis"; "findings"]]) ].

Definition test_holds (text_lower : string) (lists : list (list string)) : bool :=
  forallb (Py.any (fun word => Py.contains word text_lower)) lists.

Definition first_match_classification (text : string) : string * Q :=
  match find (fun rule => test_holds (Py.lower text) (snd rule)) cascade with
  | Some rule => (fst rule, heuristic_confidence (fst rule))
  | None => ("other", 5 # 10)
  end.

(** Every keyword of the table. *)
Definition all_keywords : list string :=
  concat (map (fun '(_, keywords, _) => keywords) keyword_table).

(** No keyword of any category occurs in the text. *)
Definition no_keyword (text : string) : Prop :=
  ∀ keyword, keyword ∈ all_keywords → Py.contains keyword (Py.lower text) = false.

(** The result returned for a text that is too short. *)
Definition length_failure : Classification.ClassificationResult :=
  {| Classification.success := false;
     Classification.error := Some "Text too short for classification";
     Classification.category := "other"; Classification.confidence := 0;
     Classification.all_probabilities := None; Classification.method := None |}.

(** C5 as the specification words it: the call fails exactly on the texts
    of fewer than 10 characters. *)
Definition fails_exactly_when_shorter_than_10
    (self : Classification.DocumentClassificationService) : Prop :=
  ∀ text : string,
    Classification.success (Classification.classify_document self (Some text)) = false
    ↔ String.length text < 10.

(** The guard of the source: no text, or fewer than 10 characters once the
    surrounding whitespace is stripped. *)
Definition stripped_shorter_than_10 (text : option string) : Prop :=
  match text with
  | None => True
  | Some s => String.length (Py.strip s) < 10
  end.

(** [m] is the largest element of [l]. *)
Definition is_maximum (l : list Q) (m : Q) : Prop :=
  m ∈ l ∧ ∀ p, p ∈ l → (p <= m)%Q.

(** The machine learning strategy is loaded and raises [e] on [text]. *)
Definition ml_raises (self : Classification.DocumentClassificationService)
    (text : option string) (e : exn) : Prop :=
  ∃ predict, Classification.model self = Some predict ∧
             Classification.ml_branch self predict (default "" text) = inl e.

(** C6 as the specification words it: the text of an exception raised
    inside a strategy never shows in the result. *)
Definition no_exception_text (self : Classification.DocumentClassificationService)
    (text : string) : Prop :=
  ∀ e, ml_raises self (Some text) e →
       Classification.error (Classification.classify_document self (Some text)) ≠ Some e.

(** C10 as the specification words it: normalising the text of a
    normalised input gives that text again. *)
Definition preprocess_text_idempotent
    (self : Classification.DocumentClassificationService) : Prop :=
  ∀ x y, Classification.preprocess_text self x = inr y →
         Classification.preprocess_text self y = inr y.

(** The text handed to [word_tokenize] by [preprocess_text]. *)
Definition cleaned (text : string) : string :=
  Py.collapse_ws
    (Py.filter (fun c => Py.is_az c || Py.is_AZ c || Py.isspace c) (Py.lower text)).

(** The tokens that [preprocess_text] keeps, stemmed. *)
Definition stems_of (nl : NLP) (tokens : list string) : list string :=
  map (stem nl)
      (filter (fun token => negb (Py.elem token (stop_words nl)) && (2 <? Py.len token) = true)
              tokens).

(** A stem that a second pass leaves alone: lowercase letters only, more
    than two of them, not a stop word, and fixed by the stemmer. *)
Definition stable_stem (nl : NLP) (t : string) : bool :=
  Py.forall_chars Py.is_az t && (2 <? Py.len t) &&
  negb (Py.elem t (stop_words nl)) && String.eqb (stem nl t) t.

(** A non-empty word of lowercase letters. *)
Definition az_word (t : string) : Prop := Py.forall_chars Py.is_az t = true ∧ t ≠ "".

(** The extraction stage of a run on [document] fails with message [e]: the
    extraction service raises, or reports a failure, or the storing of the
    extracted data raises. *)
Definition extraction_fails (app : Pipeline.App) (document_id : Z)
    (document : Pipeline.Document) (e : exn) : Prop :=
  Pipeline.process_document app (Pipeline.file_path document) = inl e ∨
  (∃ r, Pipeline.process_document app (Pipeline.file_path document) = inr r ∧
        Pipeline.ex_success r = false ∧
        e = str_of (get_default (Pipeline.ex_error r) "Text extraction failed")) ∨
  (∃ r, Pipeline.process_document app (Pipeline.file_path document) = inr r ∧
        Pipeline.ex_success r = true ∧
        Pipeline.store_extracted_data app document_id r = inl e).

(** The log entries written by a run. *)
Definition new_entries (db : Pipeline.DB) (run : Pipeline.Run) : list Pipeline.ProcessingLog :=
  drop (length (Pipeline.logs db)) (Pipeline.logs (Pipeline.run_db run)).


(** ** Vocabulary of the further properties *)

(** The extraction stage of a run on [document] succeeds with result [r]. *)
Definition extraction_succeeds (app : Pipeline.App) (document_id : Z)
    (document : Pipeline.Document) (r : Pipeline.ExtractionResult) : Prop :=
  Pipeline.process_document app (Pipeline.file_path document) = inr r ∧
  Pipeline.ex_success r = true ∧
  Pipeline.store_extracted_data app document_id r = inr tt.

(** The stage that a call belongs to. *)
Definition call_stage (c : Pipeline.call) : string :=
  match c with
  | Pipeline.CallExtraction _ => "extraction"
  | Pipeline.CallClassification _ _ => "classification"
  | Pipeline.CallSummarization _ _ => "summarization"
  | Pipeline.CallRouting _ _ => "routing"
  end.

(** The entry that [run_stage] logs for the outcome of a stage. *)
Definition entry_of (document_id : Z) (name : string) (o : exn + Pipeline.ProcessingLog)
    : Pipeline.ProcessingLog :=
  match o with
  | inr entry => entry
  | inl e => Pipeline.log_entry document_id name "failed" e
  end.

(** The columns of a document that the pipeline only reads. *)
Definition same_upload (d d' : Pipeline.Document) : Prop :=
  Pipeline.id d' = Pipeline.id d ∧
  Pipeline.original_filename d' = Pipeline.original_filename d ∧
  Pipeline.file_path d' = Pipeline.file_path d ∧
  Pipeline.file_size d' = Pipeline.file_size d ∧
  Pipeline.file_type d' = Pipeline.file_type d ∧
  Pipeline.upload_date d' = Pipeline.upload_date d.


(** The module and status columns of a list of log entries. *)
Definition trail (entries : list Pipeline.ProcessingLog) : list (string * string) :=
  map (fun entry => (Pipeline.log_module entry, Pipeline.log_status entry)) entries.

(** The audit trail of a run whose extraction succeeds: six entries in
    stage order, of which only classification and summarization may be
    marked failed, and four calls in stage order. *)
Definition complete_trail (db : Pipeline.DB) (document_id : Z) (run : Pipeline.Run) : Prop :=
  (∃ classification_status summarization_status,
     trail (new_entries db run) =
       [ ("pipeline", "started"); ("extraction", "completed");
         ("classification", classification_status);
         ("summarization", summarization_status);
         ("routing", "completed"); ("pipeline", "completed") ] ∧
     classification_status ∈ ["completed"; "failed"] ∧
     summarization_status ∈ ["completed"; "failed"]) ∧
  map call_stage (Pipeline.run_calls run)
    = ["extraction"; "classification"; "summarization"; "routing"].

(** The status logged for a stage by a run. *)
Definition logged (db : Pipeline.DB) (run : Pipeline.Run) (module status : string) : Prop :=
  (module, status) ∈ trail (new_entries db run).

(** How the results on the document agree with the trail of a successful
    run. The extracted text is the one of the extraction result. When the
    classification service succeeds on it, the entry is 'completed' and the
    category and confidence stored are the ones it returned; otherwise the
    entry is 'failed' and the columns are as they were. Likewise for the
    summary. The department is the one that the routing engine decides for
    the document as it is stored. *)
Definition results_match_trail (app : Pipeline.App) (db : Pipeline.DB) (run : Pipeline.Run)
    (r : Pipeline.ExtractionResult) (document document' : Pipeline.Document) : Prop :=
  let classified :=
    Classification.classify_document (Pipeline.classification_service app)
      (Pipeline.ex_text r) in
  let summarized :=
    Summarization.generate_summary (Pipeline.summarization_service app)
      (Pipeline.ex_text r) "auto" Summarization.no_kwargs in
  Pipeline.extracted_text document' = Pipeline.ex_text r ∧
  Pipeline.department document' =
    Some (Routing.department_id
            (Routing.determine_department (Pipeline.routing_service app) (Pipeline.now app)
               (Pipeline.document_info_of document'))) ∧
  ((logged db run "classification" "completed" ∧
    Classification.success classified = true ∧
    Pipeline.classification document' = Some (Classification.category classified) ∧
    Pipeline.confidence_score document' = Some (Classification.confidence classified)) ∨
   (logged db run "classification" "failed" ∧
    Classification.success classified = false ∧
    Pipeline.classification document' = Pipeline.classification document ∧
    Pipeline.confidence_score document' = Pipeline.confidence_score document)) ∧
  ((logged db run "summarization" "completed" ∧
    ∃ s, summarized = inr s ∧ Summarization.success s = true ∧
         Pipeline.summary document' = Some (Summarization.summary s)) ∨
   (logged db run "summarization" "failed" ∧
    (∀ s, summarized = inr s → Summarization.success s = false) ∧
    Pipeline.summary document' = Pipeline.summary document)).

(** No category is listed by two departments, or twice by one. *)
Definition single_owner (depts : list (string * Routing.Department)) : Prop :=
  NoDup (concat (map (fun entry => Routing.categories (snd entry)) depts)).

(** No department lists the category. *)
Definition unowned (depts : list (string * Routing.Department)) (category : string) : Prop :=
  ∀ d dept, (d, dept) ∈ depts → category ∉ Routing.categories dept.

(** Some sensitive keyword of the rules occurs in the text, up to case. *)
Definition mentions_sensitive (rules : Routing.RoutingRules) (text : string) : Prop :=
  ∃ keyword, keyword ∈ Routing.sensitive_keywords rules ∧ occurs_ignoring_case keyword text.

(** The inputs of a decision on the normal path: a confidence that is not
    below the threshold and a text that is a string. *)
Definition normal_path (self : Routing.DocumentRoutingService) (info : Routing.DocumentInfo)
    (q : Q) (text : string) : Prop :=
  get_default (Routing.di_confidence info) 0%Q = Some q ∧
  ¬ (q < Routing.confidence_threshold (Routing.routing_rules self))%Q ∧
  get_default (Routing.di_extracted_text info) "" = Some text.

(** The department table knows the department: its row. *)
Definition known_department (self : Routing.DocumentRoutingService)
    (decision : Routing.RoutingResult) : Prop :=
  ∃ dept,
    assoc_get (Routing.departments self) (Routing.department_id decision) = Some dept ∧
    Routing.department_name decision = Routing.name dept ∧
    Routing.department_email decision = Some (Routing.email dept) ∧
    Routing.rr_responsible_person decision = Some (Routing.responsible_person dept).

(** An update that passes the key [fallback_department] and, possibly, the
    key [confidence_threshold]. *)
Definition fallback_update (f : string) (threshold : option Q) : Routing.RulesUpdate :=
  {| Routing.new_confidence_threshold := threshold;
     Routing.new_fallback_department := Some f;
     Routing.new_priority_mapping := None;
     Routing.new_urgent_keywords := None;
     Routing.new_sensitive_keywords := None |}.

(** The summarization stage fails on the extracted text. *)
Definition summarization_fails (app : Pipeline.App) (r : Pipeline.ExtractionResult) : Prop :=
  match Summarization.generate_summary (Pipeline.summarization_service app)
          (Pipeline.ex_text r) "auto" Summarization.no_kwargs with
  | inl _ => True
  | inr s => Summarization.success s = false
  end.

(** The outcome of an email whose body cannot be built. *)
Definition email_body_failure : Routing.Outcome :=
  {| Routing.method := "email"; Routing.success := false;
     Routing.error := Some "'NoneType' object is not subscriptable";
     Routing.recipient := None; Routing.status_code := None |}.

(** Where the routing engine with the tables of the source sends a
    category that the rule-based strategy returns, and whether it asks for
    a review: the confidences 0.6 of 'report' and 0.5 of 'other' are below
    the threshold. *)
Definition rule_based_destination (category : string) : string * bool :=
  if String.eqb category "invoice" then ("finance", false)
  else if String.eqb category "contract" then ("legal", false)
  else if String.eqb category "resume" then ("hr", false)
  else if String.eqb category "legal_document" then ("legal", false)
  else ("archive", true).

(** The scores of [_classify_with_mock], in the order of its [scores] dict. *)
Definition mock_scores (text : string) : list (string * nat) :=
  map (fun '(k, kws) => (k, Gemini.keyword_score kws (Py.lower text))) Gemini.mock_keywords.

(** [winner] is the first entry with the largest score. *)
Definition first_maximum (scores : list (string * nat)) (winner : string * nat) : Prop :=
  ∃ before after,
    scores = before ++ winner :: after ∧
    (∀ x, x ∈ before → snd x < snd winner) ∧
    (∀ x, x ∈ after → snd x ≤ snd winner).

(** The word tokenizer answers on every text. *)
Definition word_tokenizer_total (nl : NLP) : Prop :=
  ∀ s, ∃ words, word_tokenize nl s = inr words.

(** The sentence tokenizer raises on every text, as it does when the punkt
    data is missing. *)
Definition sentence_tokenizer_missing (nl : NLP) : Prop :=
  ∀ s, ∃ e, sent_tokenize nl s = inl e.

(** The character does not occur in the string. *)
Definition absent (c : ascii) (s : string) : Prop :=
  Py.forall_chars (fun x => negb (bool_decide (x = c))) s = true.

(** What [validate_file_upload] accepts: a named file whose lowered
    extension, dot included, is an allowed extension and whose size is not
    zero and within the limit. *)
Definition acceptable (file : option Helpers.FileStorage) (allowed : list string)
    (max_size_mb : Z) : Prop :=
  ∃ f name,
    file = Some f ∧ Helpers.filename f = Some name ∧ name ≠ "" ∧
    Py.lower (snd (Helpers.splitext name)) ∈ allowed ∧
    Helpers.file_size f ≠ 0%Z ∧ (Helpers.file_size f ≤ max_size_mb * 1024 * 1024)%Z.

(** No allowed extension is written with its dot, and none is empty. *)
Definition written_without_dot (allowed : list string) : Prop :=
  ∀ ext, ext ∈ allowed → ext ≠ "" ∧ Py.startswith "." ext = false.

(** [size] bytes are [value] units of 1024^[i] bytes. *)
Definition in_unit (size : Z) (value : Q) (i : nat) : Prop :=
  (inject_Z size == value * inject_Z (1024 ^ Z.of_nat i))%Q.

(** The file name ends in a dot followed by the dot-free [ext]. *)
Definition has_extension (name ext : string) : Prop :=
  ∃ stem, name = stem +:+ String "." ext ∧ absent "." ext.

(** The list offers some extension both without and with its dot, or the
    empty extension. *)
Definition offers_both_spellings (allowed : list string) : Prop :=
  "" ∈ allowed ∨ ∃ ext, Py.lower ext ∈ allowed ∧ Py.lower (String "." ext) ∈ allowed.

(** A sentence ends with one of these characters. *)
Definition sentence_mark (c : ascii) : bool :=
  bool_decide (c = "."%char) || bool_decide (c = "!"%char) || bool_decide (c = "?"%char).

Definition space (c : ascii) : bool := bool_decide (c = " "%char).

(** The character at index [i] of [s] satisfies [P]. *)
Definition char_at_is (P : ascii → bool) (s : string) (i : nat) : Prop :=
  ∃ c, String.get i s = Some c ∧ P c = true.

(** [i] is the index of the last character of [s] that satisfies [P]. *)
Definition last_position (P : ascii → bool) (s : string) (i : nat) : Prop :=
  char_at_is P s i ∧ ∀ j, i < j → ¬ char_at_is P s j.

(** [z] is -1 when no character of [s] satisfies [P], and the index of the
    last one that does otherwise. *)
Definition last_or_minus_one (P : ascii → bool) (s : string) (z : Z) : Prop :=
  (z = (-1)%Z ∧ ∀ j, ¬ char_at_is P s j) ∨
  (∃ l, z = Z.of_nat l ∧ last_position P s l).

(** The index [i] lies beyond [max_length * 0.7], computed in floats. *)
Definition beyond (max_length i : nat) : Prop :=
  (fmul (inject_Z (Z.of_nat max_length)) (round64 (7 # 10)) < inject_Z (Z.of_nat i))%Q.

(** Where a text [s] longer than [n] is cut: right after the last sentence
    mark among its first [n] characters when that mark lies beyond 0.7 [n];
    otherwise before the last space among them when that space lies beyond
    0.7 [n]; otherwise after [n] characters. *)
Definition cut_point (s : string) (n k : nat) : Prop :=
  (∃ l, last_position sentence_mark (Py.take n s) l ∧ beyond n l ∧ k = l + 1) ∨
  ((∀ l, last_position sentence_mark (Py.take n s) l → ¬ beyond n l) ∧
   ((∃ p, last_position space (Py.take n s) p ∧ beyond n p ∧ k = p) ∨
    ((∀ p, last_position space (Py.take n s) p → ¬ beyond n p) ∧ k = n))).

(** The text itself, or its first [n] characters followed by an ellipsis
    when it has more than [n]. *)
Definition cut_to (n : nat) (s : string) : string :=
  if n <? String.length s then Py.take n s +:+ "..." else s.
(** * Properties *)

(** ** Strings *)

Example lower_invoice :
  Py.lower "INVOICE #1 Total Due: $500.00" = "invoice #1 total due: $500.00".
Proof. reflexivity. Qed.

Example split_example : Py.split "  ab  cd e " = ["ab"; "cd"; "e"].
Proof. reflexivity. Qed.

Example collapse_example : Py.collapse_ws "  ab   cd e " = " ab cd e ".
Proof. reflexivity. Qed.

Example strip_example : Py.strip "  ab cd   " = "ab cd".
Proof. reflexivity. Qed.

Example sentences_example :
  Models.sentences_go "" "One two. Three four! Five" = ["One two."; "Three four!"; "Five"].
Proof. reflexivity. Qed.

Example step1a_examples :
  map Models.porter_step1a ["ads"; "caresses"; "ponies"; "ties"; "caress"; "cats"; "as"; "total"]
  = ["ad"; "caress"; "poni"; "tie"; "caress"; "cat"; "as"; "total"].
Proof. reflexivity. Qed.

Lemma str_app_nil_l (s : string) : "" +:+ s = s.
Proof. reflexivity. Qed.

Lemma str_app_cons (c : ascii) (s t : string) : String c s +:+ t = String c (s +:+ t).
Proof. reflexivity. Qed.

Lemma str_app_nil_r (s : string) : s +:+ "" = s.
Proof. induction s as [|c s IH]; [done|]. by rewrite str_app_cons, IH. Qed.

Lemma str_app_assoc (s t u : string) : (s +:+ t) +:+ u = s +:+ t +:+ u.
Proof. induction s as [|c s IH]; [done|]. by rewrite !str_app_cons, IH. Qed.

Lemma str_length_app (s t : string) :
  String.length (s +:+ t) = String.length s + String.length t.
Proof. induction s as [|c s IH]; [done|]. rewrite str_app_cons. simpl. by rewrite IH. Qed.

Lemma lower_app (s t : string) : Py.lower (s +:+ t) = Py.lower s +:+ Py.lower t.
Proof. induction s as [|c s IH]; [done|]. rewrite str_app_cons. simpl. by rewrite IH, str_app_cons. Qed.

Lemma lower_length (s : string) : String.length (Py.lower s) = String.length s.
Proof. induction s as [|c s IH]; [done|]. simpl. by rewrite IH. Qed.

(** A split of the lowered text is the image of a split of the text. *)
Lemma lower_split (a b t : string) :
  Py.lower t = a +:+ b →
  ∃ a' b', t = a' +:+ b' ∧ Py.lower a' = a ∧ Py.lower b' = b.
Proof.
  revert t. induction a as [|c a IH]; intros t H.
  - exists "", t. by rewrite !str_app_nil_l in *.
  - destruct t as [|d t]; [done|]. rewrite str_app_cons in H. simpl in H.
    injection H as Hc Ht. destruct (IH _ Ht) as (a' & b' & -> & Ha & Hb).
    exists (String d a'), b'. rewrite str_app_cons. simpl. by rewrite Hc, Ha.
Qed.

Lemma startswith_spec (p s : string) :
  Py.startswith p s = true ↔ ∃ q, s = p +:+ q.
Proof.
  revert s. induction p as [|a p IH]; intros s; simpl.
  - split; [intros _; by exists s | done].
  - destruct s as [|b s].
    + split; [done | intros [q Hq]; by rewrite str_app_cons in Hq].
    + case_decide as Hab.
      * subst b. rewrite IH. split; intros [q Hq]; exists q.
        -- by rewrite str_app_cons, Hq.
        -- rewrite str_app_cons in Hq. by injection Hq.
      * split; [done | intros [q Hq]]. rewrite str_app_cons in Hq.
        injection Hq as -> _. done.
Qed.

(** [needle in hay] holds exactly when [hay] has [needle] as a substring. *)
Lemma contains_spec (needle hay : string) :
  Py.contains needle hay = true ↔ ∃ pre post, hay = pre +:+ needle +:+ post.
Proof.
  induction hay as [|c hay IH]; simpl; rewrite orb_true_iff, startswith_spec.
  - split.
    + intros [[q Hq] | ?]; [|done]. exists "", q. by rewrite str_app_nil_l.
    + intros (pre & post & H). left. destruct pre as [|d pre]; [|by rewrite str_app_cons in H].
      rewrite str_app_nil_l in H. by exists post.
  - rewrite IH. split.
    + intros [[q Hq] | (pre & post & Hq)].
      * exists "", q. by rewrite str_app_nil_l.
      * exists (String c pre), post. by rewrite str_app_cons, Hq.
    + intros (pre & post & H). destruct pre as [|d pre].
      * left. exists post. by rewrite str_app_nil_l in H.
      * right. rewrite str_app_cons in H. injection H as _ H. by exists pre, post.
Qed.

Lemma contains_lower_spec (keyword text : string) :
  Py.lower keyword = keyword →
  Py.contains keyword (Py.lower text) = true ↔ occurs_ignoring_case keyword text.
Proof.
  intros Hk. rewrite contains_spec. unfold occurs_ignoring_case. split.
  - intros (pre & post & H).
    apply lower_split in H as (pre' & rest & -> & _ & H).
    apply lower_split in H as (mid & post' & -> & Hm & _).
    exists pre', mid, post'. by rewrite Hm, Hk.
  - intros (pre & mid & post & -> & Hm).
    exists (Py.lower pre), (Py.lower post). by rewrite !lower_app, Hm, Hk.
Qed.

Lemma any_true {A} (f : A → bool) (l : list A) :
  Py.any f l = true ↔ ∃ x, x ∈ l ∧ f x = true.
Proof.
  unfold Py.any. rewrite existsb_exists. setoid_rewrite list_elem_of_In. done.
Qed.

Lemma Qltb_lt (a b : Q) : Qltb a b = true ↔ (a < b)%Q.
Proof.
  unfold Qltb. rewrite negb_true_iff, <- not_true_iff_false, Qle_bool_iff.
  split; [apply Qnot_le_lt | apply Qlt_not_le].
Qed.

(** ** Routing decision *)

Section RoutingDecision.

Import Routing.

Variable self : DocumentRoutingService.
Variable now : string.

Lemma create_routing_result_fields department reason confidence priority sensitive review :
  let r := _create_routing_result self now department reason confidence priority
             sensitive review in
  department_id r = department ∧ Routing.priority r = priority ∧
  is_sensitive r = sensitive ∧ needs_review r = review ∧ Routing.reason r = reason.
Proof. done. Qed.

(** Below the threshold the decision is the literal archive record. *)
Lemma determine_department_low (info : DocumentInfo) (q : Q) :
  get_default (di_confidence info) 0%Q = Some q →
  (q < confidence_threshold (routing_rules self))%Q →
  determine_department self now info =
  _create_routing_result self now "archive" "Low confidence classification" q
    "medium" false true.
Proof.
  intros Hq Hlt. unfold determine_department, determine_department_body.
  rewrite Hq. apply Qltb_lt in Hlt. by rewrite Hlt.
Qed.

(** A confidence that is [None] makes the comparison raise; the handler
    answers. *)
Lemma determine_department_none (info : DocumentInfo) :
  di_confidence info = PyNone →
  determine_department self now info =
  _create_routing_result self now "archive"
    "Error in routing: '<' not supported between instances of 'NoneType' and 'float'"
    0%Q "medium" false true.
Proof.
  intros H. unfold determine_department, determine_department_body. by rewrite H.
Qed.

(** At or above the threshold, with a text that is a string, the decision
    is the one of the normal path. *)
Lemma determine_department_normal (info : DocumentInfo) (q : Q) (text : string) :
  get_default (di_confidence info) 0%Q = Some q →
  ¬ (q < confidence_threshold (routing_rules self))%Q →
  get_default (di_extracted_text info) "" = Some text →
  ∃ department reason,
    determine_department self now info =
    _create_routing_result self now department reason q
      (if Py.any (fun keyword => Py.contains keyword (Py.lower text))
                 (urgent_keywords (routing_rules self))
       then "urgent"
       else default "low"
              (c ← get_default (di_classification info) "other";
               assoc_get (priority_mapping (routing_rules self)) c))
      (Py.any (fun keyword => Py.contains keyword (Py.lower text))
              (sensitive_keywords (routing_rules self)))
      false.
Proof.
  intros Hq Hge Ht. unfold determine_department, determine_department_body.
  rewrite Hq, Ht. destruct (Qltb q _) eqn:E; [by apply Qltb_lt in E|].
  unfold _determine_priority, _check_sensitive_content. simpl.
  destruct (Py.any _ (urgent_keywords _)); simpl; eauto.
Qed.

End RoutingDecision.

(** C1. With the rules of [_load_routing_rules] (threshold 0.7, fallback
    department 'archive'), every decision for a confidence strictly below
    0.7 names the fallback department 'archive' and asks for review,
    whatever the category and the text are. *)
Theorem low_confidence_routes_to_fallback
    (self : Routing.DocumentRoutingService) (now : string)
    (info : Routing.DocumentInfo) (q : Q) :
  Routing.routing_rules self = Routing._load_routing_rules →
  get_default (Routing.di_confidence info) 0%Q = Some q →
  (q < 7 # 10)%Q →
  let decision := Routing.determine_department self now info in
  Routing.department_id decision = Routing.fallback_department (Routing.routing_rules self) ∧
  Routing.department_id decision = "archive" ∧
  Routing.needs_review decision = true.
Proof.
  intros Hrules Hq Hlt decision. subst decision.
  rewrite (determine_department_low self now info q Hq); [by rewrite Hrules|].
  by rewrite Hrules.
Qed.

Lemma low_confidence_routes_to_fallback_witness :
  let info := Models.doc_info (Val "invoice") (Val (69 # 100)) (Val "URGENT invoice, total due") in
  let decision := Routing.determine_department Models.router "2024-01-15T10:00:00" info in
  Routing.department_id decision = Routing.fallback_department (Routing.routing_rules Models.router) ∧
  Routing.department_id decision = "archive" ∧
  Routing.needs_review decision = true.
Proof.
  intros info.
  apply (low_confidence_routes_to_fallback Models.router "2024-01-15T10:00:00" info (69 # 100));
    reflexivity.
Defined.

(** ** Priority *)

Lemma any_urgent_keyword (rules : Routing.RoutingRules) (text : string) :
  (∀ keyword, keyword ∈ Routing.urgent_keywords rules → Py.lower keyword = keyword) →
  Py.any (fun keyword => Py.contains keyword (Py.lower text)) (Routing.urgent_keywords rules) = true
  ↔ mentions_urgency rules text.
Proof.
  intros Hlow. rewrite any_true. unfold mentions_urgency.
  split; intros (kw & Hin & H); exists kw; split; try done;
    by apply (contains_lower_spec kw text (Hlow kw Hin)).
Qed.

Lemma default_urgent_keywords_lowercase (keyword : string) :
  keyword ∈ Routing.urgent_keywords Routing._load_routing_rules → Py.lower keyword = keyword.
Proof.
  simpl. rewrite !elem_of_cons, elem_of_nil.
  intros [->|[->|[->|[->|[->|[]]]]]]; reflexivity.
Qed.

(** [_determine_priority] itself follows the rule on every string. *)
Lemma determine_priority_rule (self : Routing.DocumentRoutingService)
    (text : string) (category : option string) :
  (∀ keyword, keyword ∈ Routing.urgent_keywords (Routing.routing_rules self) →
              Py.lower keyword = keyword) →
  ∃ p, Routing._determine_priority self (Some text) category = inr p ∧
       (mentions_urgency (Routing.routing_rules self) text → p = "urgent") ∧
       (¬ mentions_urgency (Routing.routing_rules self) text →
        p = mapped_priority (Routing.routing_rules self) category).
Proof.
  intros Hlow. unfold Routing._determine_priority. simpl.
  destruct (Py.any _ _) eqn:E.
  - exists "urgent". split; [done|]. split; [done|].
    intros Hn. destruct Hn. by apply any_urgent_keyword.
  - eexists. split; [done|]. split; [|done].
    intros Hm. apply any_urgent_keyword in Hm; [congruence | done].
Qed.

(** C7, as stated, fails: below the threshold the decision keeps the
    default priority 'medium' although the text says URGENT. *)
Lemma priority_rule_fails_below_threshold :
  let info := Models.doc_info (Val "invoice") (Val (5 # 10)) (Val "URGENT: pay now") in
  ¬ priority_rule (Routing.routing_rules Models.router) info
      (Routing.determine_department Models.router "2024-01-15T10:00:00" info).
Proof.
  intros info H. destruct (H "URGENT: pay now" eq_refl) as [Hu _].
  assert (Hm : mentions_urgency (Routing.routing_rules Models.router) "URGENT: pay now").
  { exists "urgent". split; [set_solver|]. by exists "", "URGENT", ": pay now". }
  specialize (Hu Hm). vm_compute in Hu. discriminate Hu.
Qed.

(** C7, amended. With the rules of [_load_routing_rules], a confidence [q]
    and a text that is a string: when [q] is at least 0.7 the priority of
    the decision is 'urgent' if the text contains an urgent keyword up to
    case, and otherwise the static category priority with default 'low';
    when [q] is below 0.7 the priority is 'medium'. *)
Theorem priority_of_decision
    (self : Routing.DocumentRoutingService) (now : string)
    (info : Routing.DocumentInfo) (q : Q) (text : string) :
  Routing.routing_rules self = Routing._load_routing_rules →
  get_default (Routing.di_confidence info) 0%Q = Some q →
  get_default (Routing.di_extracted_text info) "" = Some text →
  let decision := Routing.determine_department self now info in
  (¬ (q < 7 # 10)%Q → priority_rule (Routing.routing_rules self) info decision) ∧
  ((q < 7 # 10)%Q → Routing.priority decision = "medium").
Proof.
  intros Hrules Hq Ht decision. subst decision. split.
  - intros Hge text' Ht'. rewrite Ht in Ht'. injection Ht' as <-.
    destruct (determine_department_normal self now info q text Hq) as (d & r & ->);
      [by rewrite Hrules | done |].
    simpl. unfold mapped_priority.
    assert (Hlow : ∀ keyword, keyword ∈ Routing.urgent_keywords (Routing.routing_rules self) →
                              Py.lower keyword = keyword).
    { rewrite Hrules. apply default_urgent_keywords_lowercase. }
    pose proof (any_urgent_keyword (Routing.routing_rules self) text Hlow) as Hany.
    destruct (Py.any _ _).
    + split; [done|]. intros Hn. destruct Hn. by apply Hany.
    + split; [|done]. intros Hm. apply Hany in Hm. discriminate Hm.
  - intros Hlt. rewrite (determine_department_low self now info q Hq); [done|].
    by rewrite Hrules.
Qed.

Lemma priority_of_decision_witness :
  let info := Models.doc_info (Val "report") (Val (9 # 10)) (Val "Quarterly findings, DEADLINE Friday") in
  let decision := Routing.determine_department Models.router "2024-01-15T10:00:00" info in
  (¬ (9 # 10 < 7 # 10)%Q → priority_rule (Routing.routing_rules Models.router) info decision) ∧
  ((9 # 10 < 7 # 10)%Q → Routing.priority decision = "medium").
Proof.
  intros info.
  apply (priority_of_decision Models.router "2024-01-15T10:00:00" info (9 # 10)
           "Quarterly findings, DEADLINE Friday"); reflexivity.
Defined.

Example priority_urgent_example :
  Routing.priority
    (Routing.determine_department Models.router "2024-01-15T10:00:00"
       (Models.doc_info (Val "report") (Val (9 # 10)) (Val "Quarterly findings, DEADLINE Friday")))
  = "urgent".
Proof. reflexivity. Qed.

Example priority_mapped_example :
  map (fun c => Routing.priority
                  (Routing.determine_department Models.router "2024-01-15T10:00:00"
                     (Models.doc_info (Val c) (Val (9 # 10)) (Val "Quarterly findings"))))
      ["invoice"; "resume"; "report"; "letter"]
  = ["high"; "medium"; "low"; "low"].
Proof. reflexivity. Qed.

(** ** Notification dispatch *)

Section Dispatch.

Import Routing.

Variable self : DocumentRoutingService.
Variable tr : Transport.
Variable now : string.
Variable info : DocumentInfo.
Variable routing_result : option RoutingResult.

Let nd := notification_of self now info routing_result.

Lemma send_email_method : method (_send_email_notification self tr nd) = "email".
Proof.
  unfold _send_email_notification.
  destruct (negb _ || negb _); [done|].
  destruct (_create_email_body nd) as [e|[]]; [done|]. simpl.
  by destruct (smtp_session tr nd).
Qed.

Lemma send_webhook_method : method (_send_webhook_notification self tr nd) = "webhook".
Proof. unfold _send_webhook_notification. by destruct (requests_post tr _ nd). Qed.

(** The email outcome is a success exactly when the credentials are set,
    the body can be built and the SMTP session goes through. *)
Lemma send_email_success :
  success (_send_email_notification self tr nd) = true ↔
  Py.truthy (email_user self) = true ∧ Py.truthy (email_password self) = true ∧
  _create_email_body nd = inr tt ∧ smtp_session tr nd = inr tt.
Proof.
  unfold _send_email_notification.
  destruct (Py.truthy (email_user self)), (Py.truthy (email_password self)); simpl;
    try (split; [done | by intros (? & ? & _)]).
  destruct (_create_email_body nd) as [e|[]]; simpl; [split; [done | by intros (_ & _ & ? & _)]|].
  destruct (smtp_session tr nd) as [e|[]]; simpl; [split; [done | by intros (_ & _ & _ & ?)]|].
  done.
Qed.

(** The webhook outcome is a success exactly when the POST goes through. *)
Lemma send_webhook_success :
  success (_send_webhook_notification self tr nd) = true ↔
  ∃ code, requests_post tr (default "" (webhook_url self)) nd = inr code.
Proof.
  unfold _send_webhook_notification.
  destruct (requests_post tr _ nd) as [e|code]; simpl; [split; [done | by intros [? ?]]|].
  split; [by exists code | done].
Qed.

(** [route_document] always answers with the success record, whose
    outcomes are the email outcome, when email is listed, followed by the
    webhook outcome, when the webhook is listed and has a URL. *)
Lemma route_document_outcomes :
  route_document self tr now info routing_result =
  {| resp_success := true;
     resp_routing_result := Some (nd_routing nd);
     resp_notifications_sent :=
       Some ((if dispatched self "email" then [_send_email_notification self tr nd] else []) ++
             (if dispatched self "webhook" then [_send_webhook_notification self tr nd] else []));
     resp_message := Some ("Document routed to " +:+ department_name (nd_routing nd));
     resp_error := None |}.
Proof.
  unfold route_document, route_document_body, try_except, ret, dispatched, listed.
  subst nd. unfold notification_of. simpl.
  destruct routing_result as [r|]; simpl;
    destruct (Py.elem "email" _), (Py.elem "webhook" _), (Py.truthy (webhook_url self));
    reflexivity.
Qed.

End Dispatch.

Lemma channel_count_dispatch (self : Routing.DocumentRoutingService)
    (e w : Routing.Outcome) (be bw : bool) (channel : string) :
  Routing.method e = "email" → Routing.method w = "webhook" →
  channel_count ((if be then [e] else []) ++ (if bw then [w] else [])) channel =
  if (String.eqb channel "email" && be) || (String.eqb channel "webhook" && bw) then 1 else 0.
Proof.
  intros He Hw. unfold channel_count.
  rewrite filter_app, length_app.
  destruct (String.eqb_spec channel "email") as [Heq|Hne];
    destruct (String.eqb_spec channel "webhook") as [Heqw|Hnw];
    destruct be, bw; simpl;
    rewrite ?filter_cons, ?filter_nil, ?He, ?Hw; simpl;
    repeat case_decide; simpl; congruence.
Qed.

(** C8, as stated, fails under both readings of "configured": with both
    channels listed and neither credentials nor URL set, the dispatch
    returns one failed email record and no webhook record. *)
Lemma dispatch_claim_fails :
  let self := Routing.init None None None (Some ["email"; "webhook"]) in
  let info := Models.doc_info (Val "invoice") (Val (8 # 10)) (Val "Invoice total due") in
  ∃ outcomes,
    Routing.resp_notifications_sent
      (Routing.route_document self Models.transport "2024-01-15T10:00:00" info None)
    = Some outcomes ∧
    outcomes = [ {| Routing.method := "email"; Routing.success := false;
                    Routing.error := Some "Email credentials not configured";
                    Routing.recipient := None; Routing.status_code := None |} ] ∧
    ¬ one_outcome_per_channel (listed self) outcomes ∧
    ¬ one_outcome_per_channel (fully_configured self) outcomes.
Proof.
  intros self info. eexists. split; [reflexivity|]. split; [reflexivity|]. split.
  - intros H. specialize (H "webhook"). vm_compute in H. discriminate H.
  - intros H. specialize (H "email"). vm_compute in H. discriminate H.
Qed.

Lemma dispatched_cases (self : Routing.DocumentRoutingService) (channel : string) :
  (String.eqb channel "email" && dispatched self "email") ||
  (String.eqb channel "webhook" && dispatched self "webhook") = dispatched self channel.
Proof.
  unfold dispatched, listed, Py.elem at 1 3 5. simpl existsb.
  destruct (String.eqb_spec channel "email") as [->|Hne]; simpl.
  - by rewrite orb_false_r.
  - destruct (String.eqb_spec channel "webhook") as [->|Hnw]; by simpl.
Qed.

(** C8, amended. [route_document] never raises and returns the success
    record: one outcome for email when it is listed, one for the webhook
    when it is listed and has a URL, none otherwise. Each outcome reports
    the fate of its own channel only. An email channel that is listed
    without credentials is not skipped: its outcome is the failure
    'Email credentials not configured'. *)
Theorem dispatch_outcomes
    (self : Routing.DocumentRoutingService) (tr : Routing.Transport) (now : string)
    (info : Routing.DocumentInfo) (routing_result : option Routing.RoutingResult) :
  let nd := notification_of self now info routing_result in
  let response := Routing.route_document self tr now info routing_result in
  ∃ outcomes,
    Routing.resp_success response = true ∧
    Routing.resp_error response = None ∧
    Routing.resp_notifications_sent response = Some outcomes ∧
    one_outcome_per_channel (dispatched self) outcomes ∧
    (∀ o, o ∈ outcomes → Routing.method o = "webhook" →
       (Routing.success o = true ↔
        ∃ code, Routing.requests_post tr (default "" (Routing.webhook_url self)) nd = inr code)) ∧
    (∀ o, o ∈ outcomes → Routing.method o = "email" →
       (Routing.success o = true ↔
        Py.truthy (Routing.email_user self) = true ∧
        Py.truthy (Routing.email_password self) = true ∧
        Routing._create_email_body nd = inr tt ∧ Routing.smtp_session tr nd = inr tt)) ∧
    (listed self "email" = true → fully_configured self "email" = false →
     ∃ o, o ∈ outcomes ∧ Routing.method o = "email" ∧ Routing.success o = false ∧
          Routing.error o = Some "Email credentials not configured").
Proof.
  intros nd response. subst response. rewrite route_document_outcomes. fold nd.
  eexists. split; [reflexivity|]. split; [reflexivity|]. split; [reflexivity|].
  pose proof (send_email_method self tr now info routing_result) as He.
  pose proof (send_webhook_method self tr now info routing_result) as Hw.
  fold nd in He, Hw.
  split; [|split; [|split]].
  - intros channel.
    rewrite (channel_count_dispatch self _ _ _ _ channel He Hw).
    by rewrite dispatched_cases.
  - intros o Ho Hm. apply elem_of_app in Ho as [Ho|Ho].
    + destruct (dispatched self "email"); [|by apply elem_of_nil in Ho].
      apply list_elem_of_singleton in Ho as ->. congruence.
    + destruct (dispatched self "webhook"); [|by apply elem_of_nil in Ho].
      apply list_elem_of_singleton in Ho as ->. apply send_webhook_success.
  - intros o Ho Hm. apply elem_of_app in Ho as [Ho|Ho].
    + destruct (dispatched self "email"); [|by apply elem_of_nil in Ho].
      apply list_elem_of_singleton in Ho as ->. apply send_email_success.
    + destruct (dispatched self "webhook"); [|by apply elem_of_nil in Ho].
      apply list_elem_of_singleton in Ho as ->. congruence.
  - intros Hl Hf. exists (Routing._send_email_notification self tr nd).
    assert (Hd : dispatched self "email" = true).
    { unfold dispatched. by rewrite Hl. }
    rewrite Hd. split; [set_solver|]. split; [done|].
    unfold fully_configured in Hf. rewrite Hl in Hf. simpl in Hf.
    unfold Routing._send_email_notification.
    destruct (Py.truthy (Routing.email_user self)),
             (Py.truthy (Routing.email_password self)); simpl in *; done.
Qed.

Example dispatch_both_channels :
  let self := Routing.init (Some "dms@kmrl.example") (Some "secret")
                (Some "https://hooks.example/kmrl") (Some ["email"; "webhook"]) in
  let failing_smtp :=
    {| Routing.smtp_session := fun _ => raise "Connection refused";
       Routing.requests_post := fun _ _ => ret 200%Z |} in
  Routing.resp_notifications_sent
    (Routing.route_document self failing_smtp "2024-01-15T10:00:00"
       (Models.doc_info (Val "invoice") (Val (8 # 10)) (Val "Invoice total due")) None)
  = Some [ {| Routing.method := "email"; Routing.success := false;
              Routing.error := Some "Connection refused";
              Routing.recipient := None; Routing.status_code := None |};
           {| Routing.method := "webhook"; Routing.success := true;
              Routing.error := None;
              Routing.recipient := None; Routing.status_code := Some 200%Z |} ].
Proof. reflexivity. Qed.

(** ** Rule-based classification *)

Example rule_based_examples :
  map Classification.rule_based_classification
    [ "INVOICE #1 Total Due: $500.00";
      "This Agreement is entered into between Party A and Party B.";
      "Education: BSc. Skills: Python. University of Kerala";
      "The plaintiff filed in court";
      "Findings and conclusion";
      "invoice bill payment";
      "Hello world" ]
  = [ ("invoice", 8 # 10); ("contract", 7 # 10); ("resume", 75 # 100);
      ("legal_document", 7 # 10); ("report", 6 # 10); ("other", 5 # 10); ("other", 5 # 10) ].
Proof. reflexivity. Qed.

(** C4, as stated, fails: one contract keyword outweighs three legal
    keywords, because the source returns at the first test that holds. *)
Lemma rule_based_is_not_argmax :
  category_scores "agreement court legal attorney"
    = [("invoice", 0); ("contract", 1); ("resume", 0); ("legal_document", 3); ("report", 0)] ∧
  argmax_classification "agreement court legal attorney" = ("legal_document", 7 # 10) ∧
  Classification.rule_based_classification "agreement court legal attorney" = ("contract", 7 # 10) ∧
  Classification.rule_based_classification "agreement court legal attorney"
    ≠ argmax_classification "agreement court legal attorney".
Proof. repeat split; [reflexivity..|]. vm_compute. discriminate. Qed.

Lemma elem_true (x : string) (l : list string) : Py.elem x l = true → x ∈ l.
Proof.
  unfold Py.elem. rewrite existsb_exists. intros (y & Hin & Heq).
  apply String.eqb_eq in Heq as ->. by apply list_elem_of_In.
Qed.

Lemma any_no_keyword (text : string) (keywords : list string) :
  (∀ keyword, keyword ∈ keywords → Py.contains keyword (Py.lower text) = false) →
  Py.any (fun word => Py.contains word (Py.lower text)) keywords = false.
Proof.
  intros H. apply not_true_is_false. intros Hany.
  apply any_true in Hany as (kw & Hin & Hc). rewrite (H kw Hin) in Hc. discriminate.
Qed.

Lemma rule_based_first_match (text : string) :
  Classification.rule_based_classification text = first_match_classification text.
Proof.
  unfold Classification.rule_based_classification, first_match_classification.
  cbv [cascade find test_holds forallb snd fst].
  generalize (Py.lower text). intros tl.
  repeat match goal with
         | |- context [Py.any ?f ?l] =>
             let b := fresh "b" in
             generalize (Py.any f l); intros b; destruct b; cbv [andb]
         end; reflexivity.
Qed.

(** C4, amended. [rule_based_classification] tries the categories invoice,
    contract, resume, legal_document, report in this order and returns the
    first one whose keyword test holds, with the fixed confidence of that
    category (0.8, 0.7, 0.75, 0.7, 0.6), and 'other' with 0.5 when no test
    holds, which includes every text in which no keyword occurs. For
    "INVOICE #1 Total Due: $500.00" it returns 'invoice' with confidence
    0.8, which is at least 0.7. *)
Theorem rule_based_classification_cascade :
  (∀ text,
     Classification.rule_based_classification text = first_match_classification text ∧
     snd (Classification.rule_based_classification text)
       = heuristic_confidence (fst (Classification.rule_based_classification text)) ∧
     (no_keyword text →
      Classification.rule_based_classification text = ("other", 5 # 10))) ∧
  Classification.rule_based_classification "INVOICE #1 Total Due: $500.00" = ("invoice", 8 # 10) ∧
  (7 # 10 <= snd (Classification.rule_based_classification "INVOICE #1 Total Due: $500.00"))%Q.
Proof.
  split; [|split; [reflexivity | by vm_compute]].
  intros text. split; [apply rule_based_first_match|]. split.
  - rewrite rule_based_first_match. unfold first_match_classification.
    destruct (find _ cascade) as [rule|]; reflexivity.
  - intros Hno. unfold Classification.rule_based_classification.
    assert (Hk : ∀ sub, forallb (fun k => Py.elem k all_keywords) sub = true →
               Py.any (fun word => Py.contains word (Py.lower text)) sub = false).
    { intros sub Hsub. apply any_no_keyword. intros kw Hkw. apply Hno.
      rewrite forallb_forall in Hsub. apply list_elem_of_In in Hkw.
      by apply elem_true, Hsub. }
    rewrite !Hk by reflexivity.
    reflexivity.
Qed.

(** ** The length check of [classify_document] *)

Lemma strip_empty : Py.strip "" = "".
Proof. reflexivity. Qed.

Lemma too_short_spec (text : option string) :
  Classification.too_short text = true ↔ stripped_shorter_than_10 text.
Proof.
  destruct text as [[|c s]|]; simpl.
  - split; [intros _; lia | done].
  - unfold Py.len. apply Nat.ltb_lt.
  - done.
Qed.

(** C5, as stated, fails: a text of 12 characters, ten of them trailing
    spaces, is rejected by the length check. *)
Lemma length_check_counts_stripped_text :
  ¬ fails_exactly_when_shorter_than_10 Models.classifier.
Proof.
  intros H. specialize (H "hi          ").
  assert (Hf : Classification.success
                 (Classification.classify_document Models.classifier (Some "hi          "))
               = false) by reflexivity.
  apply H in Hf. simpl in Hf. lia.
Qed.

(** C5, amended. [classify_document] returns the length failure (category
    'other', confidence 0.0, error 'Text too short for classification')
    exactly when the text is missing or has fewer than 10 characters after
    its surrounding whitespace is stripped, and it then runs no strategy.
    The only other failed result is the one returned when the loaded model
    raises. *)
Theorem classify_document_length_check
    (self : Classification.DocumentClassificationService) (text : option string) :
  let run := Classification.classify_document_run self text in
  (fst run = length_failure ↔ stripped_shorter_than_10 text) ∧
  (stripped_shorter_than_10 text → snd run = []) ∧
  (Classification.success (fst run) = false ↔
   stripped_shorter_than_10 text ∨
   (¬ stripped_shorter_than_10 text ∧ ∃ e, ml_raises self text e)).
Proof.
  intros run. subst run. rewrite <- !too_short_spec.
  unfold Classification.classify_document_run, ml_raises.
  destruct (Classification.too_short text) eqn:Hs; simpl.
  - split; [done|]. split; [done|]. split; [by left | done].
  - destruct (Classification.model self) as [predict|] eqn:Hm.
    + destruct (Classification.ml_branch self predict (default "" text)) as [e|r] eqn:Hb.
      * destruct (Classification.rule_based_classification (default "" text)) as [c q].
        simpl. split; [split; [intros [=] | done]|]. split; [done|].
        split; [|done]. intros _. right. split; [done|]. by exists e, predict.
      * simpl. assert (Hr : Classification.success r = true).
        { unfold Classification.ml_branch, bind in Hb.
          destruct (Classification.preprocess_text self _); [done|].
          destruct (predict _); [done|].
          destruct (Qmax_list _); [done|]. by injection Hb as <-. }
        split; [split; [|done]|].
        { intros ->. discriminate Hr. }
        split; [done|]. rewrite Hr. split; [done|].
        intros [?|[_ (e & p & [= <-] & He)]]; [done|]. rewrite Hb in He. done.
    + destruct (Classification.rule_based_classification (default "" text)) as [c q].
      simpl. split; [split; [intros [=] | done]|]. split; [done|].
      split; [done|]. intros [?|[_ (e & p & ? & _)]]; done.
Qed.

(** ** Exceptions of the classification strategies *)

(** C6, as stated, fails: the message of the exception raised by the model
    is returned in the [error] field. *)
Lemma classify_document_returns_exception_text :
  ¬ no_exception_text Models.broken_classifier "0123456789 contract".
Proof.
  intros H.
  apply (H "X has 12 features, but MultinomialNB is expecting 40 features as input.");
    [|reflexivity].
  eexists. split; reflexivity.
Qed.

(** The maximum of a non-empty list of floats. *)
Lemma fold_max_spec (rest : list Q) (x : Q) :
  let m := fold_left (fun m y => if Qltb m y then y else m) rest x in
  (m = x ∨ m ∈ rest) ∧ (x <= m)%Q ∧ ∀ p, p ∈ rest → (p <= m)%Q.
Proof.
  revert x. induction rest as [|y rest IH]; intros x; simpl.
  - split; [by left|]. split; [apply Qle_refl|]. by intros p ?%elem_of_nil.
  - destruct (IH (if Qltb x y then y else x)) as (Hin & Hle & Hall).
    assert (Hxy : (x <= (if Qltb x y then y else x))%Q ∧ (y <= (if Qltb x y then y else x))%Q).
    { destruct (Qltb x y) eqn:E.
      - apply Qltb_lt in E. split; [by apply Qlt_le_weak | apply Qle_refl].
      - split; [apply Qle_refl|]. unfold Qltb in E. apply negb_false_iff in E.
        by apply Qle_bool_iff. }
    destruct Hxy as [Hx Hy]. split; [|split].
    + destruct Hin as [Hm | Hm]; [|right; by apply list_elem_of_further].
      rewrite Hm. destruct (Qltb x y); [right; apply list_elem_of_here | by left].
    + by apply (Qle_trans _ _ _ Hx).
    + intros p [-> | Hp]%elem_of_cons; [by apply (Qle_trans _ _ _ Hy) | by apply Hall].
Qed.

Lemma Qmax_list_spec (l : list Q) :
  l ≠ [] → ∃ m, Qmax_list l = inr m ∧ is_maximum l m.
Proof.
  destruct l as [|x rest]; [done|]. intros _. eexists. split; [reflexivity|].
  destruct (fold_max_spec rest x) as (Hin & Hle & Hall). split.
  - destruct Hin as [-> | Hin]; [apply list_elem_of_here | by apply list_elem_of_further].
  - intros p [-> | Hp]%elem_of_cons; [done | by apply Hall].
Qed.

(** C6, amended. On a text that passes the length check [classify_document]
    does not raise and always returns a category and a confidence: the
    rule-based ones when no model is loaded; when the model answers, the
    category that it predicts and the largest of its probabilities, in a
    successful result with method 'machine_learning'; and, when the model
    raises, the rule-based ones in a result marked as failed whose [error]
    field is the message of the exception. The demo classifier of
    [gemini_classification.py] drops the exception of the API call and
    answers with its keyword result, without error text. *)
Theorem classify_document_fallback_chain
    (self : Classification.DocumentClassificationService)
    (demo : Gemini.GeminiDocumentClassifier) (text name : string) :
  Classification.too_short (Some text) = false →
  let result := Classification.classify_document self (Some text) in
  let rules := Classification.rule_based_classification text in
  (Classification.model self = None →
   result = {| Classification.success := true; Classification.error := None;
               Classification.category := fst rules; Classification.confidence := snd rules;
               Classification.all_probabilities := None;
               Classification.method := Some "rule_based" |}) ∧
  (∀ predict processed out, Classification.model self = Some predict →
     Classification.preprocess_text self text = inr processed →
     predict processed = inr out →
     Classification.probabilities out ≠ [] →
     Classification.success result = true ∧
     Classification.error result = None ∧
     Classification.category result = Classification.prediction out ∧
     is_maximum (Classification.probabilities out) (Classification.confidence result) ∧
     Classification.all_probabilities result
       = Some (zip (Classification.classes_ out) (Classification.probabilities out)) ∧
     Classification.method result = Some "machine_learning") ∧
  (∀ e, ml_raises self (Some text) e →
     result = {| Classification.success := false; Classification.error := Some e;
                 Classification.category := fst rules; Classification.confidence := snd rules;
                 Classification.all_probabilities := None;
                 Classification.method := Some "rule_based_fallback" |}) ∧
  (∀ e, Gemini.is_available demo = true →
     Gemini._classify_with_gemini demo text name = inl e →
     Gemini.classify_document demo (Some text) name = Gemini._classify_with_mock text name ∧
     Gemini.error (Gemini.classify_document demo (Some text) name) = None).
Proof.
  intros Hs result rules. subst result rules.
  unfold Classification.classify_document, Classification.classify_document_run,
    Gemini.classify_document, ml_raises.
  rewrite Hs. simpl.
  destruct (Classification.rule_based_classification text) as [c q]. simpl.
  split; [|split; [|split]].
  - by intros ->.
  - intros predict processed out -> Hp Ho Hne.
    unfold Classification.ml_branch, bind. rewrite Hp, Ho.
    destruct (Qmax_list_spec (Classification.probabilities out) Hne) as (m & -> & Hmax).
    done.
  - intros e (predict & -> & Hb). by rewrite Hb.
  - intros e -> He. by rewrite He.
Qed.

Lemma classify_document_fallback_chain_witness :
  let self := Models.trained_classifier in
  let demo := {| Gemini.is_available := true;
                 Gemini._classify_with_gemini := fun _ _ => raise "429 Resource exhausted" |} in
  let text := "0123456789 contract" in
  let result := Classification.classify_document self (Some text) in
  let rules := Classification.rule_based_classification text in
  (Classification.model self = None →
   result = {| Classification.success := true; Classification.error := None;
               Classification.category := fst rules; Classification.confidence := snd rules;
               Classification.all_probabilities := None;
               Classification.method := Some "rule_based" |}) ∧
  (∀ predict processed out, Classification.model self = Some predict →
     Classification.preprocess_text self text = inr processed →
     predict processed = inr out →
     Classification.probabilities out ≠ [] →
     Classification.success result = true ∧
     Classification.error result = None ∧
     Classification.category result = Classification.prediction out ∧
     is_maximum (Classification.probabilities out) (Classification.confidence result) ∧
     Classification.all_probabilities result
       = Some (zip (Classification.classes_ out) (Classification.probabilities out)) ∧
     Classification.method result = Some "machine_learning") ∧
  (∀ e, ml_raises self (Some text) e →
     result = {| Classification.success := false; Classification.error := Some e;
                 Classification.category := fst rules; Classification.confidence := snd rules;
                 Classification.all_probabilities := None;
                 Classification.method := Some "rule_based_fallback" |}) ∧
  (∀ e, Gemini.is_available demo = true →
     Gemini._classify_with_gemini demo text "scan.pdf" = inl e →
     Gemini.classify_document demo (Some text) "scan.pdf" = Gemini._classify_with_mock text "scan.pdf" ∧
     Gemini.error (Gemini.classify_document demo (Some text) "scan.pdf") = None).
Proof.
  intros self demo text.
  apply (classify_document_fallback_chain self demo text "scan.pdf"). reflexivity.
Defined.

(** The trained stand-in answers with its prediction and the largest of
    its probabilities. *)
Example ml_answer_example :
  let r := Classification.classify_document Models.trained_classifier
             (Some "Invoice 2024: total due") in
  (Classification.success r, Classification.category r, Classification.confidence r,
   Classification.method r)
  = (true, "invoice", 8 # 10, Some "machine_learning").
Proof. reflexivity. Qed.

Example mock_classification_example :
  map (fun text => let r := Gemini._classify_with_mock text "" in
                   (Gemini.predicted_type r, Gemini.confidence r))
      [ "INVOICE #1 Total Due: $500.00"; "Purchase order for the vendor";
        "policy report"; "Hello world" ]
  = [ ("Invoice", 92 # 100); ("Purchase Order", 90 # 100); ("Report", 85 # 100);
      ("Other", 75 # 100) ].
Proof. reflexivity. Qed.

(** ** The text normaliser of the classifier *)

Lemma is_az_char (c : ascii) :
  Py.is_az c = true → Py.lower_char c = c ∧ Py.isspace c = false.
Proof. destruct c as [[] [] [] [] [] [] [] []]; vm_compute; intros; split; congruence. Qed.

Lemma lower_az (w : string) : Py.forall_chars Py.is_az w = true → Py.lower w = w.
Proof.
  induction w as [|c w IH]; [done|]. simpl. intros [Hc Hw]%andb_true_iff.
  by rewrite (proj1 (is_az_char c Hc)), IH.
Qed.

Lemma filter_az (w : string) :
  Py.forall_chars Py.is_az w = true →
  Py.filter (fun c => Py.is_az c || Py.is_AZ c || Py.isspace c) w = w.
Proof.
  induction w as [|c w IH]; [done|]. simpl. intros [Hc Hw]%andb_true_iff.
  by rewrite Hc, IH.
Qed.

Lemma str_filter_app (f : ascii → bool) (s t : string) :
  Py.filter f (s +:+ t) = Py.filter f s +:+ Py.filter f t.
Proof.
  induction s as [|c s IH]; [done|]. rewrite str_app_cons. simpl.
  destruct (f c); by rewrite IH.
Qed.

(** A word of letters goes through the whitespace collapse unchanged and
    ends any run. *)
Lemma collapse_go_word (b : bool) (w s : string) :
  Py.forall_chars Py.is_az w = true → w ≠ "" →
  Py.collapse_go b (w +:+ s) = w +:+ Py.collapse_go false s.
Proof.
  revert b. induction w as [|c w IH]; [done|]. intros b [Hc Hw]%andb_true_iff _.
  rewrite !str_app_cons. simpl. rewrite (proj2 (is_az_char c Hc)). f_equal.
  destruct w as [|d w]; [done|]. by apply IH.
Qed.

Lemma collapse_go_join (b : bool) (ts : list string) :
  Forall az_word ts → Py.collapse_go b (Py.join " " ts) = Py.join " " ts.
Proof.
  intros H. revert b. induction H as [|t ts [Ht Hne] Hts IH]; intros b; [done|].
  destruct ts as [|t' ts].
  - simpl. rewrite <- (str_app_nil_r t) at 1. rewrite collapse_go_word by done.
    simpl. apply str_app_nil_r.
  - change (Py.join " " (t :: t' :: ts)) with (t +:+ " " +:+ Py.join " " (t' :: ts)).
    rewrite collapse_go_word by done. f_equal.
    change (" " +:+ Py.join " " (t' :: ts)) with (String " " (Py.join " " (t' :: ts))).
    simpl Py.collapse_go. change (Py.isspace " ") with true. cbv iota.
    f_equal. apply IH.
Qed.

Lemma lower_join (ts : list string) :
  Forall az_word ts → Py.lower (Py.join " " ts) = Py.join " " ts.
Proof.
  induction 1 as [|t ts [Ht _] Hts IH]; [done|].
  destruct ts as [|t' ts]; [by apply lower_az|].
  change (Py.join " " (t :: t' :: ts)) with (t +:+ " " +:+ Py.join " " (t' :: ts)).
  rewrite !lower_app, IH, lower_az by done. done.
Qed.

Lemma filter_join (ts : list string) :
  Forall az_word ts →
  Py.filter (fun c => Py.is_az c || Py.is_AZ c || Py.isspace c) (Py.join " " ts)
  = Py.join " " ts.
Proof.
  induction 1 as [|t ts [Ht _] Hts IH]; [done|].
  destruct ts as [|t' ts]; [by apply filter_az|].
  change (Py.join " " (t :: t' :: ts)) with (t +:+ " " +:+ Py.join " " (t' :: ts)).
  rewrite !str_filter_app, IH, filter_az by done. done.
Qed.

(** The joined text of letter-only stems is already clean. *)
Lemma cleaned_join (ts : list string) :
  Forall az_word ts → cleaned (Py.join " " ts) = Py.join " " ts.
Proof.
  intros H. unfold cleaned, Py.collapse_ws.
  by rewrite lower_join, filter_join, collapse_go_join.
Qed.

Lemma stable_stems_spec (nl : NLP) (ts : list string) :
  forallb (stable_stem nl) ts = true →
  Forall az_word ts ∧ stems_of nl ts = ts.
Proof.
  induction ts as [|t ts IH]; [done|]. simpl.
  intros [Ht Hts]%andb_true_iff. destruct (IH Hts) as [Haz Hst].
  unfold stable_stem in Ht.
  apply andb_true_iff in Ht as [[[Hc Hl]%andb_true_iff Hs]%andb_true_iff He].
  apply String.eqb_eq in He. split.
  - constructor; [|done]. split; [done|]. intros ->. done.
  - unfold stems_of in *. rewrite filter_cons.
    rewrite Hs, Hl. simpl. rewrite He. f_equal. apply Hst.
Qed.

Lemma rev_app_rev_app (w c d : string) :
  String.rev_app (String.rev_app w c) d = String.rev_app c (w +:+ d).
Proof.
  revert c d. induction w as [|a w IH]; intros c d; [done|].
  simpl. by rewrite IH.
Qed.

Lemma rev_rev_app (w : string) : String.rev (String.rev_app w "") = w.
Proof. unfold String.rev. by rewrite rev_app_rev_app, str_app_nil_r. Qed.

Lemma split_go_word (w cur s : string) :
  Py.forall_chars Py.is_az w = true →
  Py.split_go cur (w +:+ s) = Py.split_go (String.rev_app w cur) s.
Proof.
  revert cur. induction w as [|c w IH]; intros cur; [done|].
  intros [Hc Hw]%andb_true_iff. rewrite str_app_cons. simpl.
  rewrite (proj2 (is_az_char c Hc)). by apply IH.
Qed.

(** [str.split] undoes [' '.join] on words of letters. *)
Lemma split_join (ts : list string) :
  Forall az_word ts → Py.split (Py.join " " ts) = ts.
Proof.
  unfold Py.split. induction 1 as [|t ts [Ht Hne] Hts IH]; [done|].
  assert (Hrev : ∃ a r, String.rev_app t "" = String a r).
  { destruct (String.rev_app t "") as [|a r] eqn:E; [|by eauto].
    pose proof (rev_rev_app t) as Hr. rewrite E in Hr. by destruct Hne. }
  destruct Hrev as (a & r & Hrev).
  destruct ts as [|t' ts].
  - simpl Py.join. pose proof (split_go_word t "" "" Ht) as Hw.
    rewrite str_app_nil_r in Hw. rewrite Hw. simpl.
    rewrite Hrev, <- Hrev. by rewrite rev_rev_app.
  - change (Py.join " " (t :: t' :: ts)) with (t +:+ String " " (Py.join " " (t' :: ts))).
    rewrite (split_go_word t "" _ Ht). simpl Py.split_go.
    change (Py.isspace " ") with true. cbv iota.
    rewrite Hrev, <- Hrev, rev_rev_app. by f_equal.
Qed.

(** Whatever the stemmer does elsewhere, a stemmer that turns "ads" into
    "ad", as step 1a of the Porter algorithm does, breaks idempotence: the
    second pass drops the two-letter stem. *)
Lemma preprocess_text_plural (self : Classification.DocumentClassificationService) :
  word_tokenize (Classification.nlp self) "ads" = inr ["ads"] →
  word_tokenize (Classification.nlp self) "ad" = inr ["ad"] →
  stem (Classification.nlp self) "ads" = "ad" →
  Py.elem "ads" (stop_words (Classification.nlp self)) = false →
  Classification.preprocess_text self "ads" = inr "ad" ∧
  Classification.preprocess_text self "ad" = inr "".
Proof.
  intros H1 H2 H3 H4. unfold Classification.preprocess_text.
  change (Py.collapse_ws (Py.filter _ (Py.lower "ads"))) with "ads".
  change (Py.collapse_ws (Py.filter _ (Py.lower "ad"))) with "ad".
  rewrite H1, H2. simpl. rewrite !filter_cons, filter_nil, H4. simpl.
  rewrite andb_false_r.
  repeat case_decide; try done. simpl. by rewrite H3.
Qed.

(** C10, as stated, fails: "ads" is normalised to "ad", and "ad" to the
    empty text. *)
Lemma preprocess_text_not_idempotent :
  ¬ preprocess_text_idempotent Models.classifier.
Proof.
  intros H.
  destruct (preprocess_text_plural Models.classifier) as [H1 H2]; try reflexivity.
  apply H in H1. rewrite H2 in H1. discriminate H1.
Qed.

(** C10, amended. [preprocess_text] is a function of its input, the
    tokenizer, the stemmer and the stop words, and a second pass changes
    nothing when every stem of the first pass is stable (lowercase letters
    only, longer than two characters, not a stop word, fixed by the
    stemmer) and the tokenizer splits their joined text back into them. *)
Theorem preprocess_text_idempotent_on_stable_stems
    (self : Classification.DocumentClassificationService)
    (x : string) (tokens : list string) :
  let stems := stems_of (Classification.nlp self) tokens in
  word_tokenize (Classification.nlp self) (cleaned x) = inr tokens →
  forallb (stable_stem (Classification.nlp self)) stems = true →
  word_tokenize (Classification.nlp self) (Py.join " " stems) = inr stems →
  Classification.preprocess_text self x = inr (Py.join " " stems) ∧
  Classification.preprocess_text self (Py.join " " stems) = inr (Py.join " " stems).
Proof.
  intros stems Htok Hstable Hsplit.
  destruct (stable_stems_spec _ _ Hstable) as [Haz Hfix].
  pose proof (cleaned_join stems Haz) as Hclean.
  unfold Classification.preprocess_text. fold (cleaned x). fold (cleaned (Py.join " " stems)).
  rewrite Htok, Hclean, Hsplit. simpl.
  fold (stems_of (Classification.nlp self) tokens).
  fold (stems_of (Classification.nlp self) stems). fold stems. by rewrite Hfix.
Qed.

(** With a tokenizer that splits at whitespace the stable stems alone
    suffice. *)
Lemma preprocess_text_idempotent_whitespace
    (self : Classification.DocumentClassificationService) (x : string) :
  (∀ s, word_tokenize (Classification.nlp self) s = inr (Py.split s)) →
  let stems := stems_of (Classification.nlp self) (Py.split (cleaned x)) in
  forallb (stable_stem (Classification.nlp self)) stems = true →
  Classification.preprocess_text self x = inr (Py.join " " stems) ∧
  Classification.preprocess_text self (Py.join " " stems) = inr (Py.join " " stems).
Proof.
  intros Htok stems Hstable.
  destruct (stable_stems_spec _ _ Hstable) as [Haz _].
  pose proof (split_join stems Haz) as Hsplit.
  unfold Classification.preprocess_text. fold (cleaned x). fold (cleaned (Py.join " " stems)).
  rewrite !Htok, (cleaned_join stems Haz), Hsplit. simpl.
  fold (stems_of (Classification.nlp self) (Py.split (cleaned x))).
  fold (stems_of (Classification.nlp self) stems). fold stems.
  by rewrite (proj2 (stable_stems_spec _ _ Hstable)).
Qed.

Lemma preprocess_text_idempotent_on_stable_stems_witness :
  let x := "Court Report:  the TOTAL of 2024!" in
  let stems := ["court"; "report"; "total"] in
  Classification.preprocess_text Models.classifier x = inr (Py.join " " stems) ∧
  Classification.preprocess_text Models.classifier (Py.join " " stems) = inr (Py.join " " stems).
Proof.
  intros x stems.
  apply (preprocess_text_idempotent_on_stable_stems Models.classifier x
           ["court"; "report"; "the"; "total"; "of"]); reflexivity.
Defined.

(** ** The pipeline *)




(** After a failed classification the routing stage receives a category and
    a confidence that are [None]: the defaults 'other' and 0.0 of
    [determine_department] do not apply to a key that is present, and the
    decision comes from its exception handler. *)
Lemma routing_after_failed_classification (app : Pipeline.App) (document_id : Z)
    (document : Pipeline.Document) :
  Pipeline.confidence_score document = None →
  ∃ response decision,
    Pipeline.routing_step app document_id document
    = (Pipeline.set_department (Some "archive") document,
       inr (Pipeline.log_entry document_id "routing" "completed"
              ("Routed to " +:+ Routing.department_name decision)),
       [Pipeline.CallRouting (Pipeline.document_info_of document) response]) ∧
    Routing.resp_routing_result response = Some decision ∧
    decision = Routing._create_routing_result (Pipeline.routing_service app) (Pipeline.now app)
                 "archive"
                 "Error in routing: '<' not supported between instances of 'NoneType' and 'float'"
                 0%Q "medium" false true.
Proof.
  intros Hc. unfold Pipeline.routing_step.
  rewrite route_document_outcomes. simpl.
  rewrite determine_department_none by (simpl; by rewrite Hc).
  eexists _, _. split; [reflexivity|]. split; reflexivity.
Qed.

Lemma summarization_step_keeps_classification (app : Pipeline.App) (document_id : Z)
    (document : Pipeline.Document) :
  ∃ document' outcome c,
    Pipeline.summarization_step app document_id document = (document', outcome, [c]) ∧
    Pipeline.classification document' = Pipeline.classification document ∧
    Pipeline.confidence_score document' = Pipeline.confidence_score document.
Proof.
  unfold Pipeline.summarization_step.
  destruct (Summarization.generate_summary _ _ _ _) as [e|r]; [by eexists _, _, _|].
  destruct (Summarization.success r); by eexists _, _, _.
Qed.

(** Whenever extraction succeeds and classification fails on a document
    without category and confidence, the run completes, leaves the category
    unset, logs the failed classification, and routes through the exception
    handler of [determine_department]. *)
Lemma pipeline_after_failed_classification (app : Pipeline.App) (db : Pipeline.DB)
    (document_id : Z) (document : Pipeline.Document) (r : Pipeline.ExtractionResult) :
  Pipeline.documents db !! document_id = Some document →
  Pipeline.classification document = None →
  Pipeline.confidence_score document = None →
  Pipeline.process_document app (Pipeline.file_path document) = inr r →
  Pipeline.ex_success r = true →
  Pipeline.store_extracted_data app document_id r = inr tt →
  Classification.success
    (Classification.classify_document (Pipeline.classification_service app) (Pipeline.ex_text r))
  = false →
  let run := Pipeline.process_document_pipeline app db document_id in
  ∃ document' info response decision,
    Pipeline.documents (Pipeline.run_db run) !! document_id = Some document' ∧
    Pipeline.status document' = Pipeline.COMPLETED ∧
    Pipeline.classification document' = None ∧
    Pipeline.department document' = Some "archive" ∧
    Pipeline.log_entry document_id "classification" "failed" "Classification failed"
      ∈ new_entries db run ∧
    Pipeline.CallRouting info response ∈ Pipeline.run_calls run ∧
    Routing.di_classification info = PyNone ∧
    Routing.di_confidence info = PyNone ∧
    Routing.resp_routing_result response = Some decision ∧
    Routing.needs_review decision = true ∧
    Routing.reason decision
      = "Error in routing: '<' not supported between instances of 'NoneType' and 'float'".
Proof.
  intros Hdoc Hc Hq Hex Hok Hst Hfail run. subst run.
  unfold Pipeline.process_document_pipeline, Pipeline.extraction_step.
  rewrite Hdoc. simpl Pipeline.file_path. rewrite Hex, Hok, Hst. cbv beta iota zeta.
  unfold Pipeline.run_stage, Pipeline.classification_step.
  simpl Pipeline.extracted_text. rewrite Hfail. cbv beta iota zeta.
  set (d1 := Pipeline.set_extracted_text _ _).
  destruct (summarization_step_keeps_classification app document_id d1)
    as (d2 & o2 & c2 & Hsum & Hc2 & Hq2).
  rewrite Hsum. cbv beta iota zeta.
  destruct (routing_after_failed_classification app document_id d2)
    as (response & decision & Hroute & Hresp & Hdec).
  { rewrite Hq2. subst d1. done. }
  rewrite Hroute. cbv beta iota zeta.
  exists (Pipeline.set_status Pipeline.COMPLETED (Pipeline.set_department (Some "archive") d2)),
    (Pipeline.document_info_of d2), response, decision.
  assert (Hc1 : Pipeline.classification d1 = None) by (subst d1; simpl; done).
  assert (Hq1 : Pipeline.confidence_score d1 = None) by (subst d1; simpl; done).
  split; [apply lookup_insert_eq|]. split; [done|].
  split; [simpl; by rewrite Hc2, Hc1|]. split; [done|].
  split.
  { unfold new_entries. simpl. rewrite <- !app_assoc, drop_app_length.
    do 2 apply list_elem_of_further. apply list_elem_of_here. }
  split.
  { simpl. do 3 apply list_elem_of_further. apply list_elem_of_here. }
  split; [simpl; by rewrite Hc2, Hc1|]. split; [simpl; by rewrite Hq2, Hq1|].
  split; [done|]. by rewrite Hdec.
Qed.

(** C3, evaluated on a fresh document whose extracted text is "hello"
    (classification fails on the length check). The run completes, the
    category stays unset, the failed classification is logged, and routing
    runs and answers with the archive and a request for review. But the
    routing stage is handed the category [None] and the confidence [None],
    not 'other' and 0.0, and its decision is the one of the exception
    handler of [determine_department], with the text of the [TypeError] as
    reason, not the one of the low-confidence branch. *)
Theorem classification_failure_reaches_error_handler :
  let app := Models.app (Models.extracted "hello") Models.classifier in
  let run := Pipeline.process_document_pipeline app Models.fresh_db 1 in
  ∃ document info response decision,
    Pipeline.documents (Pipeline.run_db run) !! 1%Z = Some document ∧
    Pipeline.status document = Pipeline.COMPLETED ∧
    Pipeline.classification document = None ∧
    Pipeline.log_entry 1 "classification" "failed" "Classification failed"
      ∈ Pipeline.logs (Pipeline.run_db run) ∧
    Pipeline.CallRouting info response ∈ Pipeline.run_calls run ∧
    Routing.di_classification info = PyNone ∧
    Routing.di_confidence info = PyNone ∧
    Routing.resp_routing_result response = Some decision ∧
    Routing.department_id decision = "archive" ∧
    Routing.needs_review decision = true ∧
    Routing.confidence decision = 0%Q ∧
    Routing.reason decision
      = "Error in routing: '<' not supported between instances of 'NoneType' and 'float'" ∧
    Routing.reason decision ≠ "Low confidence classification".
Proof.
  intros app run.
  unfold run, Pipeline.process_document_pipeline.
  change (Pipeline.documents Models.fresh_db !! 1%Z) with (Some Models.fresh_document).
  cbv beta iota.
  eexists _, _, _, _.
  split; [apply lookup_insert_eq|].
  split; [reflexivity|]. split; [reflexivity|].
  split; [vm_compute; set_solver|].
  split; [simpl; do 3 apply list_elem_of_further; apply list_elem_of_here|].
  repeat split; discriminate.
Qed.

(** ** Summaries *)

Lemma ratio_of_spec (summary text : string) :
  text ≠ "" →
  (Summarization.ratio_of summary text * inject_Z (Z.of_nat (Py.len text))
   == inject_Z (Z.of_nat (Py.len summary)))%Q.
Proof.
  intros Hne. unfold Summarization.ratio_of. destruct text as [|c text]; [done|].
  unfold Py.len. simpl String.length.
  unfold Qeq, Qmult, inject_Z. simpl Qnum. simpl Qden.
  rewrite Pos.mul_1_r, Z.mul_1_r, Zpos_P_of_succ_nat, Nat2Z.inj_succ. reflexivity.
Qed.

(** On a text that passes the length check a summary and its compression
    ratio are always returned, whatever the strategy and its fallbacks do. *)
Lemma generate_summary_reports_ratio (self : Summarization.SummarizationService)
    (text method : string) (kwargs : Summarization.Kwargs) :
  Classification.too_short (Some text) = false →
  let r := Summarization.generate_summary_str self text method kwargs in
  Summarization.success r = true ∧
  Summarization.summary_length r = Py.len (Summarization.summary r) ∧
  Summarization.compression_ratio r
    = Some (Summarization.ratio_of (Summarization.summary r) text).
Proof.
  intros Hs r. subst r. unfold Summarization.generate_summary_str. by rewrite Hs.
Qed.

(** A text made of characters that the cleaning removes has an empty
    summary, whatever the sentence tokenizer is, as long as it finds no
    sentence in the empty text or raises on it. *)
Lemma extractive_summary_of_symbols (self : Summarization.SummarizationService)
    (num_sentences : nat) :
  (sent_tokenize (Summarization.nlp self) "" = inr [] ∨
   ∃ e, sent_tokenize (Summarization.nlp self) "" = inl e) →
  Summarization.extractive_summarization self "@@@@@@@@@@@@" num_sentences = "".
Proof.
  unfold Summarization.extractive_summarization, Summarization.extractive_body.
  change (Summarization.preprocess_text "@@@@@@@@@@@@") with "".
  intros [H | [e H]]; rewrite H; reflexivity.
Qed.

Lemma collapse_go_length (b : bool) (s : string) :
  String.length (Py.collapse_go b s) ≤ String.length s.
Proof.
  revert b. induction s as [|c s IH]; intros b; [done|]. simpl.
  pose proof (IH true). pose proof (IH false).
  destruct (Py.isspace c); [destruct b|]; simpl; lia.
Qed.

Lemma filter_length (f : ascii → bool) (s : string) :
  String.length (Py.filter f s) ≤ String.length s.
Proof. induction s as [|c s IH]; [done|]. simpl. destruct (f c); simpl; lia. Qed.

Lemma lstrip_length (s : string) : String.length (Py.lstrip s) ≤ String.length s.
Proof. induction s as [|c s IH]; [done|]. simpl. destruct (Py.isspace c); simpl; lia. Qed.

Lemma rev_app_length (s t : string) :
  String.length (String.rev_app s t) = String.length s + String.length t.
Proof.
  revert t. induction s as [|c s IH]; intros t; [done|]. simpl. rewrite IH. simpl. lia.
Qed.

Lemma strip_length (s : string) : String.length (Py.strip s) ≤ String.length s.
Proof.
  unfold Py.strip, Py.rstrip, String.rev. rewrite rev_app_length. simpl.
  pose proof (lstrip_length (String.rev_app (Py.lstrip s) "")) as H.
  rewrite rev_app_length in H. simpl in H. pose proof (lstrip_length s). lia.
Qed.

(** Cleaning never lengthens a text. *)
Lemma preprocess_text_length (text : string) :
  Py.len (Summarization.preprocess_text text) ≤ Py.len text.
Proof.
  unfold Summarization.preprocess_text, Py.len, Py.collapse_ws.
  etrans; [apply strip_length|]. etrans; [apply filter_length|]. apply collapse_go_length.
Qed.

Lemma take_length (n : nat) (s : string) : String.length (Py.take n s) ≤ n.
Proof.
  revert s. induction n as [|n IH]; intros [|c s]; simpl; try lia.
  specialize (IH s). lia.
Qed.

(** On the fallback path of the extractive strategy the summary exceeds the
    input by at most two characters. *)
Lemma extractive_fallback_bound (self : Summarization.SummarizationService)
    (text : string) (num_sentences : nat) (e : exn) :
  sent_tokenize (Summarization.nlp self) (Summarization.preprocess_text text) = inl e →
  Py.len (Summarization.extractive_summarization self text num_sentences) ≤ Py.len text + 2.
Proof.
  intros H. unfold Summarization.extractive_summarization, Summarization.extractive_body.
  rewrite H. simpl. unfold Summarization.truncate_500.
  pose proof (preprocess_text_length text) as Hlen.
  destruct (500 <? _) eqn:E.
  - apply Nat.ltb_lt in E. unfold Py.len in *. rewrite str_length_app.
    pose proof (take_length 500 (Summarization.preprocess_text text)).
    change (String.length "...") with 3. lia.
  - unfold Py.len in *. lia.
Qed.

(** When the sentence tokenizer raises, a cleaned text of 501 or 502
    characters comes back 503 characters long. *)
Lemma extractive_fallback_grows (self : Summarization.SummarizationService)
    (text : string) (num_sentences : nat) (e : exn) :
  sent_tokenize (Summarization.nlp self) (Summarization.preprocess_text text) = inl e →
  500 < Py.len (Summarization.preprocess_text text) →
  Py.len (Summarization.extractive_summarization self text num_sentences) = 503.
Proof.
  intros H Hlen. unfold Summarization.extractive_summarization, Summarization.extractive_body.
  rewrite H. simpl. unfold Summarization.truncate_500.
  apply Nat.ltb_lt in Hlen as Hb. rewrite Hb.
  unfold Py.len in *. rewrite str_length_app.
  assert (Ht : ∀ n s, n ≤ String.length s → String.length (Py.take n s) = n).
  { induction n as [|n IH]; intros [|c s] Hn; simpl in *; try lia. by rewrite IH by lia. }
  rewrite Ht by lia. reflexivity.
Qed.

(** C9, evaluated on two failing inputs. A text of twelve '@' passes the
    length check and is summarised to the empty string, with compression
    ratio 0. A text of 501 letters 'a', summarised while the punkt data is
    missing, comes back as 500 letters and "...": 503 characters, with a
    compression ratio above 1. *)
Theorem summary_bounds_fail :
  let r1 := Summarization.generate_summary_str Models.summarizer "@@@@@@@@@@@@" "auto"
              Summarization.no_kwargs in
  let text := Models.replicate_char 501 "a" in
  let r2 := Summarization.generate_summary_str Models.summarizer_without_punkt text
              "extractive" Summarization.no_kwargs in
  (Summarization.success r1 = true ∧ Summarization.method_used r1 = "extractive" ∧
   Summarization.summary r1 = "" ∧ Summarization.compression_ratio r1 = Some (0 # 12)) ∧
  (Summarization.success r2 = true ∧ Summarization.original_length r2 = 501 ∧
   Summarization.summary_length r2 = 503 ∧
   Summarization.summary r2 = Models.replicate_char 500 "a" +:+ "..." ∧
   Summarization.compression_ratio r2 = Some (503 # 501) ∧ (1 < 503 # 501)%Q).
Proof.
  intros r1 text r2. split.
  - repeat split; reflexivity.
  - repeat split; try (vm_compute; reflexivity).
Qed.

Example extractive_summary_example :
  Summarization.generate_summary Models.summarizer
    (Some "Metro ridership rose. Revenue rose too! Costs fell? Staff grew. Metro metro metro.")
    "extractive" Summarization.no_kwargs
  = inr {| Summarization.success := true; Summarization.error := None;
           Summarization.summary := "Metro ridership rose. Revenue rose too! Metro metro metro.";
           Summarization.method_used := "extractive";
           Summarization.original_length := 82; Summarization.summary_length := 58;
           Summarization.compression_ratio := Some (58 # 82) |}.
Proof. vm_compute. reflexivity. Qed.

(** ** The invoice scenario, end to end *)

Example invoice_scenario :
  let app := Models.app (Models.extracted "INVOICE #1 Total Due: $500.00") Models.classifier in
  let run := Pipeline.process_document_pipeline app Models.fresh_db 1 in
  (λ d, (Pipeline.status d, Pipeline.classification d, Pipeline.confidence_score d,
         Pipeline.department d))
    <$> Pipeline.documents (Pipeline.run_db run) !! 1%Z
  = Some ("completed", Some "invoice", Some (8 # 10), Some "finance") ∧
  Routing.priority
    (Routing.determine_department Models.router "2024-01-15T10:00:00"
       (Models.doc_info (Val "invoice") (Val (8 # 10)) (Val "INVOICE #1 Total Due: $500.00")))
  = "high".
Proof. split; vm_compute; reflexivity. Qed.

Example broken_model_scenario :
  let app := Models.app (Models.extracted "This Agreement sets the terms. It binds both parties.")
               Models.broken_classifier in
  let run := Pipeline.process_document_pipeline app Models.fresh_db 1 in
  map (λ entry, (Pipeline.log_module entry, Pipeline.log_status entry))
      (Pipeline.logs (Pipeline.run_db run))
  = [ ("pipeline", "started"); ("extraction", "completed"); ("classification", "failed");
      ("summarization", "completed"); ("routing", "completed"); ("pipeline", "completed") ] ∧
  (λ d, (Pipeline.status d, Pipeline.classification d, Pipeline.department d))
    <$> Pipeline.documents (Pipeline.run_db run) !! 1%Z
  = Some ("completed", None, Some "archive").
Proof. split; vm_compute; reflexivity. Qed.

(** * Further properties *)

(** ** The pipeline as a state machine *)

Lemma extraction_dichotomy (app : Pipeline.App) (document_id : Z)
    (document : Pipeline.Document) :
  (∃ e, extraction_fails app document_id document e) ∨
  (∃ r, extraction_succeeds app document_id document r).
Proof.
  unfold extraction_fails, extraction_succeeds.
  destruct (Pipeline.process_document app (Pipeline.file_path document)) as [e|r] eqn:Hp.
  - left. exists e. by left.
  - destruct (Pipeline.ex_success r) eqn:Hs.
    + destruct (Pipeline.store_extracted_data app document_id r) as [e|[]] eqn:Hst.
      * left. exists e. right. right. by exists r.
      * right. by exists r.
    + left. eexists. right. left. by exists r.
Qed.


Lemma classification_step_shape (app : Pipeline.App) (document_id : Z)
    (d : Pipeline.Document) :
  let result := Classification.classify_document (Pipeline.classification_service app)
                  (Pipeline.extracted_text d) in
  Pipeline.classification_step app document_id d =
  (if Classification.success result
   then Pipeline.set_classification (Some (Classification.category result))
          (Some (Classification.confidence result)) d
   else d,
   if Classification.success result
   then inr (Pipeline.log_entry document_id "classification" "completed"
               ("Classified as " +:+ Classification.category result +:+ " (confidence: " +:+
                Pipeline.format_2f app (Classification.confidence result) +:+ ")"))
   else inl "Classification failed",
   [Pipeline.CallClassification (Pipeline.extracted_text d) result]).
Proof.
  intros result. unfold Pipeline.classification_step. fold result.
  by destruct (Classification.success result).
Qed.

(** What the summarization stage leaves behind: the summary when it
    completes, the document as it was when it fails. *)
Lemma summarization_step_shape (app : Pipeline.App) (document_id : Z)
    (d : Pipeline.Document) :
  ∃ o c,
    call_stage c = "summarization" ∧
    ((∃ e, o = inl e ∧
           Pipeline.summarization_step app document_id d = (d, o, [c])) ∨
     (∃ s m, o = inr (Pipeline.log_entry document_id "summarization" "completed" m) ∧
             Pipeline.summarization_step app document_id d
             = (Pipeline.set_summary (Some s) d, o, [c]))).
Proof.
  unfold Pipeline.summarization_step.
  destruct (Summarization.generate_summary _ _ _ _) as [e|r].
  - eexists _, _. split; [|left; eexists; split; reflexivity]. done.
  - destruct (Summarization.success r).
    + eexists _, _. split; [|right; eexists _, _; split; reflexivity]. done.
    + eexists _, _. split; [|left; eexists; split; reflexivity]. done.
Qed.

(** The routing stage always completes: [route_document] answers with the
    success record whatever the notification channels do. *)
Lemma routing_step_completes (app : Pipeline.App) (document_id : Z)
    (d : Pipeline.Document) :
  let info := Pipeline.document_info_of d in
  let decision := Routing.determine_department (Pipeline.routing_service app)
                    (Pipeline.now app) info in
  Pipeline.routing_step app document_id d =
  (Pipeline.set_department (Some (Routing.department_id decision)) d,
   inr (Pipeline.log_entry document_id "routing" "completed"
          ("Routed to " +:+ Routing.department_name decision)),
   [Pipeline.CallRouting info
      (Routing.route_document (Pipeline.routing_service app) (Pipeline.transport app)
         (Pipeline.now app) info None)]).
Proof.
  intros info decision. unfold Pipeline.routing_step. fold info.
  rewrite route_document_outcomes. reflexivity.
Qed.

(** The form of a run whose extraction succeeds. *)
Lemma successful_run_form (app : Pipeline.App) (db : Pipeline.DB) (document_id : Z)
    (document : Pipeline.Document) (r : Pipeline.ExtractionResult) :
  Pipeline.documents db !! document_id = Some document →
  extraction_succeeds app document_id document r →
  let d1 := Pipeline.set_extracted_text (Pipeline.ex_text r)
              (Pipeline.set_status Pipeline.PROCESSING document) in
  ∃ d2 o2 c2 d3 o3 c3 d4 e4 c4,
    Pipeline.classification_step app document_id d1 = (d2, o2, [c2]) ∧
    Pipeline.summarization_step app document_id d2 = (d3, o3, [c3]) ∧
    Pipeline.routing_step app document_id d3 = (d4, inr e4, [c4]) ∧
    Pipeline.process_document_pipeline app db document_id =
    {| Pipeline.run_db :=
         {| Pipeline.documents :=
              <[document_id := Pipeline.set_status Pipeline.COMPLETED d4]>
                (Pipeline.documents db);
            Pipeline.logs :=
              Pipeline.logs db ++
              [ Pipeline.log_entry document_id "pipeline" "started" "Document processing started";
                Pipeline.log_entry document_id "extraction" "completed"
                  "Text extraction completed successfully";
                entry_of document_id "classification" o2;
                entry_of document_id "summarization" o3;
                e4;
                Pipeline.log_entry document_id "pipeline" "completed"
                  "Document processing completed successfully" ] |};
       Pipeline.run_response :=
         Pipeline.RespSuccess "Document processed successfully"
           (Pipeline.set_status Pipeline.COMPLETED d4);
       Pipeline.run_calls :=
         [Pipeline.CallExtraction (Pipeline.file_path document); c2; c3; c4] |}.
Proof.
  intros Hdoc (Hp & Hok & Hst) d1.
  unfold Pipeline.process_document_pipeline, Pipeline.extraction_step.
  rewrite Hdoc. simpl Pipeline.file_path. rewrite Hp, Hok, Hst. cbv beta iota zeta.
  fold d1. unfold Pipeline.run_stage.
  rewrite (classification_step_shape app document_id d1). cbv beta iota zeta.
  set (d2 := if Classification.success _ then _ else d1).
  destruct (summarization_step_shape app document_id d2) as (o3 & c3 & _ & Hsum).
  assert (∃ d3, Pipeline.summarization_step app document_id d2 = (d3, o3, [c3])) as [d3 Hs3].
  { destruct Hsum as [(e & _ & H) | (s & m & _ & H)]; eauto. }
  rewrite Hs3. cbv beta iota zeta.
  rewrite (routing_step_completes app document_id d3). cbv beta iota zeta.
  eexists d2, _, _, d3, o3, c3, _, _, _.
  split; [reflexivity|]. split; [exact Hs3|]. split; [reflexivity|].
  unfold entry_of. rewrite <- !app_assoc. reflexivity.
Qed.

Lemma same_upload_refl (d : Pipeline.Document) : same_upload d d.
Proof. by repeat split. Qed.

Lemma same_upload_trans (d d' d'' : Pipeline.Document) :
  same_upload d d' → same_upload d' d'' → same_upload d d''.
Proof. unfold same_upload. intros (?&?&?&?&?&?) (?&?&?&?&?&?). repeat split; congruence. Qed.

(** The form of a run whose extraction fails. *)
Lemma failed_run_form (app : Pipeline.App) (db : Pipeline.DB) (document_id : Z)
    (document : Pipeline.Document) (e : exn) :
  Pipeline.documents db !! document_id = Some document →
  extraction_fails app document_id document e →
  ∃ d', same_upload document d' ∧
    Pipeline.process_document_pipeline app db document_id =
    {| Pipeline.run_db :=
         {| Pipeline.documents :=
              <[document_id := Pipeline.set_status Pipeline.FAILED d']> (Pipeline.documents db);
            Pipeline.logs :=
              Pipeline.logs db ++
              [ Pipeline.log_entry document_id "pipeline" "started" "Document processing started";
                Pipeline.log_entry document_id "extraction" "failed" e ] |};
       Pipeline.run_response := Pipeline.RespError ("Text extraction failed: " +:+ e);
       Pipeline.run_calls := [Pipeline.CallExtraction (Pipeline.file_path document)] |}.
Proof.
  intros Hdoc Hfail. unfold Pipeline.process_document_pipeline. rewrite Hdoc.
  unfold extraction_fails in Hfail. unfold Pipeline.extraction_step.
  simpl Pipeline.file_path.
  destruct Hfail as [H | [(r & H & Hs & ->) | (r & H & Hs & Hst)]]; rewrite H.
  - eexists. split; [|rewrite <- app_assoc; reflexivity]. by repeat split.
  - rewrite Hs. eexists. split; [|rewrite <- app_assoc; reflexivity]. by repeat split.
  - rewrite Hs, Hst. eexists. split; [|rewrite <- app_assoc; reflexivity]. by repeat split.
Qed.

(** The document that a successful run leaves in the table, and the six
    entries it writes. *)
Lemma successful_run_fields (app : Pipeline.App) (db : Pipeline.DB) (document_id : Z)
    (document : Pipeline.Document) (r : Pipeline.ExtractionResult) :
  Pipeline.documents db !! document_id = Some document →
  extraction_succeeds app document_id document r →
  let run := Pipeline.process_document_pipeline app db document_id in
  ∃ document' e3 e4 e5 c2 c3 c4,
    Pipeline.documents (Pipeline.run_db run) = <[document_id := document']> (Pipeline.documents db) ∧
    Pipeline.logs (Pipeline.run_db run) =
      Pipeline.logs db ++
      [ Pipeline.log_entry document_id "pipeline" "started" "Document processing started";
        Pipeline.log_entry document_id "extraction" "completed"
          "Text extraction completed successfully";
        e3; e4; e5;
        Pipeline.log_entry document_id "pipeline" "completed"
          "Document processing completed successfully" ] ∧
    Pipeline.run_calls run = [Pipeline.CallExtraction (Pipeline.file_path document); c2; c3; c4] ∧
    Pipeline.run_response run = Pipeline.RespSuccess "Document processed successfully" document' ∧
    (call_stage c2 = "classification" ∧ call_stage c3 = "summarization" ∧
     call_stage c4 = "routing") ∧
    same_upload document document' ∧
    Pipeline.status document' = Pipeline.COMPLETED ∧
    Pipeline.extracted_text document' = Pipeline.ex_text r ∧
    (Pipeline.document_id e3 = document_id ∧ Pipeline.log_module e3 = "classification" ∧
     ((Pipeline.log_status e3 = "completed" ∧
       ∃ c q, Pipeline.classification document' = Some c ∧
              Pipeline.confidence_score document' = Some q) ∨
      (Pipeline.log_status e3 = "failed" ∧
       Pipeline.classification document' = Pipeline.classification document ∧
       Pipeline.confidence_score document' = Pipeline.confidence_score document))) ∧
    (Pipeline.document_id e4 = document_id ∧ Pipeline.log_module e4 = "summarization" ∧
     ((Pipeline.log_status e4 = "completed" ∧ ∃ s, Pipeline.summary document' = Some s) ∨
      (Pipeline.log_status e4 = "failed" ∧
       Pipeline.summary document' = Pipeline.summary document))) ∧
    (Pipeline.document_id e5 = document_id ∧ Pipeline.log_module e5 = "routing" ∧
     Pipeline.log_status e5 = "completed" ∧
     ∃ department, Pipeline.department document' = Some department).
Proof.
  intros Hdoc Hsucc run. subst run.
  destruct (successful_run_form app db document_id document r Hdoc Hsucc)
    as (d2 & o2 & c2 & d3 & o3 & c3 & d4 & e4 & c4 & H2 & H3 & H4 & ->).
  rewrite classification_step_shape in H2.
  rewrite routing_step_completes in H4.
  simpl Pipeline.extracted_text in H2.
  set (result := Classification.classify_document _ _) in H2.
  injection H2 as <- <- <-. injection H4 as <- <- <-.
  set (d2 := if Classification.success result then _ else _) in *.
  assert (Hd2 : same_upload document d2 ∧
                Pipeline.extracted_text d2 = Pipeline.ex_text r ∧
                Pipeline.summary d2 = Pipeline.summary document).
  { subst d2. destruct (Classification.success result); by repeat split. }
  destruct Hd2 as (Hup2 & Hex2 & Hsum2).
  destruct (summarization_step_shape app document_id d2) as (o3' & c3' & Hc3 & Hsum).
  assert (Hd3 : call_stage c3 = "summarization" ∧ same_upload d2 d3 ∧
                Pipeline.extracted_text d3 = Pipeline.extracted_text d2 ∧
                Pipeline.classification d3 = Pipeline.classification d2 ∧
                Pipeline.confidence_score d3 = Pipeline.confidence_score d2 ∧
                Pipeline.document_id (entry_of document_id "summarization" o3) = document_id ∧
                Pipeline.log_module (entry_of document_id "summarization" o3) = "summarization" ∧
                ((Pipeline.log_status (entry_of document_id "summarization" o3) = "completed" ∧
                  ∃ s, Pipeline.summary d3 = Some s) ∨
                 (Pipeline.log_status (entry_of document_id "summarization" o3) = "failed" ∧
                  Pipeline.summary d3 = Pipeline.summary d2))).
  { destruct Hsum as [(e & -> & H) | (s & m & -> & H)]; rewrite H in H3;
      injection H3 as <- <- <-; simpl;
      (split; [done|]); (split; [by repeat split|]); repeat (split; [done|]);
      [by right | left; eauto]. }
  destruct Hd3 as (Hcall3 & Hup3 & Hex3 & Hcl3 & Hq3 & Hid4 & Hmod4 & Hst4).
  eexists _, _, _, _, _, _, _. simpl Pipeline.documents. simpl Pipeline.logs.
  simpl Pipeline.run_calls. simpl Pipeline.run_response.
  split; [reflexivity|]. split; [reflexivity|]. split; [reflexivity|]. split; [reflexivity|].
  split; [done|].
  split.
  { apply (same_upload_trans _ d2); [done|]. apply (same_upload_trans _ d3); [done|].
    by repeat split. }
  split; [done|].
  split; [simpl; congruence|].
  split.
  { simpl in Hcl3, Hq3. simpl Pipeline.classification. simpl Pipeline.confidence_score.
    rewrite Hcl3, Hq3. subst d2.
    destruct (Classification.success result); simpl;
      (split; [done|]); (split; [done|]); [left; eauto | by right]. }
  split.
  { split; [done|]. split; [done|]. simpl Pipeline.summary.
    destruct Hst4 as [[? ?] | [? ?]]; [by left | right]. split; [done|]. congruence. }
  split; [done|]. split; [done|]. split; [done|]. by eexists.
Qed.

Lemma new_entries_app (db : Pipeline.DB) (run : Pipeline.Run) (l : list Pipeline.ProcessingLog) :
  Pipeline.logs (Pipeline.run_db run) = Pipeline.logs db ++ l → new_entries db run = l.
Proof. intros H. unfold new_entries. rewrite H. apply drop_app_length. Qed.



(** X2. A run reads and writes the row of its own document only and only
    appends to the log: every other row is left as it was, the old entries
    are kept in place, every new entry carries the id of the document, and
    a run on an id that is not in the table changes nothing and calls no
    stage. *)
Theorem run_touches_only_its_document
    (app : Pipeline.App) (db : Pipeline.DB) (document_id : Z) :
  let run := Pipeline.process_document_pipeline app db document_id in
  (∀ other, other ≠ document_id →
     Pipeline.documents (Pipeline.run_db run) !! other = Pipeline.documents db !! other) ∧
  Pipeline.logs db `prefix_of` Pipeline.logs (Pipeline.run_db run) ∧
  (∀ entry, entry ∈ new_entries db run → Pipeline.document_id entry = document_id) ∧
  (Pipeline.documents db !! document_id = None →
   Pipeline.run_db run = db ∧ Pipeline.run_calls run = [] ∧
   Pipeline.run_response run = Pipeline.RespError "Document not found").
Proof.
  intros run. subst run.
  destruct (Pipeline.documents db !! document_id) as [document|] eqn:Hdoc.
  - destruct (extraction_dichotomy app document_id document) as [[e He] | [r Hr]].
    + destruct (failed_run_form app db document_id document e Hdoc He) as (d' & Hup & Hrun).
      rewrite Hrun. split; [|split; [|split; [|done]]].
      * intros other Hne. simpl. by rewrite lookup_insert_ne.
      * by eexists.
      * intros entry. unfold new_entries. simpl. rewrite drop_app_length.
        rewrite !elem_of_cons, elem_of_nil. by intros [->|[->|[]]].
    + destruct (successful_run_fields app db document_id document r Hdoc Hr)
        as (d' & e3 & e4 & e5 & c2 & c3 & c4 & Hdocs & Hlogs & _ & _ & _ & _ & _ & _ &
            (Hid3 & _) & (Hid4 & _) & (Hid5 & _)).
      split; [|split; [|split; [|done]]].
      * intros other Hne. rewrite Hdocs. by rewrite lookup_insert_ne.
      * rewrite Hlogs. by eexists.
      * intros entry. rewrite (new_entries_app db _ _ Hlogs).
        rewrite !elem_of_cons, elem_of_nil.
        by intros [->|[->|[->|[->|[->|[->|[]]]]]]].
  - unfold Pipeline.process_document_pipeline. rewrite Hdoc. simpl.
    split; [done|]. split; [by exists []; rewrite app_nil_r|]. split; [|by destruct db].
    intros entry. unfold new_entries. simpl. rewrite drop_all. by intros ?%elem_of_nil.
Qed.

(** X3. When the extraction stage succeeds the run writes exactly six log
    entries, in stage order: pipeline started, extraction completed,
    classification, summarization, routing completed, pipeline completed;
    only the classification and the summarization entry can be marked
    failed, and each of the four stages is called exactly once, in order. *)
Theorem successful_run_audit_trail
    (app : Pipeline.App) (db : Pipeline.DB) (document_id : Z)
    (document : Pipeline.Document) (r : Pipeline.ExtractionResult) :
  Pipeline.documents db !! document_id = Some document →
  extraction_succeeds app document_id document r →
  complete_trail db document_id (Pipeline.process_document_pipeline app db document_id).
Proof.
  intros Hdoc Hr.
  destruct (successful_run_fields app db document_id document r Hdoc Hr)
    as (d' & e3 & e4 & e5 & c2 & c3 & c4 & _ & Hlogs & Hcalls & _ & (Hc2 & Hc3 & Hc4) & _ & _ & _ &
        (_ & Hm3 & Hs3) & (_ & Hm4 & Hs4) & (_ & Hm5 & Hs5 & _)).
  unfold complete_trail. rewrite (new_entries_app db _ _ Hlogs), Hcalls.
  split.
  - exists (Pipeline.log_status e3), (Pipeline.log_status e4).
    unfold trail. simpl. rewrite Hm3, Hm4, Hm5, Hs5. split; [done|].
    split.
    + destruct Hs3 as [[-> _] | [-> _]];
        [apply list_elem_of_here | apply list_elem_of_further, list_elem_of_here].
    + destruct Hs4 as [[-> _] | [-> _]];
        [apply list_elem_of_here | apply list_elem_of_further, list_elem_of_here].
  - simpl. by rewrite Hc2, Hc3, Hc4.
Qed.

Lemma successful_run_audit_trail_witness :
  let app := Models.app (Models.extracted "hello") Models.classifier in
  complete_trail Models.fresh_db 1 (Pipeline.process_document_pipeline app Models.fresh_db 1).
Proof.
  intros app.
  apply (successful_run_audit_trail app Models.fresh_db 1 Models.fresh_document
           {| Pipeline.ex_success := true; Pipeline.ex_text := Some "hello";
              Pipeline.ex_error := Absent |}).
  - reflexivity.
  - repeat split; reflexivity.
Defined.

(** X4. After a run whose extraction succeeds the document agrees with the
    log. The extracted text of the extraction result is stored. When the
    classification service succeeds on that text, the classification entry
    is 'completed' and the category and confidence stored are the ones it
    returned; when it fails, the entry is 'failed' and both columns are
    left as they were. Likewise the summary is the one that
    [generate_summary] returned, or is left as it was. The department
    stored is the one that [determine_department] decides for the document
    as it is stored. *)
Theorem successful_run_results_match_trail
    (app : Pipeline.App) (db : Pipeline.DB) (document_id : Z)
    (document : Pipeline.Document) (r : Pipeline.ExtractionResult) :
  Pipeline.documents db !! document_id = Some document →
  extraction_succeeds app document_id document r →
  let run := Pipeline.process_document_pipeline app db document_id in
  ∃ document',
    Pipeline.documents (Pipeline.run_db run) !! document_id = Some document' ∧
    results_match_trail app db run r document document'.
Proof.
  intros Hdoc (Hp & Hok & Hst) run. subst run.
  unfold results_match_trail, logged, new_entries, trail.
  unfold Pipeline.process_document_pipeline, Pipeline.extraction_step.
  rewrite Hdoc. simpl Pipeline.file_path. rewrite Hp, Hok, Hst. cbv beta iota zeta.
  unfold Pipeline.run_stage.
  rewrite classification_step_shape. simpl Pipeline.extracted_text.
  set (classified := Classification.classify_document _ _).
  set (summarized := Summarization.generate_summary _ (Pipeline.ex_text r) _ _).
  assert (Hsum : ∀ d, Pipeline.extracted_text d = Pipeline.ex_text r →
            Pipeline.summarization_step app document_id d =
            match summarized with
            | inl e => (d, inl e, [Pipeline.CallSummarization (Pipeline.ex_text r) summarized])
            | inr s =>
                if Summarization.success s
                then (Pipeline.set_summary (Some (Summarization.summary s)) d,
                      inr (Pipeline.log_entry document_id "summarization" "completed"
                             ("Summary generated using " +:+ Summarization.method_used s
                              +:+ " method")),
                      [Pipeline.CallSummarization (Pipeline.ex_text r) summarized])
                else (d, inl (default "Summarization failed" (Summarization.error s)),
                      [Pipeline.CallSummarization (Pipeline.ex_text r) summarized])
            end).
  { intros d Hd. unfold Pipeline.summarization_step. rewrite Hd. fold summarized.
    by destruct summarized. }
  destruct (Classification.success classified) eqn:Hc; cbv beta iota zeta;
    rewrite Hsum by done;
    (destruct summarized as [e|s]; [|destruct (Summarization.success s) eqn:Hs]);
    cbv beta iota zeta; rewrite routing_step_completes; cbv beta iota zeta;
    (eexists; split; [apply lookup_insert_eq|]);
    simpl Pipeline.logs; rewrite <- !app_assoc, drop_app_length; simpl;
    (split; [done|]); (split; [done|]); split.
  all: first
    [ left; split; [do 2 apply list_elem_of_further; apply list_elem_of_here|];
      first [done | by eexists]
    | right; split; [do 2 apply list_elem_of_further; apply list_elem_of_here|];
      first [done | by split; [intros ? [= <-]|] | by split; [intros ? [=]|] ]
    | left; split; [do 3 apply list_elem_of_further; apply list_elem_of_here|];
      first [done | by eexists]
    | right; split; [do 3 apply list_elem_of_further; apply list_elem_of_here|];
      first [done | by split; [intros ? [= <-]|] | by split; [intros ? [=]|] ] ].
Qed.

Lemma successful_run_results_match_trail_witness :
  let text := "INVOICE #1 Total Due: $500.00" in
  let app := Models.app (Models.extracted text) Models.classifier in
  let r := {| Pipeline.ex_success := true; Pipeline.ex_text := Some text;
              Pipeline.ex_error := Absent |} in
  let run := Pipeline.process_document_pipeline app Models.fresh_db 1 in
  ∃ document',
    Pipeline.documents (Pipeline.run_db run) !! 1%Z = Some document' ∧
    results_match_trail app Models.fresh_db run r Models.fresh_document document'.
Proof.
  intros text app r.
  apply (successful_run_results_match_trail app Models.fresh_db 1 Models.fresh_document r).
  - reflexivity.
  - repeat split; reflexivity.
Defined.


(** ** Department resolution *)

Lemma elem_spec (x : string) (l : list string) : Py.elem x l = true ↔ x ∈ l.
Proof.
  unfold Py.elem. rewrite existsb_exists. setoid_rewrite String.eqb_eq.
  setoid_rewrite <- list_elem_of_In. split; [by intros (y & Hin & ->) | by eauto].
Qed.

(** The decision of the normal path, with its department. *)
Lemma determine_department_normal_full (self : Routing.DocumentRoutingService) (now : string)
    (info : Routing.DocumentInfo) (q : Q) (text : string) :
  normal_path self info q text →
  let category := get_default (Routing.di_classification info) "other" in
  let found := Routing.find_department category (Routing.departments self) in
  Routing.determine_department self now info =
  Routing._create_routing_result self now
    (if Py.truthy found then default "" found
     else Routing.fallback_department (Routing.routing_rules self))
    ("Classified as " +:+ str_of category) q
    (if Py.any (fun keyword => Py.contains keyword (Py.lower text))
               (Routing.urgent_keywords (Routing.routing_rules self))
     then "urgent" else mapped_priority (Routing.routing_rules self) category)
    (Py.any (fun keyword => Py.contains keyword (Py.lower text))
            (Routing.sensitive_keywords (Routing.routing_rules self)))
    false.
Proof.
  intros (Hq & Hge & Ht) category found.
  unfold Routing.determine_department, Routing.determine_department_body.
  rewrite Hq, Ht. destruct (Qltb q _) eqn:E; [by apply Qltb_lt in E|].
  unfold Routing._determine_priority, Routing._check_sensitive_content. simpl.
  fold category. fold found. unfold mapped_priority.
  by destruct (Py.any _ (Routing.urgent_keywords _)).
Qed.

Lemma find_department_unowned (depts : list (string * Routing.Department))
    (category : option string) :
  (∀ c, category = Some c → unowned depts c) →
  Routing.find_department category depts = None.
Proof.
  induction depts as [|[d dept] depts IH]; intros H; [done|]. simpl.
  destruct category as [c|].
  - destruct (Py.elem c (Routing.categories dept)) eqn:E.
    + apply elem_spec in E. destruct (H c eq_refl d dept); [by left | done].
    + apply IH. intros c' [= <-] d' dept' Hin. apply (H c eq_refl d' dept'). by right.
  - apply IH. intros c [=].
Qed.

Lemma find_department_owner (depts : list (string * Routing.Department))
    (c d : string) (dept : Routing.Department) :
  single_owner depts → (d, dept) ∈ depts → c ∈ Routing.categories dept →
  Routing.find_department (Some c) depts = Some d.
Proof.
  unfold single_owner.
  induction depts as [|[d0 dept0] depts IH]; intros Hnd Hin Hc; [by apply elem_of_nil in Hin|].
  simpl in *. apply NoDup_app in Hnd as (_ & Hdisj & Hnd).
  destruct (Py.elem c (Routing.categories dept0)) eqn:E.
  - apply elem_spec in E. apply elem_of_cons in Hin as [[= -> ->] | Hin]; [done|].
    destruct (Hdisj c E). apply list_elem_of_In, in_concat.
    exists (Routing.categories dept). split; [|by apply list_elem_of_In].
    apply in_map_iff. exists (d, dept). split; [done|]. by apply list_elem_of_In.
  - apply elem_of_cons in Hin as [[= -> ->] | Hin].
    + apply elem_spec in Hc. congruence.
    + by apply IH.
Qed.

(** X5. On the normal path (confidence not below the threshold, text a
    string), in a department table where no category has two owners, a
    document goes to the department that lists its category and is not
    sent to review; a category that no department lists goes to the
    configured fallback department. *)
Theorem owned_category_goes_to_its_department
    (self : Routing.DocumentRoutingService) (now : string)
    (info : Routing.DocumentInfo) (q : Q) (text c : string) :
  normal_path self info q text →
  get_default (Routing.di_classification info) "other" = Some c →
  single_owner (Routing.departments self) →
  let decision := Routing.determine_department self now info in
  Routing.needs_review decision = false ∧
  (∀ d dept, (d, dept) ∈ Routing.departments self → c ∈ Routing.categories dept → d ≠ "" →
     Routing.department_id decision = d) ∧
  (unowned (Routing.departments self) c →
     Routing.department_id decision = Routing.fallback_department (Routing.routing_rules self)).
Proof.
  intros Hn Hc Hso decision. subst decision.
  rewrite (determine_department_normal_full self now info q text Hn). rewrite Hc. simpl.
  split; [done|]. split.
  - intros d dept Hin Hcat Hne.
    rewrite (find_department_owner _ c d dept Hso Hin Hcat). simpl.
    by destruct d.
  - intros Hun. rewrite find_department_unowned; [done|]. by intros c' [= <-].
Qed.

Lemma owned_category_goes_to_its_department_witness :
  let info := Models.doc_info (Val "resume") (Val (75 # 100)) (Val "Education: BSc, University") in
  let decision := Routing.determine_department Models.router "2024-01-15T10:00:00" info in
  Routing.needs_review decision = false ∧
  (∀ d dept, (d, dept) ∈ Routing.departments Models.router →
     "resume" ∈ Routing.categories dept → d ≠ "" → Routing.department_id decision = d) ∧
  (unowned (Routing.departments Models.router) "resume" →
     Routing.department_id decision
     = Routing.fallback_department (Routing.routing_rules Models.router)).
Proof.
  intros info.
  apply (owned_category_goes_to_its_department Models.router "2024-01-15T10:00:00" info
           (75 # 100) "Education: BSc, University" "resume").
  - split; [reflexivity|]. split; [|reflexivity]. by vm_compute.
  - reflexivity.
  - unfold single_owner. simpl. apply NoDup_ListNoDup.
    repeat (constructor; [simpl; intuition discriminate|]). constructor.
Defined.

(** ** Sensitivity *)

Lemma any_sensitive_keyword (rules : Routing.RoutingRules) (text : string) :
  (∀ keyword, keyword ∈ Routing.sensitive_keywords rules → Py.lower keyword = keyword) →
  Py.any (fun keyword => Py.contains keyword (Py.lower text)) (Routing.sensitive_keywords rules)
    = true
  ↔ mentions_sensitive rules text.
Proof.
  intros Hlow. rewrite any_true. unfold mentions_sensitive.
  split; intros (kw & Hin & H); exists kw; split; try done;
    by apply (contains_lower_spec kw text (Hlow kw Hin)).
Qed.

(** X6. With sensitive keywords written in lower case, a decision of the
    normal path is flagged sensitive exactly when the text contains one of
    them up to letter case; a decision taken below the confidence threshold
    is never flagged, whatever the text says. *)
Theorem sensitivity_of_decision
    (self : Routing.DocumentRoutingService) (now : string)
    (info : Routing.DocumentInfo) (q : Q) (text : string) :
  (∀ keyword, keyword ∈ Routing.sensitive_keywords (Routing.routing_rules self) →
              Py.lower keyword = keyword) →
  get_default (Routing.di_confidence info) 0%Q = Some q →
  get_default (Routing.di_extracted_text info) "" = Some text →
  let decision := Routing.determine_department self now info in
  let below := (q < Routing.confidence_threshold (Routing.routing_rules self))%Q in
  (below → Routing.is_sensitive decision = false) ∧
  (¬ below →
   (Routing.is_sensitive decision = true ↔ mentions_sensitive (Routing.routing_rules self) text)).
Proof.
  intros Hlow Hq Ht decision below. subst decision below. split.
  - intros Hlt. by rewrite (determine_department_low self now info q Hq Hlt).
  - intros Hge.
    rewrite (determine_department_normal_full self now info q text); [|done].
    simpl. by apply any_sensitive_keyword.
Qed.

Lemma sensitivity_of_decision_witness :
  let info := Models.doc_info (Val "contract") (Val (7 # 10))
                (Val "CONFIDENTIAL agreement between the parties") in
  let decision := Routing.determine_department Models.router "2024-01-15T10:00:00" info in
  let below := (7 # 10 < Routing.confidence_threshold (Routing.routing_rules Models.router))%Q in
  (below → Routing.is_sensitive decision = false) ∧
  (¬ below →
   (Routing.is_sensitive decision = true ↔
    mentions_sensitive (Routing.routing_rules Models.router)
      "CONFIDENTIAL agreement between the parties")).
Proof.
  intros info.
  apply (sensitivity_of_decision Models.router "2024-01-15T10:00:00" info (7 # 10)
           "CONFIDENTIAL agreement between the parties"); [|reflexivity..].
  simpl. intros keyword. rewrite !elem_of_cons, elem_of_nil.
  intros [->|[->|[->|[->|[]]]]]; reflexivity.
Defined.

(** ** Decisions name known departments *)

Lemma find_department_key (depts : list (string * Routing.Department))
    (category : option string) (d : string) :
  Routing.find_department category depts = Some d → is_Some (assoc_get depts d).
Proof.
  induction depts as [|[d0 dept0] depts IH]; [done|]. simpl.
  destruct (match category with Some c => _ | None => false end).
  - intros [= ->]. rewrite String.eqb_refl. by eexists.
  - intros H. destruct (String.eqb d0 d); [by eexists | by apply IH].
Qed.

(** Every decision is built by [_create_routing_result] for the archive,
    the fallback department or a department found in the table. *)
Lemma determine_department_cases (self : Routing.DocumentRoutingService) (now : string)
    (info : Routing.DocumentInfo) :
  ∃ department reason confidence priority sensitive review,
    Routing.determine_department self now info =
    Routing._create_routing_result self now department reason confidence priority
      sensitive review ∧
    (department = "archive" ∨
     department = Routing.fallback_department (Routing.routing_rules self) ∨
     ∃ category, Routing.find_department category (Routing.departments self) = Some department).
Proof.
  unfold Routing.determine_department, Routing.determine_department_body.
  destruct (get_default (Routing.di_confidence info) 0%Q) as [q|]; simpl;
    [|eexists _, _, _, _, _, _; split; [reflexivity | by left]].
  destruct (Qltb q _); simpl; [eexists _, _, _, _, _, _; split; [reflexivity | by left]|].
  unfold Routing._determine_priority, Routing._check_sensitive_content.
  destruct (get_default (Routing.di_extracted_text info) "") as [text|]; simpl;
    [|eexists _, _, _, _, _, _; split; [reflexivity | by left]].
  destruct (Py.any _ (Routing.urgent_keywords _)); simpl;
    (eexists _, _, _, _, _, _; split; [reflexivity|]);
    destruct (Routing.find_department _ _) as [[|a d]|] eqn:E; simpl; eauto.
Qed.

(** X7. When the department table has a row for 'archive' and a row for
    the configured fallback department, every decision, on every input and
    on every path, names a department of the table and carries the name,
    the email address and the responsible person of its row. *)
Theorem decision_names_known_department
    (self : Routing.DocumentRoutingService) (now : string) (info : Routing.DocumentInfo) :
  is_Some (assoc_get (Routing.departments self) "archive") →
  is_Some (assoc_get (Routing.departments self)
             (Routing.fallback_department (Routing.routing_rules self))) →
  known_department self (Routing.determine_department self now info).
Proof.
  intros Harchive Hfallback.
  destruct (determine_department_cases self now info)
    as (department & reason & confidence & priority & sensitive & review & -> & Hcases).
  assert (Hsome : is_Some (assoc_get (Routing.departments self) department)).
  { destruct Hcases as [-> | [-> | [category Hfind]]]; [done | done |].
    by apply find_department_key in Hfind. }
  destruct Hsome as [dept Hdept]. exists dept.
  unfold Routing._create_routing_result. simpl. by rewrite Hdept.
Qed.

Lemma decision_names_known_department_witness :
  known_department Models.router
    (Routing.determine_department Models.router "2024-01-15T10:00:00"
       (Models.doc_info (Val "memo") PyNone PyNone)).
Proof.
  apply (decision_names_known_department Models.router "2024-01-15T10:00:00"
           (Models.doc_info (Val "memo") PyNone PyNone)); by eexists.
Defined.

(** ** Changing the tables *)

Lemma assoc_get_set (V : Type) (d : list (string * V)) (key : string) (value : V) :
  assoc_get (assoc_set d key value) key = Some value.
Proof.
  induction d as [|[k v] d IH]; simpl.
  - by rewrite String.eqb_refl.
  - destruct (String.eqb k key) eqn:E; simpl; by rewrite E.
Qed.

Lemma assoc_get_set_other (V : Type) (d : list (string * V)) (key other : string) (value : V) :
  other ≠ key → assoc_get (assoc_set d key value) other = assoc_get d other.
Proof.
  intros Hne. induction d as [|[k v] d IH]; simpl.
  - destruct (String.eqb_spec key other); [congruence | done].
  - destruct (String.eqb_spec k key) as [->|Hk]; simpl.
    + destruct (String.eqb_spec key other); [congruence | done].
    + by rewrite IH.
Qed.

Lemma find_department_added (depts : list (string * Routing.Department))
    (c d : string) (dept : Routing.Department) :
  unowned depts c → c ∈ Routing.categories dept →
  Routing.find_department (Some c) (assoc_set depts d dept) = Some d.
Proof.
  intros Hun Hc. apply elem_spec in Hc.
  induction depts as [|[k v] depts IH]; simpl.
  - by rewrite Hc.
  - destruct (String.eqb_spec k d) as [->|Hk]; simpl.
    + by rewrite Hc.
    + destruct (Py.elem c (Routing.categories v)) eqn:E.
      * apply elem_spec in E. destruct (Hun k v); [by left | done].
      * apply IH. intros d' dept' Hin. apply (Hun d' dept'). by right.
Qed.

Lemma unowned_check (depts : list (string * Routing.Department)) (c : string) :
  forallb (fun entry => negb (Py.elem c (Routing.categories (snd entry)))) depts = true →
  unowned depts c.
Proof.
  rewrite forallb_forall. intros H d dept Hin Hc.
  apply list_elem_of_In in Hin. specialize (H _ Hin). simpl in H.
  apply elem_spec in Hc. by rewrite Hc in H.
Qed.

(** X8. After [add_department] the table maps the id to the new row and
    every other id to what it mapped to before; and on the normal path a
    category that no department listed before and that the new row lists is
    routed to the new department, under the name of the new row. *)
Theorem add_department_takes_effect
    (self : Routing.DocumentRoutingService) (now : string)
    (d : string) (dept : Routing.Department)
    (info : Routing.DocumentInfo) (q : Q) (text c : string) :
  normal_path self info q text →
  get_default (Routing.di_classification info) "other" = Some c →
  unowned (Routing.departments self) c →
  c ∈ Routing.categories dept →
  d ≠ "" →
  let self' := Routing.add_department self d dept in
  let decision := Routing.determine_department self' now info in
  assoc_get (Routing.departments self') d = Some dept ∧
  (∀ other, other ≠ d →
     assoc_get (Routing.departments self') other = assoc_get (Routing.departments self) other) ∧
  Routing.department_id decision = d ∧
  Routing.department_name decision = Routing.name dept ∧
  Routing.department_email decision = Some (Routing.email dept).
Proof.
  intros Hn Hc Hun Hcat Hne self' decision.
  split; [apply assoc_get_set|]. split; [intros other Ho; by apply assoc_get_set_other|].
  subst decision.
  rewrite (determine_department_normal_full self' now info q text Hn). rewrite Hc.
  subst self'. simpl Routing.departments.
  rewrite (find_department_added _ c d dept Hun Hcat).
  assert (Ht : Py.truthy (Some d) = true) by (by destruct d).
  rewrite Ht. unfold Routing._create_routing_result. simpl.
  by rewrite assoc_get_set.
Qed.

Lemma add_department_takes_effect_witness :
  let dept := {| Routing.name := "Safety Cell"; Routing.email := "safety@company.com";
                 Routing.responsible_person := "Safety Officer";
                 Routing.categories := ["incident_report"] |} in
  let info := Models.doc_info (Val "incident_report") (Val (9 # 10)) (Val "Incident at the depot") in
  let self' := Routing.add_department Models.router "safety" dept in
  let decision := Routing.determine_department self' "2024-01-15T10:00:00" info in
  assoc_get (Routing.departments self') "safety" = Some dept ∧
  (∀ other, other ≠ "safety" →
     assoc_get (Routing.departments self') other
     = assoc_get (Routing.departments Models.router) other) ∧
  Routing.department_id decision = "safety" ∧
  Routing.department_name decision = Routing.name dept ∧
  Routing.department_email decision = Some (Routing.email dept).
Proof.
  intros dept info.
  apply (add_department_takes_effect Models.router "2024-01-15T10:00:00" "safety" dept info
           (9 # 10) "Incident at the depot" "incident_report").
  - split; [reflexivity|]. split; [|reflexivity]. by vm_compute.
  - reflexivity.
  - apply unowned_check. reflexivity.
  - simpl. apply list_elem_of_here.
  - discriminate.
Defined.

(** X9. After [update_routing_rules] has set a new fallback department, a
    document of the normal path whose category no department lists goes to
    the new fallback department, while a document whose confidence is below
    the threshold in force still goes to 'archive' and to review; the
    threshold in force is the one passed with the update, or the previous
    one when the update passes none. *)
Theorem update_routing_rules_takes_effect
    (self : Routing.DocumentRoutingService) (now : string)
    (f : string) (threshold : option Q)
    (info : Routing.DocumentInfo) (q : Q) (text c : string) :
  get_default (Routing.di_confidence info) 0%Q = Some q →
  get_default (Routing.di_extracted_text info) "" = Some text →
  get_default (Routing.di_classification info) "other" = Some c →
  unowned (Routing.departments self) c →
  let self' := Routing.update_routing_rules self (fallback_update f threshold) in
  let in_force :=
    default (Routing.confidence_threshold (Routing.routing_rules self)) threshold in
  let decision := Routing.determine_department self' now info in
  ((q < in_force)%Q →
   Routing.department_id decision = "archive" ∧ Routing.needs_review decision = true) ∧
  (¬ (q < in_force)%Q →
   Routing.department_id decision = f ∧ Routing.needs_review decision = false).
Proof.
  intros Hq Ht Hc Hun self' in_force decision. subst decision. split.
  - intros Hlt. by rewrite (determine_department_low self' now info q Hq Hlt).
  - intros Hge.
    rewrite (determine_department_normal_full self' now info q text); [|done].
    rewrite Hc. subst self'. simpl Routing.departments.
    rewrite find_department_unowned; [done|]. by intros c' [= <-].
Qed.

Lemma update_routing_rules_takes_effect_witness :
  let info := Models.doc_info (Val "memo") (Val (85 # 100)) (Val "Office memo") in
  let self' := Routing.update_routing_rules Models.router
                 (fallback_update "management" (Some (9 # 10))) in
  let in_force :=
    default (Routing.confidence_threshold (Routing.routing_rules Models.router))
      (Some (9 # 10)) in
  let decision := Routing.determine_department self' "2024-01-15T10:00:00" info in
  ((85 # 100 < in_force)%Q →
   Routing.department_id decision = "archive" ∧ Routing.needs_review decision = true) ∧
  (¬ (85 # 100 < in_force)%Q →
   Routing.department_id decision = "management" ∧ Routing.needs_review decision = false).
Proof.
  intros info.
  apply (update_routing_rules_takes_effect Models.router "2024-01-15T10:00:00" "management"
           (Some (9 # 10)) info (85 # 100) "Office memo" "memo"); [reflexivity..|].
  apply unowned_check. reflexivity.
Defined.

(** ** Email without a summary *)

Lemma send_email_without_summary (self : Routing.DocumentRoutingService)
    (tr : Routing.Transport) (nd : Routing.NotificationData) :
  Py.truthy (Routing.email_user self) = true →
  Py.truthy (Routing.email_password self) = true →
  Routing.di_summary (Routing.nd_document nd) = PyNone →
  Routing._send_email_notification self tr nd = email_body_failure.
Proof.
  intros Hu Hp Hs. unfold Routing._send_email_notification, Routing._create_email_body.
  by rewrite Hu, Hp, Hs.
Qed.

(** X10. When a run extracts a text but its summarization stage fails on a
    document that had no summary, and the email channel is listed with its
    credentials, the email notification of the run fails while its body is
    built (the summary is [None] and is sliced), whatever the SMTP
    transport does: the outcome is recorded as failed and routing still
    completes. *)
Theorem failed_summary_fails_email
    (app : Pipeline.App) (db : Pipeline.DB) (document_id : Z)
    (document : Pipeline.Document) (r : Pipeline.ExtractionResult) :
  Pipeline.documents db !! document_id = Some document →
  Pipeline.summary document = None →
  extraction_succeeds app document_id document r →
  summarization_fails app r →
  listed (Pipeline.routing_service app) "email" = true →
  fully_configured (Pipeline.routing_service app) "email" = true →
  let run := Pipeline.process_document_pipeline app db document_id in
  logged db run "routing" "completed" ∧
  ∃ info response outcomes,
    Pipeline.CallRouting info response ∈ Pipeline.run_calls run ∧
    Routing.resp_notifications_sent response = Some outcomes ∧
    email_body_failure ∈ outcomes.
Proof.
  intros Hdoc Hsum Hr Hfail Hl Hf run. subst run.
  destruct (successful_run_form app db document_id document r Hdoc Hr)
    as (d2 & o2 & c2 & d3 & o3 & c3 & d4 & e4 & c4 & H2 & H3 & H4 & ->).
  rewrite classification_step_shape in H2. injection H2 as <- <- <-.
  rewrite routing_step_completes in H4. injection H4 as <- <- <-.
  set (d2 := if Classification.success _ then _ else _) in *.
  assert (Hd2 : Pipeline.summary d2 = None ∧ Pipeline.extracted_text d2 = Pipeline.ex_text r).
  { subst d2. by destruct (Classification.success _). }
  destruct Hd2 as [Hs2 He2].
  assert (Hd3 : Pipeline.summary d3 = None).
  { unfold Pipeline.summarization_step in H3. unfold summarization_fails in Hfail.
    rewrite He2 in H3.
    destruct (Summarization.generate_summary _ _ _ _) as [e|s].
    - by injection H3 as <- _ _.
    - rewrite Hfail in H3. by injection H3 as <- _ _. }
  split.
  { unfold logged, new_entries, trail. simpl. rewrite drop_app_length. simpl.
    do 4 apply list_elem_of_further. apply list_elem_of_here. }
  eexists _, _, _. split; [simpl; do 3 apply list_elem_of_further; apply list_elem_of_here|].
  rewrite route_document_outcomes. simpl. split; [reflexivity|].
  assert (Hd : dispatched (Pipeline.routing_service app) "email" = true).
  { unfold dispatched. by rewrite Hl. }
  rewrite Hd. apply elem_of_app. left. apply list_elem_of_singleton.
  unfold fully_configured in Hf. rewrite Hl in Hf. simpl in Hf.
  apply andb_true_iff in Hf as [Hu Hp].
  symmetry. apply send_email_without_summary; [done | done |]. simpl. by rewrite Hd3.
Qed.

Lemma failed_summary_fails_email_witness :
  let app :=
    {| Pipeline.process_document := fun _ => Models.extracted "hello";
       Pipeline.store_extracted_data := fun _ _ => ret tt;
       Pipeline.classification_service := Models.classifier;
       Pipeline.summarization_service := Models.summarizer;
       Pipeline.routing_service :=
         Routing.init (Some "dms@kmrl.example") (Some "secret") None None;
       Pipeline.transport := Models.transport;
       Pipeline.now := "2024-01-15T10:00:00";
       Pipeline.format_2f := fun _ => "0.00" |} in
  let run := Pipeline.process_document_pipeline app Models.fresh_db 1 in
  logged Models.fresh_db run "routing" "completed" ∧
  ∃ info response outcomes,
    Pipeline.CallRouting info response ∈ Pipeline.run_calls run ∧
    Routing.resp_notifications_sent response = Some outcomes ∧
    email_body_failure ∈ outcomes.
Proof.
  intros app.
  apply (failed_summary_fails_email app Models.fresh_db 1 Models.fresh_document
           {| Pipeline.ex_success := true; Pipeline.ex_text := Some "hello";
              Pipeline.ex_error := Absent |}); try reflexivity.
  repeat split; reflexivity.
Defined.

(** ** Rule-based classification and routing *)

Lemma rule_based_range (text : string) :
  Classification.rule_based_classification text ∈
    [ ("invoice", 8 # 10); ("contract", 7 # 10); ("resume", 75 # 100);
      ("legal_document", 7 # 10); ("report", 6 # 10); ("other", 5 # 10) ].
Proof.
  unfold Classification.rule_based_classification.
  repeat match goal with
         | |- context [Py.any ?f ?l] =>
             let b := fresh "b" in
             generalize (Py.any f l); intros b; destruct b; cbv [andb]
         end;
    rewrite !elem_of_cons; tauto.
Qed.

(** X11. Without a trained model the confidence is the fixed one of the
    rule-based strategy, so the department follows from the category alone:
    with the tables of the source, a text classified 'invoice' goes to
    finance, 'contract' and 'legal_document' to legal, 'resume' to hr, all
    without review, while 'report' (0.6) and 'other' (0.5) fall below the
    threshold and go to the archive for review; 'report' never reaches the
    operations department that lists it. *)
Theorem rule_based_result_destination
    (self : Routing.DocumentRoutingService) (now : string)
    (info : Routing.DocumentInfo) (text : string) :
  Routing.departments self = Routing._load_departments →
  Routing.routing_rules self = Routing._load_routing_rules →
  Routing.di_extracted_text info = Val text →
  Routing.di_classification info = Val (fst (Classification.rule_based_classification text)) →
  Routing.di_confidence info = Val (snd (Classification.rule_based_classification text)) →
  let decision := Routing.determine_department self now info in
  (Routing.department_id decision, Routing.needs_review decision)
  = rule_based_destination (fst (Classification.rule_based_classification text)).
Proof.
  intros Hd Hr Ht Hc Hq decision. subst decision.
  pose proof (rule_based_range text) as Hrange.
  destruct (Classification.rule_based_classification text) as [c q]. simpl in *.
  rewrite !elem_of_cons, elem_of_nil in Hrange.
  destruct Hrange as [[= -> ->]|[[= -> ->]|[[= -> ->]|[[= -> ->]|[[= -> ->]|[[= -> ->]|[]]]]]]];
    first
      [ rewrite (determine_department_low self now info _ ltac:(by rewrite Hq))
          by (by rewrite Hr);
        reflexivity
      | rewrite (determine_department_normal_full self now info _ text)
          by (split; [by rewrite Hq | split; [by rewrite Hr | by rewrite Ht]]);
        rewrite Hc, Hd; reflexivity ].
Qed.

Lemma rule_based_result_destination_witness :
  let text := "Quarterly analysis: findings and conclusion" in
  let info := Models.doc_info (Val "report") (Val (6 # 10)) (Val text) in
  let decision := Routing.determine_department Models.router "2024-01-15T10:00:00" info in
  (Routing.department_id decision, Routing.needs_review decision)
  = rule_based_destination (fst (Classification.rule_based_classification text)).
Proof.
  intros text info.
  apply (rule_based_result_destination Models.router "2024-01-15T10:00:00" info text);
    reflexivity.
Defined.

(** ** Adding text never declassifies *)

Lemma contains_extend (keyword pre t post : string) :
  Py.contains keyword (Py.lower t) = true →
  Py.contains keyword (Py.lower (pre +:+ t +:+ post)) = true.
Proof.
  rewrite !contains_spec. intros (a & b & H).
  exists (Py.lower pre +:+ a), (b +:+ Py.lower post).
  by rewrite !lower_app, H, !str_app_assoc.
Qed.

Lemma any_extend (keywords : list string) (pre t post : string) :
  Py.any (fun word => Py.contains word (Py.lower t)) keywords = true →
  Py.any (fun word => Py.contains word (Py.lower (pre +:+ t +:+ post))) keywords = true.
Proof.
  rewrite !any_true. intros (kw & Hin & H). exists kw. split; [done|].
  by apply contains_extend.
Qed.

Lemma test_holds_extend (lists : list (list string)) (pre t post : string) :
  test_holds (Py.lower t) lists = true →
  test_holds (Py.lower (pre +:+ t +:+ post)) lists = true.
Proof.
  unfold test_holds. rewrite !forallb_forall. intros H l Hl.
  apply any_extend, H, Hl.
Qed.

Lemma first_match_other (text : string) :
  fst (first_match_classification text) = "other" ↔
  find (fun rule => test_holds (Py.lower text) (snd rule)) cascade = None.
Proof.
  unfold first_match_classification.
  destruct (find _ cascade) as [rule|] eqn:E; [|done].
  split; [|done]. intros H. apply find_some in E as [Hin _]. simpl in H, Hin.
  destruct Hin as [<-|[<-|[<-|[<-|[<-|[]]]]]]; discriminate H.
Qed.

(** X12. The rule-based strategy is monotone in the text: when a text is
    given a category other than 'other', every text that contains it, with
    anything before and after, is given a category other than 'other' as
    well (possibly a different one, of an earlier rule). *)
Theorem rule_based_classification_monotone (pre t post : string) :
  fst (Classification.rule_based_classification t) ≠ "other" →
  fst (Classification.rule_based_classification (pre +:+ t +:+ post)) ≠ "other".
Proof.
  rewrite !rule_based_first_match, !first_match_other. intros Hsmall Hbig.
  apply Hsmall. destruct (find _ cascade) as [rule|] eqn:E; [|done].
  apply find_some in E as [Hin Htest].
  apply (find_none _ _ Hbig) in Hin. simpl in Hin.
  by rewrite (test_holds_extend _ pre t post Htest) in Hin.
Qed.

Lemma rule_based_classification_monotone_witness :
  fst (Classification.rule_based_classification
         ("Ref 12/2024. " +:+ "The plaintiff filed in court" +:+ " Total payment due."))
  ≠ "other".
Proof.
  apply (rule_based_classification_monotone "Ref 12/2024. " "The plaintiff filed in court"
           " Total payment due.").
  vm_compute. discriminate.
Defined.

(** ** The keyword classifier of the demo mode *)

Lemma argmax_first_spec (before after rest : list (string * nat)) (best : string * nat) :
  (∀ x, x ∈ before → snd x < snd best) →
  (∀ x, x ∈ after → snd x ≤ snd best) →
  first_maximum (before ++ best :: after ++ rest) (Gemini.argmax_first best rest).
Proof.
  revert before after best. induction rest as [|[k v] rest IH]; intros before after best Hb Ha.
  - simpl. rewrite app_nil_r. by exists before, after.
  - simpl. destruct (snd best <? v) eqn:E.
    + apply Nat.ltb_lt in E.
      replace (before ++ best :: after ++ (k, v) :: rest)
        with ((before ++ best :: after) ++ (k, v) :: [] ++ rest)
        by (by rewrite <- app_assoc).
      apply IH.
      * intros x [Hx|Hx]%elem_of_app; simpl.
        -- specialize (Hb x Hx). lia.
        -- apply elem_of_cons in Hx as [->|Hx]; [done|]. specialize (Ha x Hx). lia.
      * by intros x ?%elem_of_nil.
    + apply Nat.ltb_ge in E.
      replace (before ++ best :: after ++ (k, v) :: rest)
        with (before ++ best :: (after ++ [(k, v)]) ++ rest)
        by (by rewrite <- app_assoc).
      apply IH; [done|].
      intros x [Hx|Hx]%elem_of_app; [by apply Ha|].
      apply list_elem_of_singleton in Hx as ->. done.
Qed.

Lemma assoc_get_elem (V : Type) (d : list (string * V)) (key : string) (v : V) :
  assoc_get d key = Some v → (key, v) ∈ d.
Proof.
  induction d as [|[k w] d IH]; [done|]. simpl.
  destruct (String.eqb_spec k key) as [->|Hne].
  - intros [= ->]. apply list_elem_of_here.
  - intros H. apply list_elem_of_further. by apply IH.
Qed.

Lemma mock_scores_max_zero (text : string) :
  foldr Nat.max 0 (map snd (mock_scores text)) = 0 ↔
  ∀ x, x ∈ mock_scores text → snd x = 0.
Proof.
  generalize (mock_scores text). intros l. induction l as [|[k v] l IH]; simpl.
  - split; [by intros _ x ?%elem_of_nil | done].
  - split.
    + intros H x [->|Hx]%elem_of_cons; simpl; [lia|]. apply IH; [lia | done].
    + intros H. pose proof (H (k, v) (list_elem_of_here _ _)) as Hv. simpl in Hv.
      assert (foldr Nat.max 0 (map snd l) = 0) as ->; [|lia].
      apply IH. intros x Hx. apply H. by apply list_elem_of_further.
Qed.

(** X13. [_classify_with_mock] is the argmax that it says: when no keyword
    of any list occurs in the text it answers 'Other' with confidence
    0.75; otherwise it answers with the type and confidence registered for
    the first category, in the order of the score table, whose score is the
    largest, and that score is positive. *)
Theorem mock_classification_is_first_maximum (text name : string) :
  let result := Gemini._classify_with_mock text name in
  ((∀ x, x ∈ mock_scores text → snd x = 0) →
   Gemini.predicted_type result = "Other" ∧ Gemini.confidence result = 75 # 100) ∧
  (¬ (∀ x, x ∈ mock_scores text → snd x = 0) →
   ∃ winner,
     first_maximum (mock_scores text) winner ∧ 0 < snd winner ∧
     assoc_get Gemini.mock_classifications (fst winner)
       = Some (Gemini.predicted_type result, Gemini.confidence result)).
Proof.
  intros result. subst result. unfold Gemini._classify_with_mock.
  fold (mock_scores text). rewrite <- mock_scores_max_zero.
  destruct (0 <? foldr Nat.max 0 (map snd (mock_scores text))) eqn:E.
  - apply Nat.ltb_lt in E. split; [lia|]. intros _.
    cbn [Gemini.predicted_type Gemini.confidence].
    assert (Hkeys : map fst (mock_scores text)
                    = ["invoice"; "purchase_order"; "report"; "policy_circular";
                       "regulatory_compliance"]) by reflexivity.
    pose proof (proj1 (mock_scores_max_zero text)) as Hzero.
    destruct (mock_scores text) as [|first rest] eqn:Hform; [simpl in E; lia|].
    pose proof (argmax_first_spec [] [] rest first
                  ltac:(by intros x ?%elem_of_nil) ltac:(by intros x ?%elem_of_nil)) as Hmax.
    simpl in Hmax.
    set (winner := Gemini.argmax_first first rest) in *.
    assert (Hin : winner ∈ first :: rest).
    { destruct Hmax as (b & a & -> & _). apply elem_of_app. right. apply list_elem_of_here. }
    assert (Hpos : 0 < snd winner).
    { destruct (decide (snd winner = 0)) as [Hz|]; [|lia].
      assert (foldr Nat.max 0 (map snd (first :: rest)) = 0); [|lia].
      clear Hzero. revert Hmax Hz. generalize (first :: rest). intros l (b & a & -> & Hb & Ha) Hz.
      assert (Hall : ∀ x, x ∈ b ++ winner :: a → snd x = 0).
      { intros x [Hx|Hx]%elem_of_app; [specialize (Hb x Hx); lia|].
        apply elem_of_cons in Hx as [->|Hx]; [done|]. specialize (Ha x Hx). lia. }
      revert Hall. generalize (b ++ winner :: a). intros l Hall.
      induction l as [|[k v] l IH]; [done|]. simpl.
      pose proof (Hall (k, v) (list_elem_of_here _ _)) as Hv. simpl in Hv.
      rewrite IH; [lia|]. intros x Hx. apply Hall. by apply list_elem_of_further. }
    exists winner. split; [done|]. split; [done|].
    assert (Hkey : fst winner ∈ map fst (first :: rest)).
    { apply list_elem_of_fmap. by exists winner. }
    rewrite Hkeys in Hkey. rewrite !elem_of_cons, elem_of_nil in Hkey.
    destruct Hkey as [->|[->|[->|[->|[->|[]]]]]]; reflexivity.
  - apply Nat.ltb_ge in E. split; [done|]. intros H. destruct H. lia.
Qed.

Lemma mock_answer_registered (key : string) :
  default ("Other", 75 # 100) (assoc_get Gemini.mock_classifications key)
    ∈ map snd Gemini.mock_classifications.
Proof.
  destruct (assoc_get Gemini.mock_classifications key) as [v|] eqn:E; simpl.
  - apply assoc_get_elem in E. by apply (list_elem_of_fmap_2 snd _ (key, v)) in E.
  - do 5 apply list_elem_of_further. apply list_elem_of_here.
Qed.

(** X14. On a text that passes the length check, a demo classifier without
    API key, or one whose API call raises, answers successfully with the
    keyword result: the type is one of the six declared document
    categories and the confidence lies between 0.75 and 0.92, so it is
    never below the routing threshold of 0.7; no error is reported. *)
Theorem demo_classifier_answer
    (self : Gemini.GeminiDocumentClassifier) (text name : string) :
  Classification.too_short (Some text) = false →
  (Gemini.is_available self = false ∨
   ∃ e, Gemini._classify_with_gemini self text name = inl e) →
  let result := Gemini.classify_document self (Some text) name in
  Gemini.success result = true ∧ Gemini.error result = None ∧
  Gemini.method result = Some "mock_demo" ∧
  Gemini.predicted_type result ∈ Gemini.document_categories ∧
  (75 # 100 <= Gemini.confidence result)%Q ∧ (Gemini.confidence result <= 92 # 100)%Q.
Proof.
  intros Hs Hapi result.
  assert (Hres : result = Gemini._classify_with_mock text name).
  { subst result. unfold Gemini.classify_document. rewrite Hs. simpl.
    destruct Hapi as [-> | [e He]]; [done|].
    rewrite He. by destruct (Gemini.is_available self). }
  rewrite Hres. unfold Gemini._classify_with_mock. cbv zeta.
  cbn [Gemini.success Gemini.error Gemini.method Gemini.predicted_type Gemini.confidence].
  split; [done|]. split; [done|]. split; [done|].
  match goal with
  | |- context [assoc_get Gemini.mock_classifications ?k] =>
      pose proof (mock_answer_registered k) as Hreg;
      destruct (default ("Other", 75 # 100) (assoc_get Gemini.mock_classifications k))
        as [type confidence]
  end.
  simpl in Hreg. rewrite !elem_of_cons, elem_of_nil in Hreg. simpl.
  destruct Hreg as [[= -> ->]|[[= -> ->]|[[= -> ->]|[[= -> ->]|[[= -> ->]|[[= -> ->]|[]]]]]]];
    (split; [unfold Gemini.document_categories; rewrite !elem_of_cons; tauto|]);
    split; by vm_compute.
Qed.

Lemma demo_classifier_answer_witness :
  let self := {| Gemini.is_available := false;
                 Gemini._classify_with_gemini := fun _ _ => raise "no API key" |} in
  let result := Gemini.classify_document self (Some "PURCHASE ORDER for the vendor") "po.pdf" in
  Gemini.success result = true ∧ Gemini.error result = None ∧
  Gemini.method result = Some "mock_demo" ∧
  Gemini.predicted_type result ∈ Gemini.document_categories ∧
  (75 # 100 <= Gemini.confidence result)%Q ∧ (Gemini.confidence result <= 92 # 100)%Q.
Proof.
  intros self.
  apply (demo_classifier_answer self "PURCHASE ORDER for the vendor" "po.pdf").
  - reflexivity.
  - by left.
Defined.

(** ** What the summarization strategies return *)

Lemma in_original_order_sublist (n : nat) (top : list (string * Q))
    (sentences acc : list string) :
  ∃ selected, selected `sublist_of` sentences ∧
    Summarization.in_original_order n top sentences acc = acc ++ selected.
Proof.
  revert acc. induction sentences as [|s sentences IH]; intros acc; simpl.
  - exists []. by rewrite app_nil_r.
  - destruct (Py.any _ top).
    + destruct (length (acc ++ [s]) =? n).
      * exists [s]. split; [|done]. apply sublist_skip, sublist_nil_l.
      * destruct (IH (acc ++ [s])) as (sel & Hsub & ->).
        exists (s :: sel). split; [by apply sublist_skip|]. by rewrite <- app_assoc.
    + destruct (length acc =? n).
      * exists []. split; [apply sublist_nil_l | by rewrite app_nil_r].
      * destruct (IH acc) as (sel & Hsub & ->). exists sel. split; [by apply sublist_cons | done].
Qed.

Lemma in_original_order_length (n : nat) (top : list (string * Q))
    (sentences acc : list string) :
  length acc < n ∨ (top = [] ∧ length acc ≤ n) →
  length (Summarization.in_original_order n top sentences acc) ≤ n.
Proof.
  revert acc. induction sentences as [|s sentences IH]; intros acc H; simpl; [lia|].
  destruct H as [H | [-> H]].
  - destruct (Py.any _ top).
    + destruct (Nat.eqb_spec (length (acc ++ [s])) n) as [E|E]; [lia|].
      apply IH. left. rewrite length_app in *. simpl in *. lia.
    + destruct (Nat.eqb_spec (length acc) n) as [E|E]; [lia|]. apply IH. by left.
  - simpl. destruct (Nat.eqb_spec (length acc) n) as [E|E]; [lia|]. apply IH. by right.
Qed.

(** The scores are floats: 0.2 + 0.2 + 0.2 is more than 0.6, so the last
    sentence, whose three words each have frequency 0.2, scores above the
    third, whose one word has frequency 0.2, and is selected instead. *)
Example extractive_scores_are_floats :
  Summarization.extractive_summarization Models.summarizer
    "zed zed zed the. zed zed the. beta the. gamma delta kappa the." 3
  = "zed zed zed the. zed zed the. gamma delta kappa the.".
Proof. vm_compute. reflexivity. Qed.

(** X15. When the sentence tokenizer answers, the extractive summary is
    made of sentences of the cleaned text, in the order of the text, at
    most [num_sentences] of them, joined by single spaces; the only other
    result is the truncated cleaned text, returned when the word tokenizer
    raises. *)
Theorem extractive_summary_keeps_document_order
    (self : Summarization.SummarizationService) (text : string) (num_sentences : nat)
    (sentences : list string) :
  sent_tokenize (Summarization.nlp self) (Summarization.preprocess_text text) = inr sentences →
  let summary := Summarization.extractive_summarization self text num_sentences in
  ∃ selected,
    selected `sublist_of` sentences ∧ length selected ≤ num_sentences ∧
    (summary = Py.join " " selected ∨
     summary = Summarization.truncate_500 (Summarization.preprocess_text text)) ∧
    (word_tokenizer_total (Summarization.nlp self) → summary = Py.join " " selected).
Proof.
  intros Hs summary. subst summary.
  unfold Summarization.extractive_summarization, Summarization.extractive_body.
  rewrite Hs. simpl.
  destruct (Nat.leb_spec (length sentences) num_sentences) as [Hle|Hgt].
  - exists sentences. simpl. split; [done|]. split; [done|]. split; [by left | done].
  - set (top := fun scores : list (string * Q) =>
                  take num_sentences (Summarization.sorted_desc scores)).
    assert (Hsel : ∀ scores, ∃ selected, selected `sublist_of` sentences ∧
               length selected ≤ num_sentences ∧
               Summarization.in_original_order num_sentences (top scores) sentences []
               = selected).
    { intros scores.
      destruct (in_original_order_sublist num_sentences (top scores) sentences [])
        as (sel & Hsub & Heq).
      exists sel. split; [done|]. split; [|done]. simpl in Heq. rewrite <- Heq.
      apply in_original_order_length. subst top. simpl.
      destruct num_sentences; [right; by rewrite take_0 | left; lia]. }
    destruct (word_tokenize (Summarization.nlp self) _) as [e|words] eqn:Hw; simpl.
    + destruct (Hsel []) as (sel & Hsub & Hlen & _). exists sel.
      split; [done|]. split; [done|]. split; [by right|].
      intros Htot. destruct (Htot (Py.lower (Summarization.preprocess_text text))) as [ws Hws].
      rewrite Hws in Hw. discriminate Hw.
    + destruct (Summarization.calculate_sentence_scores _ _ _) as [e|scores] eqn:Hc; simpl.
      * destruct (Hsel []) as (sel & Hsub & Hlen & _). exists sel.
        split; [done|]. split; [done|]. split; [by right|].
        intros Htot. exfalso.
        unfold Summarization.calculate_sentence_scores in Hc.
        revert Hc. generalize (@nil (string * Q)). generalize sentences.
        induction sentences0 as [|s0 ss IH]; intros acc; simpl; [done|].
        unfold Summarization.content_words.
        destruct (Htot (Py.lower s0)) as [ws ->]. simpl. apply IH.
      * destruct (Hsel scores) as (sel & Hsub & Hlen & Heq). exists sel.
        subst top. simpl in Heq. rewrite Heq.
        split; [done|]. split; [done|]. split; [by left | done].
Qed.

Lemma extractive_summary_keeps_document_order_witness :
  let text := "Metro ridership rose. Revenue rose too! Costs fell? Staff grew. Metro metro metro." in
  let sentences := ["Metro ridership rose."; "Revenue rose too!"; "Costs fell?"; "Staff grew.";
                    "Metro metro metro."] in
  let summary := Summarization.extractive_summarization Models.summarizer text 3 in
  ∃ selected,
    selected `sublist_of` sentences ∧ length selected ≤ 3 ∧
    (summary = Py.join " " selected ∨
     summary = Summarization.truncate_500 (Summarization.preprocess_text text)) ∧
    (word_tokenizer_total (Summarization.nlp Models.summarizer) →
     summary = Py.join " " selected).
Proof.
  intros text sentences.
  apply (extractive_summary_keeps_document_order Models.summarizer text 3 sentences).
  reflexivity.
Defined.

Lemma ratio_of_le_1 (summary text : string) :
  Py.len summary ≤ Py.len text → (Summarization.ratio_of summary text <= 1)%Q.
Proof.
  intros H. unfold Summarization.ratio_of. destruct (Py.len text) as [|n]; [done|].
  unfold Qle. simpl. rewrite Z.mul_1_r, Zpos_P_of_succ_nat. lia.
Qed.

(** X16. The graph strategy does not call gensim on a short text: when
    the cleaned text has fewer than 20 words, [generate_summary] with
    method 'gensim' returns the cleaned text itself, whatever gensim and
    the tokenizers would do, and reports a compression ratio of at most 1. *)
Theorem gensim_returns_short_text_cleaned
    (self : Summarization.SummarizationService) (text : string)
    (kwargs : Summarization.Kwargs) :
  Classification.too_short (Some text) = false →
  length (Py.split (Summarization.preprocess_text text)) < 20 →
  let r := Summarization.generate_summary_str self text "gensim" kwargs in
  Summarization.success r = true ∧
  Summarization.summary r = Summarization.preprocess_text text ∧
  Summarization.summary_length r ≤ Summarization.original_length r ∧
  ∃ ratio, Summarization.compression_ratio r = Some ratio ∧ (ratio <= 1)%Q.
Proof.
  intros Hs Hw r. subst r. unfold Summarization.generate_summary_str. rewrite Hs. simpl.
  unfold Summarization.gensim_summarization. apply Nat.ltb_lt in Hw. rewrite Hw. simpl.
  split; [done|]. split; [done|]. split; [apply preprocess_text_length|].
  eexists. split; [done|]. apply ratio_of_le_1, preprocess_text_length.
Qed.

Lemma gensim_returns_short_text_cleaned_witness :
  let text := "Metro   ridership rose (12%) in January." in
  let r := Summarization.generate_summary_str Models.summarizer_without_punkt text "gensim"
             Summarization.no_kwargs in
  Summarization.success r = true ∧
  Summarization.summary r = Summarization.preprocess_text text ∧
  Summarization.summary_length r ≤ Summarization.original_length r ∧
  ∃ ratio, Summarization.compression_ratio r = Some ratio ∧ (ratio <= 1)%Q.
Proof.
  intros text.
  apply (gensim_returns_short_text_cleaned Models.summarizer_without_punkt text
           Summarization.no_kwargs).
  - reflexivity.
  - vm_compute. lia.
Defined.

(** X17. With a transformer model loaded, the abstractive strategy hands
    the model the first 1024 characters of the cleaned text at most, and
    when the model raises it falls back to the extractive summary of that
    truncated text, not of the whole text. *)
Theorem abstractive_input_window
    (self : Summarization.SummarizationService) (text : string) (max_length min_length : nat)
    (summarizer : string → nat → nat → exn + string) :
  Summarization.transformer_summarizer self = Some summarizer →
  let window := Py.take 1024 (Summarization.preprocess_text text) in
  Py.len window ≤ 1024 ∧
  (Py.len (Summarization.preprocess_text text) ≤ 1024 →
   window = Summarization.preprocess_text text) ∧
  (∀ s, summarizer window max_length min_length = inr s →
     Summarization.abstractive_summarization self text max_length min_length = s) ∧
  (∀ e, summarizer window max_length min_length = inl e →
     Summarization.abstractive_summarization self text max_length min_length
     = Summarization.extractive_summarization self window 3).
Proof.
  intros Ht window.
  assert (Hfull : ∀ n s, String.length s ≤ n → Py.take n s = s).
  { induction n as [|n IH]; intros [|c s] Hn; simpl in *; try done; [lia|].
    rewrite IH; [done | lia]. }
  assert (Hw : (if 1024 <? Py.len (Summarization.preprocess_text text)
                then Py.take 1024 (Summarization.preprocess_text text)
                else Summarization.preprocess_text text) = window).
  { destruct (Nat.ltb_spec 1024 (Py.len (Summarization.preprocess_text text))); [done|].
    subst window. symmetry. by apply Hfull. }
  split; [apply take_length|]. split; [apply Hfull|].
  unfold Summarization.abstractive_summarization. rewrite Ht, Hw.
  split; intros x Hx; by rewrite Hx.
Qed.

Lemma abstractive_input_window_witness :
  let summarizer : string → nat → nat → exn + string :=
    fun text _ _ => if String.length text <=? 1024 then raise "CUDA out of memory" else ret text in
  let self := {| Summarization.nlp := Models.nltk;
                 Summarization.transformer_summarizer := Some summarizer;
                 Summarization.gensim_summarize := fun text _ => ret text;
                 Summarization.math_log := fun _ => 0%Q;
                 Summarization.float_sum := Models.sequential_sum |} in
  let text := Models.replicate_char 1100 "a" in
  let window := Py.take 1024 (Summarization.preprocess_text text) in
  Py.len window ≤ 1024 ∧
  (Py.len (Summarization.preprocess_text text) ≤ 1024 →
   window = Summarization.preprocess_text text) ∧
  (∀ s, summarizer window 150 50 = inr s →
     Summarization.abstractive_summarization self text 150 50 = s) ∧
  (∀ e, summarizer window 150 50 = inl e →
     Summarization.abstractive_summarization self text 150 50
     = Summarization.extractive_summarization self window 3).
Proof.
  intros summarizer self text.
  apply (abstractive_input_window self text 150 50 summarizer). reflexivity.
Defined.

Lemma truncate_500_length (text : string) :
  Py.len (Summarization.truncate_500 text) ≤ 503.
Proof.
  unfold Summarization.truncate_500, Py.len.
  destruct (Nat.ltb_spec 500 (String.length text)) as [H|H]; [|lia].
  rewrite str_length_app. pose proof (take_length 500 text).
  change (String.length "...") with 3. lia.
Qed.

Lemma extractive_without_punkt (self : Summarization.SummarizationService)
    (text : string) (num_sentences : nat) :
  sentence_tokenizer_missing (Summarization.nlp self) →
  Summarization.extractive_summarization self text num_sentences
  = Summarization.truncate_500 (Summarization.preprocess_text text).
Proof.
  intros H. unfold Summarization.extractive_summarization, Summarization.extractive_body.
  destruct (H (Summarization.preprocess_text text)) as [e ->]. done.
Qed.

(** X18. When the sentence tokenizer raises on every text (the punkt data
    is missing), [generate_summary] still succeeds with the extractive and
    the keyword strategy. With the extractive strategy the summary is the
    cleaned text, cut to 500 characters and "..." when it is longer. With
    the keyword strategy it is the same cut of the text cleaned twice: the
    handler passes the cleaned text to [extractive_summarization], which
    cleans it again. In both cases the summary has at most 503 characters
    and exceeds the input by at most two. *)
Theorem summary_without_punkt
    (self : Summarization.SummarizationService) (text method : string)
    (kwargs : Summarization.Kwargs) :
  sentence_tokenizer_missing (Summarization.nlp self) →
  Classification.too_short (Some text) = false →
  method = "extractive" ∨ method = "keyword" →
  let r := Summarization.generate_summary_str self text method kwargs in
  let cleaned := Summarization.preprocess_text text in
  Summarization.success r = true ∧
  Summarization.method_used r = method ∧
  (method = "extractive" → Summarization.summary r = cut_to 500 cleaned) ∧
  (method = "keyword" →
   Summarization.summary r = cut_to 500 (Summarization.preprocess_text cleaned)) ∧
  Summarization.original_length r = String.length text ∧
  Summarization.summary_length r = String.length (Summarization.summary r) ∧
  Summarization.summary_length r ≤ 503 ∧
  Summarization.summary_length r ≤ Summarization.original_length r + 2 ∧
  (Py.len text ≤ 500 → Summarization.summary_length r ≤ Summarization.original_length r).
Proof.
  intros Hp Hs Hm r cleaned. subst r cleaned.
  unfold Summarization.generate_summary_str. rewrite Hs.
  assert (Hcut : ∀ t, Summarization.truncate_500 t = cut_to 500 t) by done.
  assert (Hbound : ∀ t, Py.len t ≤ Py.len text →
            Py.len (cut_to 500 (Summarization.preprocess_text t)) ≤ 503 ∧
            Py.len (cut_to 500 (Summarization.preprocess_text t)) ≤ Py.len text + 2 ∧
            (Py.len text ≤ 500 →
             Py.len (cut_to 500 (Summarization.preprocess_text t)) ≤ Py.len text)).
  { intros t Ht. rewrite <- Hcut. split; [apply truncate_500_length|].
    pose proof (preprocess_text_length t) as Hlen.
    unfold Summarization.truncate_500.
    destruct (Nat.ltb_spec 500 (Py.len (Summarization.preprocess_text t))) as [H|H].
    - unfold Py.len in *. rewrite str_length_app.
      pose proof (take_length 500 (Summarization.preprocess_text t)).
      change (String.length "...") with 3. lia.
    - lia. }
  destruct Hm as [-> | ->]; simpl.
  - rewrite extractive_without_punkt, Hcut by done.
    split; [done|]. split; [done|]. split; [done|]. split; [done|].
    split; [done|]. split; [done|]. by apply Hbound.
  - unfold Summarization.keyword_based_summarization, Summarization.keyword_body.
    destruct (Hp (Summarization.preprocess_text text)) as [e ->]. simpl.
    rewrite extractive_without_punkt, Hcut by done.
    split; [done|]. split; [done|]. split; [done|]. split; [done|].
    split; [done|]. split; [done|]. apply Hbound, preprocess_text_length.
Qed.

Lemma summary_without_punkt_witness :
  let text := "a @ b is here now" in
  let r := Summarization.generate_summary_str Models.summarizer_without_punkt text "keyword"
             Summarization.no_kwargs in
  let cleaned := Summarization.preprocess_text text in
  Summarization.success r = true ∧
  Summarization.method_used r = "keyword" ∧
  ("keyword" = "extractive" → Summarization.summary r = cut_to 500 cleaned) ∧
  ("keyword" = "keyword" →
   Summarization.summary r = cut_to 500 (Summarization.preprocess_text cleaned)) ∧
  Summarization.original_length r = String.length text ∧
  Summarization.summary_length r = String.length (Summarization.summary r) ∧
  Summarization.summary_length r ≤ 503 ∧
  Summarization.summary_length r ≤ Summarization.original_length r + 2 ∧
  (Py.len text ≤ 500 → Summarization.summary_length r ≤ Summarization.original_length r).
Proof.
  intros text.
  apply (summary_without_punkt Models.summarizer_without_punkt text "keyword"
           Summarization.no_kwargs).
  - intros s. by eexists.
  - reflexivity.
  - by right.
Defined.

(** The keyword strategy without punkt data on a text with a removed
    character: the double space left by the first cleaning is collapsed by
    the second. *)
Example keyword_summary_without_punkt_example :
  Summarization.preprocess_text "a @ b is here now" = "a  b is here now" ∧
  Summarization.summary
    (Summarization.generate_summary_str Models.summarizer_without_punkt
       "a @ b is here now" "keyword" Summarization.no_kwargs) = "a b is here now" ∧
  Summarization.summary
    (Summarization.generate_summary_str Models.summarizer_without_punkt
       "a @ b is here now" "extractive" Summarization.no_kwargs) = "a  b is here now".
Proof. repeat split; reflexivity. Qed.

(** ** Upload validation *)

Lemma rfind_go_absent (c : ascii) (s : string) (i last : Z) :
  absent c s → Helpers.rfind_go c s i last = last.
Proof.
  unfold absent. revert i last. induction s as [|a s IH]; intros i last; [done|]. simpl.
  intros [Ha Hs]%andb_true_iff. rewrite IH by done.
  case_decide; [|done]. subst a. by rewrite bool_decide_eq_true_2 in Ha.
Qed.

Lemma rfind_go_last (c : ascii) (a b : string) (i last : Z) :
  absent c b →
  Helpers.rfind_go c (a +:+ String c b) i last = (i + Z.of_nat (String.length a))%Z.
Proof.
  intros Hb. revert i last. induction a as [|x a IH]; intros i last.
  - rewrite str_app_nil_l. simpl. rewrite rfind_go_absent by done.
    case_decide; [lia | done].
  - rewrite str_app_cons. simpl. rewrite IH. lia.
Qed.

(** [rfind] either finds nothing or points at the last occurrence. *)
Lemma rfind_spec (c : ascii) (s : string) :
  (absent c s ∧ Helpers.rfind c s = (-1)%Z) ∨
  (∃ a b, s = a +:+ String c b ∧ absent c b ∧
          Helpers.rfind c s = Z.of_nat (String.length a)).
Proof.
  unfold Helpers.rfind.
  assert (H : ∀ i last,
            (absent c s ∧ Helpers.rfind_go c s i last = last) ∨
            (∃ a b, s = a +:+ String c b ∧ absent c b ∧
                    Helpers.rfind_go c s i last = (i + Z.of_nat (String.length a))%Z)).
  { induction s as [|x s IH]; intros i last; [by left|]. simpl.
    destruct (IH (i + 1)%Z (if decide (x = c) then i else last))
      as [[Habs Heq] | (a & b & -> & Hb & Heq)].
    - case_decide as Hx.
      + subst x. right. exists "", s. rewrite str_app_nil_l. split; [done|]. split; [done|].
        rewrite Heq. simpl. lia.
      + left. split; [|done]. unfold absent. simpl.
        rewrite bool_decide_eq_false_2 by done. done.
    - right. exists (String x a), b. rewrite str_app_cons. split; [done|]. split; [done|].
      rewrite Heq. simpl String.length. lia. }
  destruct (H 0%Z (-1)%Z) as [?|(a & b & ? & ? & Heq)]; [by left|].
  right. exists a, b. rewrite Heq. split; [done|]. split; [done|]. lia.
Qed.

Lemma drop_app_length_str (a b : string) : Helpers.drop (String.length a) (a +:+ b) = b.
Proof. induction a as [|x a IH]; [by destruct b|]. by rewrite str_app_cons. Qed.

Lemma splitext_scan_cases (p : string) (d fi : Z) (fuel : nat) :
  Helpers.splitext_scan p d fi fuel = (p, "") ∨
  Helpers.splitext_scan p d fi fuel = (Py.take (Z.to_nat d) p, Helpers.drop (Z.to_nat d) p).
Proof.
  revert fi. induction fuel as [|fuel IH]; intros fi; simpl; [by left|].
  destruct (fi <? d)%Z; [|by left]. destruct (negb _); [by right | apply IH].
Qed.

Lemma drop_succ_app_length (a b : string) (c : ascii) :
  Helpers.drop (S (String.length a)) (a +:+ String c b) = b.
Proof. induction a as [|x a IH]; [by destruct b|]. by rewrite str_app_cons. Qed.

Lemma take_drop_str (n : nat) (s : string) : Py.take n s +:+ Helpers.drop n s = s.
Proof.
  revert s. induction n as [|n IH]; intros [|c s]; try done.
  simpl. by rewrite str_app_cons, IH.
Qed.

Lemma absent_app (c : ascii) (s t : string) :
  absent c (s +:+ t) ↔ absent c s ∧ absent c t.
Proof.
  unfold absent. induction s as [|x s IH]; [by rewrite str_app_nil_l; intuition|].
  rewrite str_app_cons. simpl. rewrite !andb_true_iff, IH. tauto.
Qed.

Lemma absent_cons (c x : ascii) (s : string) :
  absent c (String x s) ↔ x ≠ c ∧ absent c s.
Proof.
  unfold absent. simpl. rewrite andb_true_iff, negb_true_iff, bool_decide_eq_false. tauto.
Qed.

Lemma present_split (c : ascii) (s : string) :
  ¬ absent c s → ∃ x y, s = x +:+ String c y.
Proof.
  induction s as [|a s IH]; [by intros []|]. rewrite absent_cons. intros H.
  destruct (decide (a = c)) as [->|Hne]; [by exists "", s|].
  destruct IH as (x & y & ->); [tauto|]. by exists (String a x), y.
Qed.

Lemma rfind_go_ge_last (c : ascii) (s : string) (i last : Z) :
  (last ≤ i → last ≤ Helpers.rfind_go c s i last)%Z.
Proof.
  revert i last. induction s as [|a s IH]; intros i last Hl; simpl; [lia|].
  case_decide.
  - specialize (IH (i + 1)%Z i). lia.
  - apply IH. lia.
Qed.

Lemma rfind_go_occurs (c : ascii) (x y : string) (i last : Z) :
  (last ≤ i → i + Z.of_nat (String.length x) ≤ Helpers.rfind_go c (x +:+ String c y) i last)%Z.
Proof.
  revert i last. induction x as [|a x IH]; intros i last Hl.
  - rewrite str_app_nil_l. simpl. rewrite decide_True by done.
    pose proof (rfind_go_ge_last c y (i + 1) i). lia.
  - rewrite str_app_cons. simpl String.length. simpl Helpers.rfind_go.
    specialize (IH (i + 1)%Z (if decide (a = c) then i else last)).
    case_decide; lia.
Qed.

(** The extension returned by [splitext] is empty, or it is the last dot
    of the path with what follows it, which holds no separator. *)
Lemma splitext_extension (p : string) :
  snd (Helpers.splitext p) = "" ∨
  ∃ a b, p = a +:+ String "." b ∧ absent "." b ∧ absent "/" b ∧
         snd (Helpers.splitext p) = String "." b.
Proof.
  unfold Helpers.splitext.
  destruct (Helpers.rfind "/" p <? Helpers.rfind "." p)%Z eqn:E; [|by left].
  destruct (splitext_scan_cases p (Helpers.rfind "." p) (Helpers.rfind "/" p + 1)
              (Z.to_nat (Helpers.rfind "." p - Helpers.rfind "/" p))) as [-> | ->];
    [by left|].
  right. simpl. apply Z.ltb_lt in E.
  destruct (rfind_spec "." p) as [[_ Hr] | (a & b & Hp & Hb & Hr)].
  - rewrite Hr in E.
    destruct (rfind_spec "/" p) as [[_ Hs] | (a & b & _ & _ & Hs)]; rewrite Hs in E; lia.
  - exists a, b. split; [done|]. split; [done|]. split.
    + assert (Hdec : absent "/" b ∨ ¬ absent "/" b)
        by (unfold absent; destruct (Py.forall_chars _ b); [by left | by right]).
      destruct Hdec as [?|Hn]; [done|]. exfalso.
      apply present_split in Hn as (x & y & ->).
      assert (Hp' : p = (a +:+ String "." x) +:+ String "/" y)
        by (by rewrite Hp, str_app_assoc, str_app_cons).
      pose proof (rfind_go_occurs "/" (a +:+ String "." x) y 0 (-1)) as Hocc.
      rewrite <- Hp' in Hocc. fold (Helpers.rfind "/" p) in Hocc.
      rewrite str_length_app in Hocc. simpl String.length in Hocc. lia.
    + rewrite Hr, Nat2Z.id, Hp, drop_app_length_str. done.
Qed.

Lemma app_not_nil {A} (l : list A) (x : A) : l ++ [x] ≠ [].
Proof. by destruct l. Qed.

Lemma lower_char_dot : Py.lower_char "." = "."%char.
Proof. reflexivity. Qed.

Lemma absent_not_contains (c : ascii) (s : string) :
  absent c s → Py.contains (String c "") s = false.
Proof.
  intros Habs. destruct (Py.contains _ s) eqn:E; [|done].
  apply contains_spec in E as (pre & post & ->).
  apply absent_app in Habs as [_ Habs]. rewrite str_app_cons, str_app_nil_l in Habs.
  apply absent_cons in Habs as [? _]. done.
Qed.

(** What follows the last dot of a name with an extension. *)
Lemma rsplit_dot_1_extension (stem ext : string) :
  absent "." ext → Ingestion.rsplit_dot_1 (stem +:+ String "." ext) = ext.
Proof.
  intros Hext. unfold Ingestion.rsplit_dot_1, Helpers.rfind.
  rewrite rfind_go_last by done.
  replace (Z.to_nat (0 + Z.of_nat (String.length stem) + 1)) with (S (String.length stem)) by lia.
  apply drop_succ_app_length.
Qed.

(** The loop of [format_file_size] divides by 1024 until the value is
    below 1024 or the last unit is reached. *)
Lemma scale_spec (fuel i : nat) (q : Q) :
  i + fuel = 4 → (1 <= q)%Q →
  ∃ v j, Helpers.scale q i fuel = (v, j) ∧ i ≤ j ≤ 4 ∧
         (q == v * inject_Z (1024 ^ Z.of_nat (j - i)))%Q ∧
         (1 <= v)%Q ∧ ((v < 1024)%Q ∨ j = 4).
Proof.
  revert i q. induction fuel as [|fuel IH]; intros i q Hi Hq.
  - exists q, i. simpl. split; [done|]. split; [lia|]. rewrite Nat.sub_diag.
    change (inject_Z (1024 ^ Z.of_nat 0)) with 1%Q.
    split; [ring|]. split; [done|]. right. lia.
  - simpl Helpers.scale. destruct (Qle_bool 1024 q) eqn:E.
    + assert (Hlt : (i <? 4) = true) by (apply Nat.ltb_lt; lia).
      simpl length. simpl Nat.sub. rewrite Hlt. simpl andb.
      apply Qle_bool_iff in E.
      destruct (IH (i + 1) (q / 1024)%Q) as (v & j & Hs & Hj & Hv & H1 & Hend); [lia| |].
      { apply Qle_shift_div_l; [reflexivity|]. by rewrite Qmult_1_l. }
      exists v, j. split; [done|]. split; [lia|]. split; [|done].
      replace (j - i) with (S (j - (i + 1))) by lia.
      rewrite Nat2Z.inj_succ, Z.pow_succ_r by lia. rewrite inject_Z_mult.
      transitivity (q / 1024 * 1024)%Q; [field|].
      rewrite Hv. change (inject_Z 1024) with 1024%Q. ring.
    + exists q, i. rewrite andb_false_l. split; [done|]. split; [lia|].
      rewrite Nat.sub_diag. change (inject_Z (1024 ^ Z.of_nat 0)) with 1%Q.
      split; [ring|]. split; [done|]. left.
      apply Qnot_le_lt. intros Hle. apply Qle_bool_iff in Hle. congruence.
Qed.

(** X19. [validate_file_upload] returns no error exactly for a named file
    whose lowered extension, as [os.path.splitext] gives it with its dot,
    is one of the allowed extensions and whose size is not zero and at most
    [max_size_mb] MiB. *)
Theorem validate_file_upload_accepts
    (fmt : Helpers.Formats) (file : option Helpers.FileStorage)
    (allowed : list string) (max_size_mb : Z) :
  Helpers.validate_file_upload fmt file allowed max_size_mb = [] ↔
  acceptable file allowed max_size_mb.
Proof.
  unfold Helpers.validate_file_upload, Helpers.bool_file, acceptable.
  destruct file as [f|]; [|split; [done | by intros (? & ? & ? & _)]].
  destruct (Helpers.filename f) as [[|c name]|] eqn:Hname; simpl;
    try (split; [done | intros (? & ? & [= <-] & Hn & Hne & _); congruence]).
  destruct (Py.elem _ allowed) eqn:He; simpl.
  - apply elem_spec in He.
    destruct (Z.ltb_spec (max_size_mb * 1024 * 1024) (Helpers.file_size f)) as [Hl|Hl]; simpl.
    + split; [by destruct (_ =? 0)%Z|]. intros (? & ? & [= <-] & _ & _ & _ & _ & ?). lia.
    + destruct (Z.eqb_spec (Helpers.file_size f) 0) as [Hz|Hz]; simpl.
      * split; [done|]. by intros (? & ? & [= <-] & _ & _ & _ & ? & _).
      * split; [|done]. intros _. exists f, (String c name). by rewrite Hname.
  - split.
    + intros H. destruct (_ <? _)%Z, (_ =? 0)%Z; simpl in H; discriminate H.
    + intros (? & ? & [= <-] & Hn & _ & Hin & _). rewrite Hname in Hn. injection Hn as <-.
      apply elem_spec in Hin. simpl in Hin. congruence.
Qed.

(** X20. When the allowed extensions are written without their dot, as
    the configuration's [ALLOWED_EXTENSIONS] are, [validate_file_upload]
    reports an error for every upload: the extension it looks up keeps the
    dot that [os.path.splitext] returns. *)
Theorem dotless_extensions_reject_every_upload
    (fmt : Helpers.Formats) (file : option Helpers.FileStorage)
    (allowed : list string) (max_size_mb : Z) :
  written_without_dot allowed →
  Helpers.validate_file_upload fmt file allowed max_size_mb ≠ [].
Proof.
  intros Hdot. unfold Helpers.validate_file_upload, Helpers.bool_file.
  destruct file as [f|]; [|done].
  destruct (Helpers.filename f) as [[|c name]|]; simpl; try done.
  destruct (Py.elem _ allowed) eqn:He; simpl.
  - exfalso. apply elem_spec in He. apply Hdot in He as [Hne Hsw].
    destruct (splitext_extension (String c name)) as [Hx | (a & b & _ & _ & _ & Hx)];
      rewrite Hx in Hne, Hsw; simpl in Hne, Hsw; done.
  - destruct (_ <? _)%Z, (_ =? 0)%Z; simpl; done.
Qed.

Lemma dotless_extensions_reject_every_upload_witness :
  written_without_dot Config.ALLOWED_EXTENSIONS ∧
  Helpers.validate_file_upload Models.formats
    (Some {| Helpers.filename := Some "report.pdf"; Helpers.file_size := 2048 |})
    Config.ALLOWED_EXTENSIONS 16 ≠ [].
Proof.
  assert (H : written_without_dot Config.ALLOWED_EXTENSIONS).
  { intros ext Hin. unfold Config.ALLOWED_EXTENSIONS in Hin.
    rewrite !elem_of_cons, elem_of_nil in Hin.
    destruct Hin as [->|[->|[->|[->|[->|[->|[->|[]]]]]]]]; done. }
  split; [exact H|]. apply dotless_extensions_reject_every_upload. exact H.
Defined.

(** X21. The message [No filename provided] is never among the errors of
    [validate_file_upload]: an upload without a file name is already falsy
    and is reported as [No file provided]. *)
Theorem no_filename_message_is_never_returned
    (fmt : Helpers.Formats) (file : option Helpers.FileStorage)
    (allowed : list string) (max_size_mb : Z) :
  "No filename provided" ∉ Helpers.validate_file_upload fmt file allowed max_size_mb.
Proof.
  unfold Helpers.validate_file_upload, Helpers.bool_file.
  destruct file as [f|]; [|by rewrite list_elem_of_singleton].
  destruct (Helpers.filename f) as [[|c name]|]; simpl;
    try by rewrite list_elem_of_singleton.
  destruct (negb _), (_ <? _)%Z, (_ =? 0)%Z; simpl;
    rewrite ?elem_of_cons, ?elem_of_nil, ?str_app_cons, ?str_app_nil_l;
    intros H; repeat destruct H as [H|H]; try discriminate H; done.
Qed.

(** [os.path.splitext] splits a path in two parts that give the path
    back when joined; the extension is empty, or it is a dot followed by
    text without dot or separator. *)
Theorem splitext_splits_path (p : string) :
  fst (Helpers.splitext p) +:+ snd (Helpers.splitext p) = p ∧
  (snd (Helpers.splitext p) = "" ∨
   ∃ ext, snd (Helpers.splitext p) = String "." ext ∧ absent "." ext ∧ absent "/" ext).
Proof.
  split.
  - unfold Helpers.splitext. destruct (_ <? _)%Z; [|apply str_app_nil_r].
    destruct (splitext_scan_cases p (Helpers.rfind "." p) (Helpers.rfind "/" p + 1)
                (Z.to_nat (Helpers.rfind "." p - Helpers.rfind "/" p))) as [-> | ->]; simpl.
    + apply str_app_nil_r.
    + apply take_drop_str.
  - destruct (splitext_extension p) as [?|(a & b & _ & ? & ? & ?)]; [by left|].
    right. by exists b.
Qed.

(** X22. [format_file_size] of a positive size that a float holds exactly
    (below 2^53) renders a value in one of the units B, KB, MB, GB, TB: the
    value times the unit's power of 1024 is the size, the value is at least
    1, and it is below 1024 unless the unit is TB. *)
Theorem format_file_size_unit (fmt : Helpers.Formats) (size : Z) :
  (0 < size < 2 ^ 53)%Z →
  ∃ value i unit,
    Helpers.size_names !! i = Some unit ∧
    Helpers.format_file_size fmt size = Helpers.format_1f fmt value +:+ unit ∧
    in_unit size value i ∧ (1 <= value)%Q ∧ ((value < 1024)%Q ∨ unit = "TB").
Proof.
  intros Hpos. unfold Helpers.format_file_size, in_unit.
  destruct (Z.eqb_spec size 0) as [?|_]; [lia|].
  destruct (scale_spec 4 0 (inject_Z size)) as (v & j & Hs & Hj & Hv & H1 & Hend); [done| |].
  { change 1%Q with (inject_Z 1). rewrite <- Zle_Qle. lia. }
  rewrite Hs. rewrite Nat.sub_0_r in Hv.
  assert (Hunit : ∃ unit, Helpers.size_names !! j = Some unit ∧ (j = 4 → unit = "TB")).
  { destruct j as [|[|[|[|[|j]]]]]; simpl; [| | | | |lia];
      (eexists; split; [done|]; intros ?; first [lia | done]). }
  destruct Hunit as (unit & Hu & Hlast). exists v, j, unit. rewrite Hu. simpl.
  split; [done|]. split; [done|]. split; [done|]. split; [done|].
  destruct Hend; [by left | right; auto].
Qed.

Lemma format_file_size_unit_witness :
  ∃ value i unit,
    Helpers.size_names !! i = Some unit ∧
    Helpers.format_file_size Models.formats 1536 = Helpers.format_1f Models.formats value +:+ unit ∧
    in_unit 1536 value i ∧ (1 <= value)%Q ∧ ((value < 1024)%Q ∨ unit = "TB").
Proof. apply (format_file_size_unit Models.formats 1536). lia. Defined.

(** X23. [allowed_file] accepts exactly the names that end in a dot
    followed by dot-free text whose lowered form is an allowed extension. *)
Theorem allowed_file_accepts (allowed : list string) (name : string) :
  Ingestion.allowed_file allowed name = true ↔
  ∃ ext, has_extension name ext ∧ Py.lower ext ∈ allowed.
Proof.
  unfold Ingestion.allowed_file, has_extension. rewrite andb_true_iff, elem_spec. split.
  - intros [Hc Hin].
    destruct (rfind_spec "." name) as [[Habs _] | (a & b & -> & Hb & _)].
    + apply absent_not_contains in Habs. congruence.
    + rewrite rsplit_dot_1_extension in Hin by done. exists b. split; [by exists a | done].
  - intros (ext & (stem & -> & Hext) & Hin). split.
    + apply contains_spec. exists stem, ext. by rewrite str_app_cons, str_app_nil_l.
    + by rewrite rsplit_dot_1_extension.
Qed.

(** X24. A name passes both checks of the upload route, the one of
    [validate_file_upload] and the one of [allowed_file], against the same
    list only if the list offers an extension both with and without its
    dot, or the empty extension. *)
Theorem both_upload_checks_need_both_spellings
    (fmt : Helpers.Formats) (f : Helpers.FileStorage) (name : string)
    (allowed : list string) (max_size_mb : Z) :
  Helpers.filename f = Some name →
  Helpers.validate_file_upload fmt (Some f) allowed max_size_mb = [] →
  Ingestion.allowed_file allowed name = true →
  offers_both_spellings allowed.
Proof.
  intros Hname Hval Hing. unfold offers_both_spellings.
  assert (Hext : Py.lower (snd (Helpers.splitext name)) ∈ allowed).
  { apply elem_spec. revert Hval. unfold Helpers.validate_file_upload, Helpers.bool_file.
    rewrite Hname. destruct name as [|c name]; simpl; [done|].
    destruct (Py.elem _ allowed); [done|]. simpl.
    destruct (_ <? _)%Z, (_ =? 0)%Z; simpl; discriminate. }
  apply andb_true_iff in Hing as [_ Hin]. apply elem_spec in Hin.
  destruct (splitext_extension name) as [Hx | (a & b & -> & Hb & _ & Hx)].
  - left. by rewrite Hx in Hext.
  - right. exists b. rewrite rsplit_dot_1_extension in Hin by done.
    rewrite Hx in Hext. done.
Qed.

Lemma both_upload_checks_need_both_spellings_witness :
  offers_both_spellings ["pdf"; ".pdf"].
Proof.
  apply (both_upload_checks_need_both_spellings Models.formats
           {| Helpers.filename := Some "Plan.PDF"; Helpers.file_size := 2048 |}
           "Plan.PDF" ["pdf"; ".pdf"] 16); reflexivity.
Defined.

Lemma take_take (k n : nat) (s : string) : Py.take k (Py.take n s) = Py.take (k `min` n) s.
Proof.
  revert n s. induction k as [|k IH]; intros [|n] [|c s]; simpl; try done.
  by rewrite IH.
Qed.

(** *** Floats *)

Lemma half_even_ge_floor (q : Q) : (Qfloor q <= half_even q)%Z.
Proof.
  unfold half_even. destruct (_ ?= _)%Q; [destruct (Z.even _)| |]; lia.
Qed.

Lemma round64_nonneg (q : Q) : (0 <= q)%Q → (0 <= round64 q)%Q.
Proof.
  intros Hq. unfold round64. destruct (Qeq_bool q 0); [apply Qle_refl|].
  cbv zeta. rewrite (proj2 (Qle_bool_iff 0 q) Hq). rewrite Qred_correct.
  apply Qmult_le_0_compat; [|apply Qpower_0_le; discriminate].
  change 0%Q with (inject_Z 0). rewrite <- Zle_Qle.
  etransitivity; [|apply half_even_ge_floor].
  rewrite <- (Qfloor_Z 0). apply Qfloor_resp_le.
  apply Qle_shift_div_l; [by apply Qpower_0_lt|].
  rewrite Qmult_0_l. apply Qabs_nonneg.
Qed.

Lemma fmul_nonneg (x y : Q) : (0 <= x)%Q → (0 <= y)%Q → (0 <= fmul x y)%Q.
Proof. intros Hx Hy. apply round64_nonneg. by apply Qmult_le_0_compat. Qed.

(** No index is beyond the threshold unless it is positive. *)
Lemma not_beyond_negative (n : nat) (z : Z) :
  (z < 0)%Z →
  Qltb (fmul (inject_Z (Z.of_nat n)) (round64 (7 # 10))) (inject_Z z) = false.
Proof.
  intros Hz. apply not_true_iff_false. rewrite Qltb_lt. apply Qle_not_lt.
  apply (Qle_trans _ 0).
  - change 0%Q with (inject_Z 0). rewrite <- Zle_Qle. lia.
  - apply fmul_nonneg; [|by apply round64_nonneg].
    change 0%Q with (inject_Z 0). rewrite <- Zle_Qle. lia.
Qed.

(** *** Positions *)

Lemma get_app_length (a b : string) (j : nat) :
  String.get (String.length a + j) (a +:+ b) = String.get j b.
Proof. induction a as [|x a IH]; [done|]. by rewrite str_app_cons. Qed.

Lemma get_lt (s : string) (i : nat) (c : ascii) :
  String.get i s = Some c → i < String.length s.
Proof.
  revert i. induction s as [|x s IH]; intros [|i]; simpl; try done; [lia|].
  intros H%IH. lia.
Qed.

Lemma absent_get (c : ascii) (s : string) (j : nat) :
  absent c s → String.get j s ≠ Some c.
Proof.
  revert j. induction s as [|x s IH]; intros j; [by destruct j|].
  rewrite absent_cons. intros [Hx Hs]. destruct j as [|j]; simpl; [congruence | by apply IH].
Qed.

Lemma rfind_last (c : ascii) (s : string) :
  last_or_minus_one (fun x => bool_decide (x = c)) s (Helpers.rfind c s).
Proof.
  destruct (rfind_spec c s) as [[Habs ->] | (a & b & -> & Hb & ->)].
  - left. split; [done|]. intros j (x & Hget & ->%bool_decide_eq_true).
    by apply (absent_get c s j).
  - right. exists (String.length a). split; [done|]. split.
    + exists c. rewrite <- (Nat.add_0_r (String.length a)), get_app_length.
      split; [done | by apply bool_decide_eq_true].
    + intros j Hj (x & Hget & ->%bool_decide_eq_true).
      replace j with (String.length a + S (j - String.length a - 1)) in Hget by lia.
      rewrite get_app_length in Hget. simpl in Hget. by apply absent_get in Hget.
Qed.

Lemma last_or_minus_one_max (P Q : ascii → bool) (s : string) (z1 z2 : Z) :
  last_or_minus_one P s z1 → last_or_minus_one Q s z2 →
  last_or_minus_one (fun c => P c || Q c) s (Z.max z1 z2).
Proof.
  assert (Hor : ∀ j, char_at_is (fun c => P c || Q c) s j →
                     char_at_is P s j ∨ char_at_is Q s j).
  { intros j (c & Hget & [H|H]%orb_true_iff); [left | right]; by exists c. }
  intros [[-> H1] | (l1 & -> & (c1 & Hg1 & Hp1) & Hl1)]
         [[-> H2] | (l2 & -> & (c2 & Hg2 & Hp2) & Hl2)].
  - left. split; [done|]. intros j [H|H]%Hor; [by apply (H1 j) | by apply (H2 j)].
  - right. exists l2. split; [lia|]. split.
    + exists c2. split; [done|]. by rewrite Hp2, orb_true_r.
    + intros j Hj [H|H]%Hor; [by apply (H1 j) | by apply (Hl2 j)].
  - right. exists l1. split; [lia|]. split.
    + exists c1. split; [done|]. by rewrite Hp1.
    + intros j Hj [H|H]%Hor; [by apply (Hl1 j) | by apply (H2 j)].
  - right. exists (l1 `max` l2). split; [lia|]. split.
    + destruct (Nat.max_spec l1 l2) as [[_ ->] | [_ ->]].
      * exists c2. split; [done|]. by rewrite Hp2, orb_true_r.
      * exists c1. split; [done|]. by rewrite Hp1.
    + intros j Hj [H|H]%Hor; [apply (Hl1 j); [lia | done] | apply (Hl2 j); [lia | done]].
Qed.

Lemma last_position_unique (P : ascii → bool) (s : string) (i j : nat) :
  last_position P s i → last_position P s j → i = j.
Proof.
  intros [Hi Hti] [Hj Htj]. destruct (Nat.lt_trichotomy i j) as [H|[H|H]]; [|done|].
  - by destruct (Hti j H).
  - by destruct (Htj i H).
Qed.

Lemma last_position_lt (P : ascii → bool) (s : string) (i : nat) :
  last_position P s i → i < String.length s.
Proof. intros [(c & Hget & _) _]. by apply get_lt in Hget. Qed.

(** The comparison of an index found by [rfind] with the threshold. *)
Lemma threshold_test (P : ascii → bool) (s : string) (n : nat) (z : Z) :
  last_or_minus_one P s z →
  (Qltb (fmul (inject_Z (Z.of_nat n)) (round64 (7 # 10))) (inject_Z z) = true ∧
   ∃ l, z = Z.of_nat l ∧ last_position P s l ∧ beyond n l) ∨
  (Qltb (fmul (inject_Z (Z.of_nat n)) (round64 (7 # 10))) (inject_Z z) = false ∧
   ∀ l, last_position P s l → ¬ beyond n l).
Proof.
  intros [[-> Hnone] | (l & -> & Hl)].
  - right. split; [by apply not_beyond_negative|]. intros l [Hl _]. by destruct (Hnone l).
  - destruct (Qltb _ _) eqn:E.
    + left. split; [done|]. exists l. split; [done|]. split; [done|]. by apply Qltb_lt.
    + right. split; [done|]. intros l' Hl'. rewrite (last_position_unique _ _ _ _ Hl' Hl).
      unfold beyond. rewrite <- Qltb_lt. congruence.
Qed.

Lemma take_take_le (k n : nat) (s : string) :
  k ≤ n → Py.take k (Py.take n s) = Py.take k s.
Proof. intros H. rewrite take_take. by rewrite Nat.min_l. Qed.

Lemma take_all (n : nat) (s : string) : String.length s ≤ n → Py.take n s = s.
Proof.
  revert s. induction n as [|n IH]; intros [|c s]; simpl; try done; [lia|].
  intros H. rewrite IH; [done | lia].
Qed.

(** X25. [extract_text_preview] returns the stripped text when it has at
    most [max_length] characters. A longer stripped text is cut and "..."
    is appended: right after the last of '.', '!', '?' among its first
    [max_length] characters when the index of that mark is greater than
    [max_length * 0.7] (in float arithmetic); otherwise before the last
    space among them, under the same condition on its index; otherwise
    after [max_length] characters. The preview is never longer than
    [max_length + 3]. *)
Theorem extract_text_preview_cut (text : string) (max_length : nat) :
  let stripped := Py.strip text in
  let preview := Helpers.extract_text_preview text max_length in
  (String.length stripped ≤ max_length → preview = stripped) ∧
  (max_length < String.length stripped →
   ∃ k, cut_point stripped max_length k ∧ k ≤ max_length ∧
        preview = Py.take k stripped +:+ "...") ∧
  String.length preview ≤ max_length + 3.
Proof.
  intros stripped preview.
  assert (Hlong : max_length < String.length stripped →
            ∃ k, cut_point stripped max_length k ∧ k ≤ max_length ∧
                 preview = Py.take k stripped +:+ "...").
  { intros Hlen. subst preview. unfold Helpers.extract_text_preview.
    destruct (String.eqb_spec text "") as [->|_].
    { subst stripped. rewrite strip_empty in Hlen. simpl in Hlen. lia. }
    fold stripped. unfold Py.len.
    destruct (Nat.leb_spec (String.length stripped) max_length) as [?|_]; [lia|].
    cbv zeta. unfold cut_point.
    set (cut := Py.take max_length stripped).
    assert (Hcut : String.length cut ≤ max_length) by apply take_length.
    pose proof (last_or_minus_one_max _ _ cut _ _
                  (last_or_minus_one_max _ _ cut _ _ (rfind_last "." cut) (rfind_last "!" cut))
                  (rfind_last "?" cut)) as Hmark.
    destruct (threshold_test _ _ max_length _ Hmark)
      as [(-> & l & -> & Hl & Hb) | (-> & Hnomark)].
    - exists (l + 1). pose proof (last_position_lt _ _ _ Hl).
      split; [left; by exists l|]. split; [lia|].
      replace (Z.to_nat (Z.of_nat l + 1)) with (l + 1) by lia.
      subst cut. by rewrite take_take_le by lia.
    - destruct (threshold_test _ _ max_length _ (rfind_last " " cut))
        as [(-> & p & -> & Hp & Hb) | (-> & Hnospace)].
      + exists p. pose proof (last_position_lt _ _ _ Hp).
        split; [right; split; [done|]; left; by exists p|]. split; [lia|].
        rewrite Nat2Z.id. subst cut. by rewrite take_take_le by lia.
      + exists max_length. split; [|done]. right. split; [done|]. by right. }
  split; [|split; [done|]].
  - intros Hlen. subst preview. unfold Helpers.extract_text_preview.
    destruct (String.eqb_spec text "") as [->|_]; [by subst stripped; rewrite strip_empty|].
    fold stripped. unfold Py.len.
    by destruct (Nat.leb_spec (String.length stripped) max_length) as [_|?]; [|lia].
  - destruct (Nat.le_gt_cases (String.length stripped) max_length) as [Hle|Hgt].
    + assert (Hp : preview = stripped).
      { subst preview. unfold Helpers.extract_text_preview.
        destruct (String.eqb_spec text "") as [->|_];
          [by subst stripped; rewrite strip_empty|].
        fold stripped. unfold Py.len.
        by destruct (Nat.leb_spec (String.length stripped) max_length) as [_|?]; [|lia]. }
      rewrite Hp. lia.
    + destruct (Hlong Hgt) as (k & _ & Hk & ->). rewrite str_length_app.
      pose proof (take_length k stripped). change (String.length "...") with 3. lia.
Qed.

(** The threshold is the float product: 90 * 0.7 is just below 63, so a
    sentence that ends at index 63 of a text cut at 90 is kept whole. *)
Example extract_text_preview_example :
  let text := Models.replicate_char 63 "a" +:+ "." +:+ Models.replicate_char 62 "b" in
  Helpers.extract_text_preview text 90 = Models.replicate_char 63 "a" +:+ "....".
Proof. vm_compute. reflexivity. Qed.
